(** * flex-fuse: the mount/unmount orchestration of [pkg/flex/mounter.go]

    A shallow embedding of the FlexVolume mounter.  Pure helpers are Rocq
    functions; the code that talks to the host (the [mount] listing, the
    container runtime, the file system, [time.Sleep]) runs in a small
    state-and-trace monad over an abstract host, so that every theorem
    holds for every behaviour of the host.  Calls to [journal] only log
    and are left out. *)

From Stdlib Require Import String Ascii List ZArith NArith Lia Bool Arith.
Import ListNotations.
Local Open Scope list_scope.
Local Open Scope string_scope.

(** ** Go values *)

(** A Go [error] value that is not nil: its [Error()] text, and whether
    [os.IsNotExist] holds of it. *)
Record GoError : Type := mkError {
  Error : string;
  notExist : bool
}.

(** Go's [error]: [None] is [nil]. *)
Definition error : Type := option GoError.

(** A Go pair [(value, error)] of which the caller reads the value only
    when the error is nil. *)
Inductive result (A : Type) : Type :=
| Ok (a : A)
| Err (e : GoError).
Arguments Ok {A} a.
Arguments Err {A} e.

(** [fmt.Errorf] with the text already formatted. *)
Definition fmt_Errorf (s : string) : GoError := mkError s false.

(** [os.IsNotExist]. *)
Definition os_IsNotExist (err : error) : bool :=
  match err with
  | Some e => notExist e
  | None => false
  end.

(** ** The functions of Go's [strings] and [path] that the code calls *)

Module strings.

(** [strings.HasPrefix]. *)
Definition HasPrefix (s pre : string) : bool := String.prefix pre s.

(** [strings.Contains]: [substr] occurs somewhere in [s]. *)
Fixpoint Contains (s substr : string) : bool :=
  String.prefix substr s ||
  match s with
  | EmptyString => false
  | String _ s' => Contains s' substr
  end.

(** [strings.Split] with a separator of one byte. *)
Fixpoint Split (s : string) (sep : ascii) : list string :=
  match s with
  | EmptyString => [EmptyString]
  | String c s' =>
      if Ascii.eqb c sep then EmptyString :: Split s' sep
      else match Split s' sep with
           | hd :: tl => String c hd :: tl
           | [] => [String c EmptyString]
           end
  end.

(** [strings.Join]. *)
Fixpoint Join (elems : list string) (sep : string) : string :=
  match elems with
  | [] => EmptyString
  | [e] => e
  | e :: rest => e ++ sep ++ Join rest sep
  end.

End strings.

Module path.

(** The elements kept by [path.Clean]: empty and [.] elements go, a
    [..] drops the element before it, and at the start of a rooted path
    a [..] goes too.  [acc] is the cleaned prefix, last element first. *)
Fixpoint cleanElems (rooted : bool) (acc : list string) (elems : list string)
  : list string :=
  match elems with
  | [] => rev acc
  | e :: rest =>
      if String.eqb e "" || String.eqb e "." then cleanElems rooted acc rest
      else if String.eqb e ".." then
        match acc with
        | top :: acc' =>
            if String.eqb top ".." then cleanElems rooted (e :: acc) rest
            else cleanElems rooted acc' rest
        | [] =>
            if rooted then cleanElems rooted acc rest
            else cleanElems rooted (e :: acc) rest
        end
      else cleanElems rooted (e :: acc) rest
  end.

(** [path.Clean]. *)
Definition Clean (p : string) : string :=
  match p with
  | EmptyString => "."
  | String c _ =>
      let rooted := Ascii.eqb c "/"%char in
      let kept := strings.Join (cleanElems rooted [] (strings.Split p "/"%char)) "/" in
      if rooted then "/" ++ kept
      else if String.eqb kept "" then "." else kept
  end.

(** [path.Join]: empty elements are ignored, the rest is joined with
    slashes and cleaned; no element at all gives the empty string. *)
Definition Join (elem : list string) : string :=
  match filter (fun e => negb (String.eqb e "")) elem with
  | [] => ""
  | es => Clean (strings.Join es "/")
  end.

End path.

(** A path element that [path.Clean] keeps as it is: not empty, without
    a slash, and neither [.] nor [..]. *)
Definition isPlainElem (s : string) : bool :=
  negb (existsb (Ascii.eqb "/") (list_ascii_of_string s))
  && negb (String.eqb s "") && negb (String.eqb s ".")
  && negb (String.eqb s "..").

(** [filepath.Separator] on the hosts the plugin runs on. *)
Definition filepath_Separator : ascii := "/"%char.

(** ** The Path Identity Resolver *)

(** The [for ... range splitTargetPath] loop of
    [getContainerNameFromTargetPath]: [rest] is what is left to scan and
    [targetPathPartIdx] the index of its head. *)
Fixpoint scanForPods (targetPath : string) (splitTargetPath : list string)
    (targetPathPartIdx : nat) (rest : list string) : result string :=
  match rest with
  | [] => Err (fmt_Errorf ("Could not find pod directory in path: " ++ targetPath))
  | targetPathPart :: rest' =>
      if String.eqb targetPathPart "pods" then
        let podIDIdx := targetPathPartIdx + 1 in
        if Nat.leb (List.length splitTargetPath) podIDIdx then
          Err (fmt_Errorf ("Expected a directory after pods, found it at the end: "
                           ++ targetPath))
        else
          Ok ("v3io-fuse-" ++ nth podIDIdx splitTargetPath ""
              ++ "-" ++ nth (List.length splitTargetPath - 1) splitTargetPath "")
      else scanForPods targetPath splitTargetPath (S targetPathPartIdx) rest'
  end.

Definition getContainerNameFromTargetPath (targetPath : string) : result string :=
  let splitTargetPath := strings.Split targetPath filepath_Separator in
  scanForPods targetPath splitTargetPath 0 splitTargetPath.

(** [%o] of [fmt.Sprintf] at an unsigned value: its octal digits.
    [fuel] bounds the number of digits. *)
Fixpoint octalDigits (fuel : nat) (n : N) (acc : string) : string :=
  match fuel with
  | O => acc
  | S fuel' =>
      let acc' := String (ascii_of_N (48 + N.modulo n 8)) acc in
      if N.ltb n 8 then acc' else octalDigits fuel' (N.div n 8) acc'
  end.

Definition fmt_o (n : N) : string := octalDigits (S (N.to_nat (N.size n))) n "".

(** ** The data model *)

(** Modelled from the spec: the declaration of [Spec] is in a file of the
    package that is not part of the sources; section 6 gives its fields
    (access credential, cluster identifier, container name, optional
    sub-path, optional JSON-encoded list of directory descriptors), and
    [mounter.go] reads [Container], [SubPath], [Namespace] and
    [DirsToCreate]. *)
Record Spec : Type := mkSpec {
  SubPath : string;
  Container : string;
  Cluster : string;
  AccessKey : string;
  Namespace : string;
  DirsToCreate : string
}.

(** Modelled from the spec: a Directory Descriptor, a name and permission
    bits ([os.FileMode], 32 bits without sign); its declaration is not
    part of the sources. *)
Record DirToCreate : Type := mkDirToCreate {
  Name : string;
  Permissions : N
}.

(** Modelled from the spec: the fields of [Config] that [mounter.go]
    reads; its declaration is not part of the sources. *)
Record Config : Type := mkConfig {
  Type_ : string;
  ImageRepository : string;
  ImageTag : string;
  V3ioConfigPath : string
}.

Record Mounter : Type := mkMounter {
  Config_ : Config
}.

(** Modelled from the spec: the Mount Outcome, a success or failure with
    a message and, on failure, the cause (which [Unmount] leaves nil on
    a timeout).  The constructors stand for the calls of
    [NewSuccessResponse] and [NewFailResponse], declared outside the
    sources. *)
Inductive Response : Type :=
| NewSuccessResponse (message : string)
| NewFailResponse (message : string) (err : error).

Definition isSuccess (r : Response) : bool :=
  match r with
  | NewSuccessResponse _ => true
  | NewFailResponse _ _ => false
  end.

(** The two backends behind the interface [cri.CRI]. *)
Inductive CRI : Type :=
| Docker
| Containerd.

(** What the code imports from the rest of the repository and from Go's
    library and whose text is not part of the sources: the JSON decoders
    of the two record types, the methods of [Spec] and [Config], and
    [strings.Split] with an empty separator, which cuts a string into its
    UTF-8 sequences. *)
Class Imports : Type := {
  json_Unmarshal_Spec : string -> result Spec;
  json_Unmarshal_Dirs : string -> result (list DirToCreate);
  Spec_validate : Spec -> error;
  Spec_GetClusterName : Spec -> string;
  Spec_GetAccessKey : Spec -> string;
  Config_DataURLs : Config -> string -> result string;
  strings_Split_chars : string -> list string
}.

(** ** The host *)

(** Every call that leaves the process, with what it returned. *)
Inductive Event : Type :=
| EvMount (out : result string)
| EvUmount (targetPath : string) (err : error)
| EvStat (name : string) (err : error)
| EvMkdirAll (dir : string) (perm : N) (err : error)
| EvRemove (name : string) (err : error)
| EvSymlink (oldname newname : string) (err : error)
| EvSleep (d : Z)
| EvNewDocker (binaryPath : string) (r : result CRI)
| EvNewContainerd (socket namespace : string) (r : result CRI)
| EvCreateContainer (image name targetPath : string) (args : list string) (err : error)
| EvRemoveContainer (name : string) (err : error)
| EvClose (err : error).

(** The host as the code sees it: each call takes the state of the host
    to an answer and a next state.  Nothing is assumed of the answers. *)
Class Host (W : Type) : Type := {
  exec_mount_CombinedOutput : W -> result string * W;
  exec_umount_Start : string -> W -> error * W;
  os_Stat : string -> W -> error * W;
  os_MkdirAll : string -> N -> W -> error * W;
  os_Remove : string -> W -> error * W;
  os_Symlink : string -> string -> W -> error * W;
  time_Sleep : Z -> W -> W;
  cri_NewDocker : string -> W -> result CRI * W;
  cri_NewContainerd : string -> string -> W -> result CRI * W;
  cri_CreateContainer :
    CRI -> string -> string -> string -> list string -> W -> error * W;
  cri_RemoveContainer : CRI -> string -> W -> error * W;
  cri_Close : CRI -> W -> error * W
}.

(** [time.Second], in nanoseconds. *)
Definition time_Second : Z := 1000000000.

(** ** The monad: state of the host, and the trace of the calls made *)

Definition M (W A : Type) : Type := W -> A * list Event * W.

Definition ret {W A : Type} (a : A) : M W A := fun w => (a, [], w).

Definition bind {W A B : Type} (m : M W A) (k : A -> M W B) : M W B :=
  fun w =>
    let '(a, t1, w1) := m w in
    let '(b, t2, w2) := k a w1 in
    (b, (t1 ++ t2)%list, w2).

Notation "x <- m ;; k" := (bind m (fun x => k))
  (at level 61, m at next level, right associativity).

(** One call of the host, logged with its answer. *)
Definition call {W A : Type} (f : W -> A * W) (ev : A -> Event) : M W A :=
  fun w => let '(a, w') := f w in (a, [ev a], w').

Definition resultOf {W A : Type} (m : M W A) (w : W) : A := fst (fst (m w)).
Definition traceOf {W A : Type} (m : M W A) (w : W) : list Event := snd (fst (m w)).
Definition worldOf {W A : Type} (m : M W A) (w : W) : W := snd (m w).

Section Program.

Context {W : Type} {host : Host W} {imports : Imports}.

Definition mountCombinedOutput : M W (result string) :=
  call exec_mount_CombinedOutput EvMount.
Definition umountStart (targetPath : string) : M W error :=
  call (exec_umount_Start targetPath) (EvUmount targetPath).
Definition Stat (name : string) : M W error :=
  call (os_Stat name) (EvStat name).
Definition MkdirAll (dir : string) (perm : N) : M W error :=
  call (os_MkdirAll dir perm) (EvMkdirAll dir perm).
Definition Remove (name : string) : M W error :=
  call (os_Remove name) (EvRemove name).
Definition Symlink (oldname newname : string) : M W error :=
  call (os_Symlink oldname newname) (EvSymlink oldname newname).
Definition Sleep (d : Z) : M W unit :=
  fun w => (tt, [EvSleep d], time_Sleep d w).
Definition NewDocker (binaryPath : string) : M W (result CRI) :=
  call (cri_NewDocker binaryPath) (EvNewDocker binaryPath).
Definition NewContainerd (socket namespace : string) : M W (result CRI) :=
  call (cri_NewContainerd socket namespace) (EvNewContainerd socket namespace).
Definition CreateContainer (c : CRI) (image name targetPath : string)
    (args : list string) : M W error :=
  call (cri_CreateContainer c image name targetPath args)
       (EvCreateContainer image name targetPath args).
Definition RemoveContainer (c : CRI) (name : string) : M W error :=
  call (cri_RemoveContainer c name) (EvRemoveContainer name).
Definition Close (c : CRI) : M W error :=
  call (cri_Close c) EvClose.

(** [defer criInstance.Close()]: the call runs when the function
    returns, whatever it returns, and its error is dropped. *)
Definition deferClose {A : Type} (c : CRI) (body : M W A) : M W A :=
  a <- body ;;
  _ <- Close c ;;
  ret a.

(** *** The Mount-State Prober *)

Definition isMountPoint (path : string) : M W bool :=
  mountList <- mountCombinedOutput ;;
  match mountList with
  | Err _ => ret false
  | Ok mountListString =>
      ret (strings.Contains mountListString (path ++ " type"))
  end.

Definition createCRI : M W (result CRI) :=
  let dockerBinaryPath := "/usr/bin/docker" in
  err <- Stat dockerBinaryPath ;;
  if os_IsNotExist err
  then NewContainerd "/run/containerd/containerd.sock" "v3io"
  else NewDocker dockerBinaryPath.

(** *** The Helper Container Lifecycle Manager *)

Definition removeV3IOFUSEContainer (m : Mounter) (criInstance : CRI)
    (targetPath : string) : M W error :=
  match getContainerNameFromTargetPath targetPath with
  | Err err =>
      ret (Some (fmt_Errorf ("Could not get container name: " ++ Error err)))
  | Ok containerName =>
      err <- RemoveContainer criInstance containerName ;;
      match err with
      | Some e =>
          ret (Some (fmt_Errorf ("Could not remove container for " ++ targetPath
                                 ++ ": " ++ Error e)))
      | None => ret None
      end
  end.

(** ["\\" + strings.Join(strings.Split(s, ""), "\\")]. *)
Definition backslashEncoded (s : string) : string :=
  "\" ++ strings.Join (strings_Split_chars s) "\".

(** The argument vector of the helper, as [createV3IOFUSEContainer]
    builds it between the removal and the creation. *)
Definition mounterArgs (m : Mounter) (spec : Spec) (dataUrls : string)
  : list string :=
  let args :=
    ["/fuse/mounter.sh";
     "-o"; "allow_other";
     "--connection_strings"; dataUrls;
     "--mountpoint"; "/fuse_mount";
     "--session_key"; Spec_GetAccessKey spec] in
  let args :=
    if negb (String.eqb (V3ioConfigPath (Config_ m)) "")
    then (args ++ ["-f"; V3ioConfigPath (Config_ m)])%list
    else args in
  if negb (String.eqb (Container spec) "") then
    let args := (args ++ ["-a"; backslashEncoded (Container spec)])%list in
    if negb (String.eqb (SubPath spec) "")
    then (args ++ ["-p"; backslashEncoded (SubPath spec)])%list
    else args
  else args.

(** The loop [for _, interval := range intervals] at the end of
    [createV3IOFUSEContainer]: [true] when it returned nil from inside,
    [false] when it ran to its end. *)
Fixpoint waitMounted (targetPath : string) (intervals : list Z) : M W bool :=
  match intervals with
  | [] => ret false
  | interval :: rest =>
      mounted <- isMountPoint targetPath ;;
      if mounted then ret true
      else
        _ <- Sleep (interval * time_Second) ;;
        waitMounted targetPath rest
  end.

Definition createV3IOFUSEContainer (m : Mounter) (spec : Spec)
    (targetPath : string) : M W error :=
  r <- createCRI ;;
  match r with
  | Err err => ret (Some err)
  | Ok criInstance =>
    deferClose criInstance (
      let ImageRepository :=
        if String.eqb (ImageRepository (Config_ m)) "" then "iguazio/v3io-fuse"
        else ImageRepository (Config_ m) in
      let ImageTag :=
        if String.eqb (ImageTag (Config_ m)) "" then "local"
        else ImageTag (Config_ m) in
      match Config_DataURLs (Config_ m) (Spec_GetClusterName spec) with
      | Err err =>
          ret (Some (fmt_Errorf ("Could not get cluster data urls: " ++ Error err)))
      | Ok dataUrls =>
        match getContainerNameFromTargetPath targetPath with
        | Err err =>
            ret (Some (fmt_Errorf ("Failed to get container name: " ++ Error err)))
        | Ok containerName =>
            _ <- removeV3IOFUSEContainer m criInstance targetPath ;;
            let args := mounterArgs m spec dataUrls in
            err <- CreateContainer criInstance (ImageRepository ++ ":" ++ ImageTag)
                     containerName targetPath args ;;
            match err with
            | Some e =>
                ret (Some (fmt_Errorf ("Failed to create container for "
                                       ++ targetPath ++ ": " ++ Error e)))
            | None =>
                mounted <- waitMounted targetPath [1; 2; 4; 2; 1]%Z ;;
                if mounted then ret None
                else ret (Some (fmt_Errorf ("Failed to mount " ++ targetPath
                                            ++ " due to timeout")))
            end
        end
      end)
  end.

(** *** The Mount Orchestrator *)

(** The loop [for _, dir := range dirsToCreate] of [createDirs]. *)
Fixpoint createDirsLoop (targetPath : string) (dirsToCreate : list DirToCreate)
  : M W error :=
  match dirsToCreate with
  | [] => ret None
  | dir :: rest =>
      if strings.HasPrefix (Name dir) "/" then
        ret (Some (fmt_Errorf ("Only creation of relative path is supported ("
                               ++ Name dir ++ ")")))
      else
        let dirToCreate := targetPath ++ "/" ++ Name dir in
        err <- Stat dirToCreate ;;
        match err with
        | None => createDirsLoop targetPath rest
        | Some e =>
            if negb (os_IsNotExist err) then
              ret (Some (fmt_Errorf ("Stat failed for folder [" ++ dirToCreate
                                     ++ "]: " ++ Error e)))
            else
              err <- MkdirAll dirToCreate (Permissions dir) ;;
              match err with
              | Some e' =>
                  ret (Some (fmt_Errorf ("Failed to create folder (path: "
                                         ++ Name dir ++ ", filemode: "
                                         ++ fmt_o (Permissions dir) ++ "): "
                                         ++ Error e')))
              | None => createDirsLoop targetPath rest
              end
        end
  end.

Definition createDirs (m : Mounter) (spec : Spec) (targetPath : string)
  : M W error :=
  match json_Unmarshal_Dirs (DirsToCreate spec) with
  | Err err =>
      if negb (String.eqb (DirsToCreate spec) "") then
        ret (Some (fmt_Errorf ("Failed to parse dirsToCreate ["
                               ++ DirsToCreate spec ++ "]: " ++ Error err)))
      else ret None
  | Ok dirsToCreate => createDirsLoop targetPath dirsToCreate
  end.

Definition mountAsLink (m : Mounter) (spec : Spec) (targetPath : string)
  : M W Response :=
  let linkPath := path.Join ["/mnt/v3io"; Namespace spec; Container spec] in
  mounted <- isMountPoint linkPath ;;
  prepared <-
    (if negb mounted then
       err <- MkdirAll linkPath 493 ;;
       match err with
       | Some e =>
           ret (Some (NewFailResponse ("Failed to create target " ++ linkPath)
                                      (Some e)))
       | None =>
           err <- createV3IOFUSEContainer m spec linkPath ;;
           match err with
           | Some e =>
               ret (Some (NewFailResponse "Failed to create v3io FUSE container"
                                          (Some e)))
           | None => ret None
           end
       end
     else ret None) ;;
  match prepared with
  | Some response => ret response
  | None =>
      err <- Remove targetPath ;;
      match err with
      | Some e =>
          ret (NewFailResponse ("Failed to remove target " ++ targetPath) (Some e))
      | None =>
          err <- Symlink linkPath targetPath ;;
          match err with
          | Some e =>
              ret (NewFailResponse ("Failed to create link " ++ linkPath
                                    ++ " to target " ++ targetPath) (Some e))
          | None => ret (NewSuccessResponse "Successfully mounted as link")
          end
      end
  end.

Definition Mount (m : Mounter) (targetPath specString : string) : M W Response :=
  match json_Unmarshal_Spec specString with
  | Err err => ret (NewFailResponse "Failed to unmarshal spec" (Some err))
  | Ok spec =>
      match Spec_validate spec with
      | Some err => ret (NewFailResponse "Mount failed validation" (Some err))
      | None =>
          if String.eqb (Type_ (Config_ m)) "link" then mountAsLink m spec targetPath
          else
            mounted <- isMountPoint targetPath ;;
            if mounted then
              ret (NewSuccessResponse ("Already mounted: " ++ targetPath))
            else
              err <- createV3IOFUSEContainer m spec targetPath ;;
              match err with
              | Some e =>
                  ret (NewFailResponse "Failed to create v3io FUSE container"
                                       (Some e))
              | None =>
                  err <- createDirs m spec targetPath ;;
                  match err with
                  | Some e =>
                      ret (NewFailResponse "Failed to create folders" (Some e))
                  | None => ret (NewSuccessResponse "Successfully mounted")
                  end
              end
      end
  end.

Definition unmountAsLink (m : Mounter) (targetPath : string) : M W Response :=
  err <- Remove targetPath ;;
  match err with
  | Some e => ret (NewFailResponse "unable to remove link" (Some e))
  | None => ret (NewSuccessResponse "link removed")
  end.

(** The loop [for _, interval := range intervals] of [Unmount]: the
    response it returned from inside, or [None] when it ran to its
    end. *)
Fixpoint waitUnmounted (targetPath : string) (intervals : list Z)
  : M W (option Response) :=
  match intervals with
  | [] => ret None
  | interval :: rest =>
      mounted <- isMountPoint targetPath ;;
      if negb mounted then
        err <- Remove targetPath ;;
        match err with
        | Some e =>
            ret (Some (NewFailResponse ("Could not remove directory " ++ targetPath)
                                       (Some e)))
        | None => ret (Some (NewSuccessResponse "Successfully unmounted"))
        end
      else
        _ <- Sleep (interval * time_Second) ;;
        waitUnmounted targetPath rest
  end.

Definition Unmount (m : Mounter) (targetPath : string) : M W Response :=
  if String.eqb (Type_ (Config_ m)) "link" then unmountAsLink m targetPath
  else
    mounted <- isMountPoint targetPath ;;
    if negb mounted then
      ret (NewSuccessResponse (targetPath ++ " Not a mountpoint, nothing to do"))
    else
      r <- createCRI ;;
      match r with
      | Err err => ret (NewFailResponse "Failed to create CRI" (Some err))
      | Ok criInstance =>
        deferClose criInstance (
          err <- removeV3IOFUSEContainer m criInstance targetPath ;;
          match err with
          | Some e =>
              ret (NewFailResponse "Failed to remove v3io FUSE container" (Some e))
          | None =>
              err <- umountStart targetPath ;;
              match err with
              | Some e => ret (NewFailResponse "Failed to call unmount" (Some e))
              | None =>
                  r <- waitUnmounted targetPath [1; 2; 4]%Z ;;
                  match r with
                  | Some response => ret response
                  | None =>
                      ret (NewFailResponse ("Failed to umount " ++ targetPath
                                            ++ " due to timeout") None)
                  end
              end
          end)
      end.

End Program.

(** ** Reading a trace *)

(** The answer of [mount] on the host [w]. *)
Definition probe {W : Type} {host : Host W} (w : W) : result string :=
  fst (exec_mount_CombinedOutput w).

(** What [isMountPoint] answers on an output of [mount]. *)
Definition mountedIn (out : result string) (path : string) : bool :=
  match out with
  | Ok mountListString => strings.Contains mountListString (path ++ " type")
  | Err _ => false
  end.

(** A line of the listing that [mount] prints for one mounted file
    system. *)
Definition mountLine (source dir fstype options : string) : string :=
  source ++ " on " ++ dir ++ " type " ++ fstype ++ " (" ++ options ++ ")".

(** The trace of a polling loop that probed with the answers [outs] and
    waited after each of them, along [intervals]. *)
Fixpoint pollTrace (outs : list (result string)) (intervals : list Z) : list Event :=
  match outs, intervals with
  | out :: outs', interval :: intervals' =>
      EvMount out :: EvSleep (interval * time_Second) :: pollTrace outs' intervals'
  | _, _ => []
  end.

(** The time spent in [time.Sleep], in nanoseconds. *)
Fixpoint slept (tr : list Event) : Z :=
  match tr with
  | [] => 0
  | EvSleep d :: tr' => d + slept tr'
  | _ :: tr' => slept tr'
  end.

(** Every wait of the trace is followed at once by a probe. *)
Fixpoint probedAfterEachSleep (tr : list Event) : bool :=
  match tr with
  | [] => true
  | EvSleep _ :: tr' =>
      match tr' with
      | EvMount _ :: _ => probedAfterEachSleep tr'
      | _ => false
      end
  | _ :: tr' => probedAfterEachSleep tr'
  end.

Definition isRuntimeCall (ev : Event) : bool :=
  match ev with
  | EvNewDocker _ _ | EvNewContainerd _ _ _ | EvCreateContainer _ _ _ _ _
  | EvRemoveContainer _ _ | EvClose _ => true
  | _ => false
  end.

Definition isCreateContainer (ev : Event) : bool :=
  match ev with EvCreateContainer _ _ _ _ _ => true | _ => false end.

Definition isRemoveContainer (ev : Event) : bool :=
  match ev with EvRemoveContainer _ _ => true | _ => false end.

Definition isMkdirAll (ev : Event) : bool :=
  match ev with EvMkdirAll _ _ _ => true | _ => false end.

Definition isSymlink (ev : Event) : bool :=
  match ev with EvSymlink _ _ _ => true | _ => false end.

Definition isRemove (ev : Event) : bool :=
  match ev with EvRemove _ _ => true | _ => false end.

(** The calls that [createCRI] makes. *)
Definition isCreateCRICall (ev : Event) : bool :=
  match ev with
  | EvStat _ _ | EvNewDocker _ _ | EvNewContainerd _ _ _ => true
  | _ => false
  end.

(** The calls that a polling loop makes while it waits. *)
Definition isPollCall (ev : Event) : bool :=
  match ev with
  | EvMount _ | EvSleep _ => true
  | _ => false
  end.

Definition isUmount (ev : Event) : bool :=
  match ev with EvUmount _ _ => true | _ => false end.


(** The runs of the loop of [createDirs] over a list of descriptors: the
    trace it leaves and the error it returns, whatever the host answers. *)
Inductive DirsRun (targetPath : string)
  : list DirToCreate -> list Event -> error -> Prop :=
| DirsDone :
    DirsRun targetPath [] [] None
| DirsAbsolute (dir : DirToCreate) (rest : list DirToCreate) :
    strings.HasPrefix (Name dir) "/" = true ->
    DirsRun targetPath (dir :: rest) []
      (Some (fmt_Errorf ("Only creation of relative path is supported ("
                         ++ Name dir ++ ")")))
| DirsExists (dir : DirToCreate) (rest : list DirToCreate)
    (tr : list Event) (r : error) :
    strings.HasPrefix (Name dir) "/" = false ->
    DirsRun targetPath rest tr r ->
    DirsRun targetPath (dir :: rest)
      (EvStat (targetPath ++ "/" ++ Name dir) None :: tr) r
| DirsStatFailed (dir : DirToCreate) (rest : list DirToCreate) (e : GoError) :
    strings.HasPrefix (Name dir) "/" = false ->
    notExist e = false ->
    DirsRun targetPath (dir :: rest)
      [EvStat (targetPath ++ "/" ++ Name dir) (Some e)]
      (Some (fmt_Errorf ("Stat failed for folder [" ++ (targetPath ++ "/" ++ Name dir)
                         ++ "]: " ++ Error e)))
| DirsMkdirFailed (dir : DirToCreate) (rest : list DirToCreate) (e e' : GoError) :
    strings.HasPrefix (Name dir) "/" = false ->
    notExist e = true ->
    DirsRun targetPath (dir :: rest)
      [EvStat (targetPath ++ "/" ++ Name dir) (Some e);
       EvMkdirAll (targetPath ++ "/" ++ Name dir) (Permissions dir) (Some e')]
      (Some (fmt_Errorf ("Failed to create folder (path: " ++ Name dir
                         ++ ", filemode: " ++ fmt_o (Permissions dir) ++ "): "
                         ++ Error e')))
| DirsCreated (dir : DirToCreate) (rest : list DirToCreate) (e : GoError)
    (tr : list Event) (r : error) :
    strings.HasPrefix (Name dir) "/" = false ->
    notExist e = true ->
    DirsRun targetPath rest tr r ->
    DirsRun targetPath (dir :: rest)
      (EvStat (targetPath ++ "/" ++ Name dir) (Some e)
       :: EvMkdirAll (targetPath ++ "/" ++ Name dir) (Permissions dir) None
       :: tr) r.

Definition isClose (ev : Event) : bool :=
  match ev with EvClose _ => true | _ => false end.

(** A runtime client was handed out. *)
Definition isOpened (ev : Event) : bool :=
  match ev with
  | EvNewDocker _ (Ok _) | EvNewContainerd _ _ (Ok _) => true
  | _ => false
  end.

(** The image that [createV3IOFUSEContainer] runs. *)
Definition imageOf (m : Mounter) : string :=
  (if String.eqb (ImageRepository (Config_ m)) "" then "iguazio/v3io-fuse"
   else ImageRepository (Config_ m))
  ++ ":" ++
  (if String.eqb (ImageTag (Config_ m)) "" then "local"
   else ImageTag (Config_ m)).

(** What [createV3IOFUSEContainer] does once [createCRI] has answered
    with [opened]: the calls it makes and the error it returns.
    [containerName] is the identity of the target path and [args] the
    argument vector, each an error when it could not be had. *)
Inductive BindRun (targetPath image : string) (containerName : result string)
    (args : result (list string)) : result CRI -> list Event -> error -> Prop :=
| BindNoRuntime (e : GoError) :
    BindRun targetPath image containerName args (Err e) [] (Some e)
| BindNoUrls (c : CRI) (e : GoError) (closed : error) :
    args = Err e ->
    BindRun targetPath image containerName args (Ok c) [EvClose closed]
      (Some (fmt_Errorf ("Could not get cluster data urls: " ++ Error e)))
| BindNoName (c : CRI) (a : list string) (e : GoError) (closed : error) :
    args = Ok a ->
    containerName = Err e ->
    BindRun targetPath image containerName args (Ok c) [EvClose closed]
      (Some (fmt_Errorf ("Failed to get container name: " ++ Error e)))
| BindCreateFailed (c : CRI) (a : list string) (n : string) (removed : error)
    (e : GoError) (closed : error) :
    args = Ok a ->
    containerName = Ok n ->
    BindRun targetPath image containerName args (Ok c)
      [EvRemoveContainer n removed;
       EvCreateContainer image n targetPath a (Some e);
       EvClose closed]
      (Some (fmt_Errorf ("Failed to create container for " ++ targetPath
                         ++ ": " ++ Error e)))
| BindMounted (c : CRI) (a : list string) (n : string) (removed : error)
    (outs : list (result string)) (out : result string) (closed : error) :
    args = Ok a ->
    containerName = Ok n ->
    Forall (fun o => mountedIn o targetPath = false) outs ->
    mountedIn out targetPath = true ->
    (List.length outs < 5)%nat ->
    BindRun targetPath image containerName args (Ok c)
      ([EvRemoveContainer n removed;
        EvCreateContainer image n targetPath a None]
       ++ pollTrace outs [1; 2; 4; 2; 1]%Z
       ++ [EvMount out; EvClose closed])%list
      None
| BindTimeout (c : CRI) (a : list string) (n : string) (removed : error)
    (outs : list (result string)) (closed : error) :
    args = Ok a ->
    containerName = Ok n ->
    Forall (fun o => mountedIn o targetPath = false) outs ->
    List.length outs = 5%nat ->
    BindRun targetPath image containerName args (Ok c)
      ([EvRemoveContainer n removed;
        EvCreateContainer image n targetPath a None]
       ++ pollTrace outs [1; 2; 4; 2; 1]%Z
       ++ [EvClose closed])%list
      (Some (fmt_Errorf ("Failed to mount " ++ targetPath ++ " due to timeout"))).

(** What [Unmount] does outside link mode once the prober reported the
    path mounted and [createCRI] has answered with [opened]. *)
Inductive ReleaseRun (targetPath : string) (containerName : result string)
  : result CRI -> list Event -> Response -> Prop :=
| ReleaseNoRuntime (e : GoError) :
    ReleaseRun targetPath containerName (Err e) []
      (NewFailResponse "Failed to create CRI" (Some e))
| ReleaseNoName (c : CRI) (e : GoError) (closed : error) :
    containerName = Err e ->
    ReleaseRun targetPath containerName (Ok c) [EvClose closed]
      (NewFailResponse "Failed to remove v3io FUSE container"
         (Some (fmt_Errorf ("Could not get container name: " ++ Error e))))
| ReleaseRemoveFailed (c : CRI) (n : string) (e : GoError) (closed : error) :
    containerName = Ok n ->
    ReleaseRun targetPath containerName (Ok c)
      [EvRemoveContainer n (Some e); EvClose closed]
      (NewFailResponse "Failed to remove v3io FUSE container"
         (Some (fmt_Errorf ("Could not remove container for " ++ targetPath
                            ++ ": " ++ Error e))))
| ReleaseUmountFailed (c : CRI) (n : string) (e : GoError) (closed : error) :
    containerName = Ok n ->
    ReleaseRun targetPath containerName (Ok c)
      [EvRemoveContainer n None; EvUmount targetPath (Some e); EvClose closed]
      (NewFailResponse "Failed to call unmount" (Some e))
| ReleaseUnmounted (c : CRI) (n : string) (outs : list (result string))
    (out : result string) (removed closed : error) :
    containerName = Ok n ->
    Forall (fun o => mountedIn o targetPath = true) outs ->
    mountedIn out targetPath = false ->
    (List.length outs < 3)%nat ->
    ReleaseRun targetPath containerName (Ok c)
      ([EvRemoveContainer n None; EvUmount targetPath None]
       ++ pollTrace outs [1; 2; 4]%Z
       ++ [EvMount out; EvRemove targetPath removed; EvClose closed])%list
      match removed with
      | None => NewSuccessResponse "Successfully unmounted"
      | Some e =>
          NewFailResponse ("Could not remove directory " ++ targetPath) (Some e)
      end
| ReleaseTimeout (c : CRI) (n : string) (outs : list (result string))
    (closed : error) :
    containerName = Ok n ->
    Forall (fun o => mountedIn o targetPath = true) outs ->
    List.length outs = 3%nat ->
    ReleaseRun targetPath containerName (Ok c)
      ([EvRemoveContainer n None; EvUmount targetPath None]
       ++ pollTrace outs [1; 2; 4]%Z
       ++ [EvClose closed])%list
      (NewFailResponse ("Failed to umount " ++ targetPath ++ " due to timeout")
                       None).

(** ** A scripted host and scripted imports, to run the code on *)

Module Sim.

(** The answers of the host are fixed in advance; only the clock
    moves, and what [mount] prints may depend on it. *)
Record World : Type := mkWorld {
  clock : Z;
  mountOutput : Z -> result string;
  statErr : string -> error;
  mkdirErr : string -> error;
  removeErr : string -> error;
  symlinkErr : string -> error;
  umountErr : string -> error;
  createContainerErr : string -> error;
  removeContainerErr : string -> error
}.

Definition tick (d : Z) (w : World) : World :=
  mkWorld (clock w + d) (mountOutput w) (statErr w) (mkdirErr w) (removeErr w)
          (symlinkErr w) (umountErr w) (createContainerErr w)
          (removeContainerErr w).

#[global] Instance host : Host World := {
  exec_mount_CombinedOutput w := (mountOutput w (clock w), w);
  exec_umount_Start targetPath w := (umountErr w targetPath, w);
  os_Stat name w := (statErr w name, w);
  os_MkdirAll dir _ w := (mkdirErr w dir, w);
  os_Remove name w := (removeErr w name, w);
  os_Symlink _ newname w := (symlinkErr w newname, w);
  time_Sleep := tick;
  cri_NewDocker _ w := (Ok Docker, w);
  cri_NewContainerd _ _ w := (Ok Containerd, w);
  cri_CreateContainer _ _ name _ _ w := (createContainerErr w name, w);
  cri_RemoveContainer _ name w := (removeContainerErr w name, w);
  cri_Close _ w := (None, w)
}.

Definition ENOENT (name : string) : GoError :=
  mkError (name ++ ": no such file or directory") true.

Definition EIO (name : string) : GoError :=
  mkError (name ++ ": input/output error") false.

(** A host on which nothing is mounted, no file exists and every other
    call succeeds. *)
Definition quiet : World :=
  mkWorld 0 (fun _ => Ok "") (fun name => Some (ENOENT name)) (fun _ => None)
          (fun _ => None) (fun _ => None) (fun _ => None) (fun _ => None)
          (fun _ => None).

(** [quiet], but [mount] lists [dir] from the time [from] to the time
    [till]. *)
Definition mountedBetween (dir : string) (from till : Z) : World :=
  mkWorld 0
          (fun t => if (Z.leb from t && Z.ltb t till)%bool
                    then Ok (mountLine "v3io" dir "fuse" "rw")
                    else Ok "")
          (fun name => Some (ENOENT name)) (fun _ => None)
          (fun _ => None) (fun _ => None) (fun _ => None) (fun _ => None)
          (fun _ => None).

(** [w], but [mount] prints [f t] at the time [t]. *)
Definition withMount (f : Z -> result string) (w : World) : World :=
  mkWorld (clock w) f (statErr w) (mkdirErr w) (removeErr w) (symlinkErr w)
          (umountErr w) (createContainerErr w) (removeContainerErr w).

(** [w], but [os.Stat] answers with [f]. *)
Definition withStat (f : string -> error) (w : World) : World :=
  mkWorld (clock w) (mountOutput w) f (mkdirErr w) (removeErr w) (symlinkErr w)
          (umountErr w) (createContainerErr w) (removeContainerErr w).

(** [w], but [os.Remove] answers with [f]. *)
Definition withRemove (f : string -> error) (w : World) : World :=
  mkWorld (clock w) (mountOutput w) (statErr w) (mkdirErr w) f (symlinkErr w)
          (umountErr w) (createContainerErr w) (removeContainerErr w).

(** [w], but removing a container answers with [f]. *)
Definition withRemoveContainer (f : string -> error) (w : World) : World :=
  mkWorld (clock w) (mountOutput w) (statErr w) (mkdirErr w) (removeErr w)
          (symlinkErr w) (umountErr w) (createContainerErr w) f.

(** Imports that decode by table: [specs] and [dirs] give the decoded
    value of each string.  The spec is valid when it has an access
    key. *)
Definition imports (specs : string -> result Spec)
    (dirs : string -> result (list DirToCreate)) : Imports := {|
  json_Unmarshal_Spec := specs;
  json_Unmarshal_Dirs := dirs;
  Spec_validate spec :=
    if String.eqb (AccessKey spec) ""
    then Some (fmt_Errorf "required access key is missing") else None;
  Spec_GetClusterName spec :=
    if String.eqb (Cluster spec) "" then "default" else Cluster spec;
  Spec_GetAccessKey := AccessKey;
  Config_DataURLs _ cluster := Ok ("tcp://" ++ cluster ++ ":1234");
  strings_Split_chars s := map (fun c => String c "") (list_ascii_of_string s)
|}.

Definition noSpec (s : string) : result Spec :=
  Err (fmt_Errorf "unexpected end of JSON input").

Definition noDirs (s : string) : result (list DirToCreate) :=
  Err (fmt_Errorf "unexpected end of JSON input").

Definition direct : Mounter := mkMounter (mkConfig "" "" "" "").
Definition link : Mounter := mkMounter (mkConfig "link" "" "" "").

Definition podPath : string :=
  "/var/lib/kubelet/pods/0c08/volumes/v3io~fuse/vol1".

Definition bigdata : Spec := mkSpec "" "bigdata" "" "key" "ns" "".

End Sim.

(** * Proofs *)

Example resolve_kubelet_path :
  getContainerNameFromTargetPath
    "/var/lib/kubelet/pods/0c082652-d6c7-11e9-9fd4-a4bf015abcab/volumes/v3io~fuse/v3io-fuse"
  = Ok "v3io-fuse-0c082652-d6c7-11e9-9fd4-a4bf015abcab-v3io-fuse".
Proof. reflexivity. Qed.

Example clean_examples :
  path.Join ["/mnt/v3io"; "ns"; "bucket"] = "/mnt/v3io/ns/bucket"
  /\ path.Join ["/mnt/v3io"; ""; "bucket"] = "/mnt/v3io/bucket"
  /\ path.Join ["/mnt/v3io"; "ns"; "../.."] = "/mnt"
  /\ path.Clean "a//b/./c/.." = "a/b"
  /\ path.Clean "../../x" = "../../x"
  /\ path.Clean "/../x/" = "/x"
  /\ path.Clean "/" = "/"
  /\ path.Clean "./" = ".".
Proof. repeat split; reflexivity. Qed.

Example fmt_o_examples :
  fmt_o 0 = "0" /\ fmt_o 7 = "7" /\ fmt_o 8 = "10" /\ fmt_o 493 = "755"
  /\ fmt_o 4294967295 = "37777777777".
Proof. repeat split; reflexivity. Qed.

(** ** The Path Identity Resolver: proofs *)

Section Resolver.

Lemma nth_last_index (l : list string) :
  nth (List.length l - 1) l "" = last l "".
Proof.
  induction l as [|a [|b l'] IH]; try reflexivity.
  change (last (a :: b :: l') "") with (last (b :: l') "").
  rewrite <- IH. simpl. now rewrite Nat.sub_0_r.
Qed.

Lemma first_pods (l : list string) :
  In "pods" l ->
  exists pre post, l = (pre ++ "pods" :: post)%list /\ ~ In "pods" pre.
Proof.
  induction l as [|a l IH]; intros Hin; [destruct Hin|].
  destruct (String.eqb_spec a "pods") as [->|Hne].
  - exists [], l. split; [reflexivity | intros []].
  - destruct Hin as [Heq|Hin]; [congruence|].
    destruct (IH Hin) as (pre & post & -> & Hpre).
    exists (a :: pre), post. split; [reflexivity|].
    intros [H|H]; [congruence | exact (Hpre H)].
Qed.

(** The scan skips the segments that are not ["pods"]. *)
Lemma scanForPods_skip (targetPath : string) (all pre rest : list string) (idx : nat) :
  ~ In "pods" pre ->
  scanForPods targetPath all idx (pre ++ rest)
  = scanForPods targetPath all (idx + List.length pre) rest.
Proof.
  revert idx. induction pre as [|a pre IH]; intros idx Hpre; simpl.
  - now rewrite Nat.add_0_r.
  - destruct (String.eqb_spec a "pods") as [->|Hne].
    + exfalso. apply Hpre. now left.
    + rewrite IH by (intros H; apply Hpre; now right).
      f_equal. lia.
Qed.

Lemma scanForPods_absent (targetPath : string) (all rest : list string) (idx : nat) :
  ~ In "pods" rest ->
  scanForPods targetPath all idx rest
  = Err (fmt_Errorf ("Could not find pod directory in path: " ++ targetPath)).
Proof.
  intros H. rewrite <- (app_nil_r rest). now rewrite scanForPods_skip.
Qed.

Lemma resolve_found (targetPath : string) (pre rest : list string) (pod : string) :
  strings.Split targetPath filepath_Separator = (pre ++ "pods" :: pod :: rest)%list ->
  ~ In "pods" pre ->
  getContainerNameFromTargetPath targetPath
  = Ok ("v3io-fuse-" ++ pod ++ "-"
        ++ last (strings.Split targetPath filepath_Separator) "").
Proof.
  intros Hsplit Hpre. unfold getContainerNameFromTargetPath.
  rewrite <- nth_last_index.
  rewrite Hsplit at 2. rewrite scanForPods_skip by assumption.
  cbn [scanForPods]. rewrite String.eqb_refl. cbv zeta.
  replace (Nat.leb _ _) with false.
  2:{ symmetry. apply Nat.leb_gt. rewrite Hsplit, length_app. simpl. lia. }
  do 2 f_equal.
  rewrite Hsplit at 1.
  rewrite app_nth2 by lia.
  replace (0 + List.length pre + 1 - List.length pre) with 1 by lia.
  reflexivity.
Qed.

Lemma resolve_at_end (targetPath : string) (pre : list string) :
  strings.Split targetPath filepath_Separator = (pre ++ ["pods"])%list ->
  ~ In "pods" pre ->
  getContainerNameFromTargetPath targetPath
  = Err (fmt_Errorf ("Expected a directory after pods, found it at the end: "
                     ++ targetPath)).
Proof.
  intros Hsplit Hpre. unfold getContainerNameFromTargetPath.
  rewrite Hsplit at 2. rewrite scanForPods_skip by assumption.
  cbn [scanForPods]. rewrite String.eqb_refl. cbv zeta.
  replace (Nat.leb _ _) with true; [reflexivity|].
  symmetry. apply Nat.leb_le. rewrite Hsplit, length_app. simpl. lia.
Qed.

Lemma resolve_absent (targetPath : string) :
  ~ In "pods" (strings.Split targetPath filepath_Separator) ->
  getContainerNameFromTargetPath targetPath
  = Err (fmt_Errorf ("Could not find pod directory in path: " ++ targetPath)).
Proof. intros H. now apply scanForPods_absent. Qed.

End Resolver.


(** C4: [getContainerNameFromTargetPath] is a function of the path alone.
    When the segments of the path hold ["pods"] and a segment after its
    first occurrence, the result is [v3io-fuse-], the segment that follows
    the first ["pods"], a dash and the last segment of the path.  It is an
    error exactly when ["pods"] is no segment or its first occurrence is
    the last segment.  The three paths of the spec give
    [v3io-fuse-XYZ-vol1] and two errors. *)
Theorem getContainerNameFromTargetPath_spec (targetPath : string) :
  (forall (pre rest : list string) (pod : string),
      strings.Split targetPath filepath_Separator
      = (pre ++ "pods" :: pod :: rest)%list ->
      ~ In "pods" pre ->
      getContainerNameFromTargetPath targetPath
      = Ok ("v3io-fuse-" ++ pod ++ "-"
            ++ last (strings.Split targetPath filepath_Separator) ""))
  /\ ((exists e, getContainerNameFromTargetPath targetPath = Err e)
      <-> (~ In "pods" (strings.Split targetPath filepath_Separator)
           \/ exists pre,
                strings.Split targetPath filepath_Separator = (pre ++ ["pods"])%list
                /\ ~ In "pods" pre))
  /\ getContainerNameFromTargetPath "/a/pods/XYZ/volumes/v3io~fuse/vol1"
     = Ok "v3io-fuse-XYZ-vol1"
  /\ (exists e, getContainerNameFromTargetPath "/a/pods" = Err e)
  /\ (exists e, getContainerNameFromTargetPath "/a/b/c" = Err e).
Proof.
  split; [|split; [|split; [|split]]].
  - intros pre rest pod Hsplit Hpre. now apply resolve_found with pre rest.
  - split.
    + intros [e He].
      destruct (in_dec string_dec "pods" (strings.Split targetPath filepath_Separator))
        as [Hin|Hnin]; [|now left].
      destruct (first_pods _ Hin) as (pre & post & Hsplit & Hpre).
      destruct post as [|pod rest].
      * right. now exists pre.
      * rewrite (resolve_found _ _ _ _ Hsplit Hpre) in He. discriminate.
    + intros [Hnin|(pre & Hsplit & Hpre)].
      * eexists. now apply resolve_absent.
      * eexists. now apply resolve_at_end with pre.
  - reflexivity.
  - eexists. reflexivity.
  - eexists. reflexivity.
Qed.

Lemma getContainerNameFromTargetPath_spec_witness :
  getContainerNameFromTargetPath "/var/lib/kubelet/pods/0c08/volumes/v3io~fuse/vol1"
  = Ok "v3io-fuse-0c08-vol1".
Proof.
  exact (proj1 (getContainerNameFromTargetPath_spec
                  "/var/lib/kubelet/pods/0c08/volumes/v3io~fuse/vol1")
               [""; "var"; "lib"; "kubelet"] ["volumes"; "v3io~fuse"; "vol1"] "0c08"
               eq_refl
               ltac:(vm_compute; intuition discriminate)).
Defined.

(** ** Running the monad *)

Section Runs.

Context {W : Type} {host : Host W} {imports : Imports}.

Lemma run_eta {A : Type} (m : M W A) (w : W) :
  m w = (resultOf m w, traceOf m w, worldOf m w).
Proof. unfold resultOf, traceOf, worldOf. now destruct (m w) as [[a t] w']. Qed.

Lemma resultOf_bind {A B : Type} (m : M W A) (k : A -> M W B) (w : W) :
  resultOf (bind m k) w = resultOf (k (resultOf m w)) (worldOf m w).
Proof.
  unfold resultOf, worldOf, bind. destruct (m w) as [[a t] w1]. simpl.
  now destruct (k a w1) as [[b t2] w2].
Qed.

Lemma traceOf_bind {A B : Type} (m : M W A) (k : A -> M W B) (w : W) :
  traceOf (bind m k) w
  = (traceOf m w ++ traceOf (k (resultOf m w)) (worldOf m w))%list.
Proof.
  unfold resultOf, traceOf, worldOf, bind. destruct (m w) as [[a t] w1]. simpl.
  now destruct (k a w1) as [[b t2] w2].
Qed.

Lemma worldOf_bind {A B : Type} (m : M W A) (k : A -> M W B) (w : W) :
  worldOf (bind m k) w = worldOf (k (resultOf m w)) (worldOf m w).
Proof.
  unfold resultOf, worldOf, bind. destruct (m w) as [[a t] w1]. simpl.
  now destruct (k a w1) as [[b t2] w2].
Qed.

Lemma resultOf_ret {A : Type} (a : A) (w : W) : resultOf (ret a) w = a.
Proof. reflexivity. Qed.

Lemma traceOf_ret {A : Type} (a : A) (w : W) : traceOf (ret a) w = [].
Proof. reflexivity. Qed.

Lemma worldOf_ret {A : Type} (a : A) (w : W) : worldOf (ret a) w = w.
Proof. reflexivity. Qed.

Lemma resultOf_call {A : Type} (f : W -> A * W) (ev : A -> Event) (w : W) :
  resultOf (call f ev) w = fst (f w).
Proof. unfold resultOf, call. now destruct (f w). Qed.

Lemma traceOf_call {A : Type} (f : W -> A * W) (ev : A -> Event) (w : W) :
  traceOf (call f ev) w = [ev (fst (f w))].
Proof. unfold traceOf, call. now destruct (f w). Qed.

Lemma worldOf_call {A : Type} (f : W -> A * W) (ev : A -> Event) (w : W) :
  worldOf (call f ev) w = snd (f w).
Proof. unfold worldOf, call. now destruct (f w). Qed.

Lemma traceOf_Sleep (d : Z) (w : W) : traceOf (Sleep d) w = [EvSleep d].
Proof. reflexivity. Qed.

Lemma resultOf_isMountPoint (path : string) (w : W) :
  resultOf (isMountPoint path) w = mountedIn (probe w) path.
Proof.
  unfold isMountPoint, mountCombinedOutput. rewrite resultOf_bind, resultOf_call.
  fold (probe w). now destruct (probe w).
Qed.

Lemma traceOf_isMountPoint (path : string) (w : W) :
  traceOf (isMountPoint path) w = [EvMount (probe w)].
Proof.
  unfold isMountPoint, mountCombinedOutput.
  rewrite traceOf_bind, traceOf_call, resultOf_call.
  fold (probe w). now destruct (probe w).
Qed.

Lemma worldOf_isMountPoint (path : string) (w : W) :
  worldOf (isMountPoint path) w = snd (exec_mount_CombinedOutput w).
Proof.
  unfold isMountPoint, mountCombinedOutput.
  rewrite worldOf_bind, worldOf_call, resultOf_call.
  now destruct (fst (exec_mount_CombinedOutput w)).
Qed.

End Runs.

Create Rewrite HintDb run.

#[global] Hint Rewrite @resultOf_bind @traceOf_bind @worldOf_bind
  @resultOf_ret @traceOf_ret @worldOf_ret
  @resultOf_call @traceOf_call @worldOf_call
  @resultOf_isMountPoint @traceOf_isMountPoint @worldOf_isMountPoint : run.


(** ** The Mount-State Prober: proofs *)

Lemma append_assoc (a b c : string) : (a ++ b) ++ c = a ++ b ++ c.
Proof. induction a as [|x a IH]; simpl; [reflexivity | now rewrite IH]. Qed.

Lemma prefix_app (sub rest : string) : String.prefix sub (sub ++ rest) = true.
Proof.
  induction sub as [|c sub IH]; simpl.
  - now destruct rest.
  - destruct (ascii_dec c c) as [_|Hne]; [exact IH | now elim Hne].
Qed.

Lemma Contains_unfold (s sub : string) :
  strings.Contains s sub
  = (String.prefix sub s
     || match s with
        | EmptyString => false
        | String _ s' => strings.Contains s' sub
        end)%bool.
Proof. now destruct s. Qed.

Lemma Contains_app (before sub rest : string) :
  strings.Contains (before ++ sub ++ rest) sub = true.
Proof.
  induction before as [|c before IH].
  - simpl. rewrite Contains_unfold, prefix_app. reflexivity.
  - simpl. rewrite IH. apply orb_true_r.
Qed.

Section Prober.

Context {W : Type} {host : Host W} {imports : Imports}.

(** The prober answers with a boolean and leaves no other trace than the
    one run of [mount]; when [mount] fails the answer is [false]. *)
Lemma isMountPoint_unavailable (path : string) (w : W) (e : GoError) :
  probe w = Err e -> resultOf (isMountPoint path) w = false.
Proof. intros H. rewrite resultOf_isMountPoint, H. reflexivity. Qed.

(** A path that [mount] lists as a mount point is reported mounted. *)
Lemma isMountPoint_listed (path : string) (w : W)
    (before rest source fstype options : string) :
  probe w = Ok (before ++ mountLine source path fstype options ++ rest) ->
  resultOf (isMountPoint path) w = true.
Proof.
  intros H. rewrite resultOf_isMountPoint, H. unfold mountedIn, mountLine.
  replace (before ++ (source ++ " on " ++ path ++ " type " ++ fstype
                      ++ " (" ++ options ++ ")") ++ rest)
    with ((before ++ source ++ " on ") ++ (path ++ " type")
          ++ (" " ++ fstype ++ " (" ++ options ++ ")" ++ rest)).
  - apply Contains_app.
  - rewrite !append_assoc. simpl. rewrite ?append_assoc. reflexivity.
Qed.

End Prober.

(** C9: on a host where [mount] lists only
    [/rootfs/var/lib/kubelet/pods/0c08/volumes/v3io~fuse/vol1], the prober
    reports [/var/lib/kubelet/pods/0c08/volumes/v3io~fuse/vol1] mounted:
    the text of the path followed by [ type] occurs in the listing, at
    the end of the longer mount point. *)
Theorem isMountPoint_reports_unlisted_path :
  let listing := mountLine "v3io" ("/rootfs" ++ Sim.podPath) "fuse" "rw" in
  let w := Sim.withMount (fun _ => Ok listing) Sim.quiet in
  listing = "v3io on /rootfs/var/lib/kubelet/pods/0c08/volumes/v3io~fuse/vol1 type fuse (rw)"
  /\ isMountPoint Sim.podPath w
     = (true, [EvMount (Ok listing)], w).
Proof. split; reflexivity. Qed.

(** ** The Mount Orchestrator: the paths that leave at once *)

Ltac run_simpl := repeat (autorewrite with run; cbn [fst snd]).

Section Orchestrator.

Context {W : Type} {host : Host W} {imports : Imports}.

Lemma not_link (m : Mounter) :
  Type_ (Config_ m) <> "link" -> String.eqb (Type_ (Config_ m)) "link" = false.
Proof. intros H. now apply String.eqb_neq. Qed.

(** C2: when the spec parses and is valid, the mounter is not in link
    mode and the prober reports the target path mounted, [Mount] answers
    with success after the one run of [mount] of the prober: no call of
    the runtime, no wait, no directory.  When the path is still reported
    mounted afterwards, a second [Mount] does the same. *)
Theorem Mount_already_mounted (m : Mounter) (targetPath specString : string)
    (spec : Spec) (w : W) :
  json_Unmarshal_Spec specString = Ok spec ->
  Spec_validate spec = None ->
  Type_ (Config_ m) <> "link" ->
  resultOf (isMountPoint targetPath) w = true ->
  Mount m targetPath specString w
  = (NewSuccessResponse ("Already mounted: " ++ targetPath),
     [EvMount (probe w)],
     snd (exec_mount_CombinedOutput w))
  /\ (let twice :=
        first <- Mount m targetPath specString ;;
        second <- Mount m targetPath specString ;;
        ret (first, second) in
      resultOf (isMountPoint targetPath) (worldOf (Mount m targetPath specString) w)
      = true ->
      resultOf twice w
      = (NewSuccessResponse ("Already mounted: " ++ targetPath),
         NewSuccessResponse ("Already mounted: " ++ targetPath))
      /\ traceOf twice w
         = [EvMount (probe w); EvMount (probe (snd (exec_mount_CombinedOutput w)))]).
Proof.
  intros Hparse Hvalid Hmode Hmounted.
  assert (Hone : forall w0, resultOf (isMountPoint targetPath) w0 = true ->
            Mount m targetPath specString w0
            = (NewSuccessResponse ("Already mounted: " ++ targetPath),
               [EvMount (probe w0)], snd (exec_mount_CombinedOutput w0))).
  { intros w0 H0. unfold Mount. rewrite Hparse, Hvalid, (not_link m Hmode).
    rewrite run_eta. run_simpl. rewrite resultOf_isMountPoint in H0.
    rewrite H0. run_simpl. reflexivity. }
  split; [now apply Hone|].
  intros twice Hagain. unfold twice.
  pose proof (Hone w Hmounted) as H1.
  assert (Hw : worldOf (Mount m targetPath specString) w
               = snd (exec_mount_CombinedOutput w))
    by (unfold worldOf; now rewrite H1).
  rewrite Hw in Hagain. pose proof (Hone _ Hagain) as H2.
  run_simpl. rewrite Hw. unfold resultOf, traceOf. rewrite H1, H2. simpl.
  split; reflexivity.
Qed.

(** C3: on a target path that the prober reports not mounted, [Unmount]
    calls neither the runtime nor [umount].  Outside link mode it
    answers with success after the one run of [mount] of the prober.  In
    link mode it removes the link at the target path and answers with
    success exactly when this removal succeeded. *)
Theorem Unmount_not_mounted (m : Mounter) (targetPath : string) (w : W) :
  resultOf (isMountPoint targetPath) w = false ->
  (Type_ (Config_ m) <> "link" ->
   Unmount m targetPath w
   = (NewSuccessResponse (targetPath ++ " Not a mountpoint, nothing to do"),
      [EvMount (probe w)],
      snd (exec_mount_CombinedOutput w)))
  /\ (Type_ (Config_ m) = "link" ->
      traceOf (Unmount m targetPath) w
      = [EvRemove targetPath (fst (os_Remove targetPath w))]
      /\ resultOf (Unmount m targetPath) w
         = match fst (os_Remove targetPath w) with
           | None => NewSuccessResponse "link removed"
           | Some e => NewFailResponse "unable to remove link" (Some e)
           end)
  /\ forall ev, In ev (traceOf (Unmount m targetPath) w) ->
                isRuntimeCall ev = false /\ isUmount ev = false.
Proof.
  intros Hfree.
  assert (Hdirect : Type_ (Config_ m) <> "link" ->
            Unmount m targetPath w
            = (NewSuccessResponse (targetPath ++ " Not a mountpoint, nothing to do"),
               [EvMount (probe w)], snd (exec_mount_CombinedOutput w))).
  { intros Hmode. unfold Unmount. rewrite (not_link m Hmode).
    rewrite run_eta. run_simpl. rewrite resultOf_isMountPoint in Hfree.
    rewrite Hfree. simpl. run_simpl. reflexivity. }
  assert (Hlink : Type_ (Config_ m) = "link" ->
            traceOf (Unmount m targetPath) w
            = [EvRemove targetPath (fst (os_Remove targetPath w))]
            /\ resultOf (Unmount m targetPath) w
               = match fst (os_Remove targetPath w) with
                 | None => NewSuccessResponse "link removed"
                 | Some e => NewFailResponse "unable to remove link" (Some e)
                 end).
  { intros Hmode. unfold Unmount, unmountAsLink, Remove. rewrite Hmode. simpl.
    run_simpl. destruct (fst (os_Remove targetPath w)); split; reflexivity. }
  split; [exact Hdirect|]. split; [exact Hlink|].
  intros ev Hin.
  destruct (string_dec (Type_ (Config_ m)) "link") as [Hmode|Hmode].
  - destruct (Hlink Hmode) as [Htr _]. rewrite Htr in Hin.
    destruct Hin as [<-|[]]. split; reflexivity.
  - unfold traceOf in Hin. rewrite (Hdirect Hmode) in Hin.
    destruct Hin as [<-|[]]. split; reflexivity.
Qed.

End Orchestrator.

(** ** The polling loops *)

Section Polling.

Context {W : Type} {host : Host W} {imports : Imports}.

Lemma worldOf_Sleep (d : Z) (w : W) : worldOf (Sleep d) w = time_Sleep d w.
Proof. reflexivity. Qed.

Lemma slept_app (a b : list Event) : slept (a ++ b) = (slept a + slept b)%Z.
Proof.
  induction a as [|ev a IH]; [reflexivity|].
  destruct ev; simpl; rewrite ?IH; lia.
Qed.

(** The loop of [createV3IOFUSEContainer] probes, and waits after each
    probe that found the path not mounted. *)
Lemma waitMounted_shape (targetPath : string) (intervals : list Z) (w : W) :
  exists outs,
    Forall (fun out => mountedIn out targetPath = false) outs
    /\ ((resultOf (waitMounted targetPath intervals) w = false
         /\ List.length outs = List.length intervals
         /\ traceOf (waitMounted targetPath intervals) w = pollTrace outs intervals)
        \/ (resultOf (waitMounted targetPath intervals) w = true
            /\ (List.length outs < List.length intervals)%nat
            /\ exists out,
                 mountedIn out targetPath = true
                 /\ traceOf (waitMounted targetPath intervals) w
                    = (pollTrace outs intervals ++ [EvMount out])%list)).
Proof.
  revert w. induction intervals as [|interval rest IH]; intros w.
  - exists []. split; [constructor|]. left. repeat split.
  - cbn [waitMounted]. run_simpl.
    destruct (mountedIn (probe w) targetPath) eqn:Hprobe.
    + exists []. split; [constructor|]. right. run_simpl.
      split; [reflexivity|]. split; [simpl; lia|].
      exists (probe w). split; [assumption|reflexivity].
    + run_simpl. rewrite worldOf_Sleep, traceOf_Sleep.
      destruct (IH (time_Sleep (interval * time_Second)
                               (snd (exec_mount_CombinedOutput w))))
        as (outs & Hall & Hcases).
      exists (probe w :: outs). split; [now constructor|].
      destruct Hcases as [(Hres & Hlen & Htr)|(Hres & Hlen & out & Hout & Htr)].
      * left. rewrite Hres, Htr. simpl. repeat split. now rewrite Hlen.
      * right. rewrite Hres, Htr. simpl. split; [reflexivity|].
        split; [lia|]. exists out. split; [assumption|reflexivity].
Qed.

Lemma slept_pollTrace_create (outs : list (result string)) :
  (slept (pollTrace outs [1; 2; 4; 2; 1]%Z) <= 10 * time_Second)%Z.
Proof.
  destruct outs as [|? [|? [|? [|? [|? [|? ?]]]]]]; cbn [pollTrace slept];
    unfold time_Second; lia.
Qed.

Lemma traceOf_createCRI_calls (w : W) :
  forall ev, In ev (traceOf createCRI w) -> isCreateCRICall ev = true.
Proof.
  intros ev. unfold createCRI, Stat, NewContainerd, NewDocker. run_simpl.
  destruct (os_IsNotExist (fst (os_Stat "/usr/bin/docker" w)));
    run_simpl; simpl; intros [<-|[<-|[]]]; reflexivity.
Qed.

(** C1: once the runtime is at hand and the data URLs and the identity
    of the container are resolved, [createV3IOFUSEContainer] asks the
    runtime to remove the container of that identity and, whatever the
    answer, to create it, bound to the target path.  When the creation
    succeeded it probes at once and again after each of the waits of 1s,
    2s, 4s and 2s, at most five times and with at most 10s of waiting; it
    returns nil at the first probe that finds the path mounted; when the
    five probes found it not mounted it waits 1s more and returns the
    timeout error. *)
Theorem createV3IOFUSEContainer_protocol (m : Mounter) (spec : Spec)
    (targetPath : string) (w : W) (c : CRI) (dataUrls containerName : string) :
  resultOf createCRI w = Ok c ->
  Config_DataURLs (Config_ m) (Spec_GetClusterName spec) = Ok dataUrls ->
  getContainerNameFromTargetPath targetPath = Ok containerName ->
  exists (image : string) (removed created closed : error) (polling : list Event),
    traceOf (createV3IOFUSEContainer m spec targetPath) w
    = (traceOf createCRI w
       ++ EvRemoveContainer containerName removed
       :: EvCreateContainer image containerName targetPath
            (mounterArgs m spec dataUrls) created
       :: polling ++ [EvClose closed])%list
    /\ match created with
       | Some e =>
           polling = []
           /\ resultOf (createV3IOFUSEContainer m spec targetPath) w
              = Some (fmt_Errorf ("Failed to create container for " ++ targetPath
                                  ++ ": " ++ Error e))
       | None =>
           (slept polling <= 10 * time_Second)%Z
           /\ exists outs,
                Forall (fun out => mountedIn out targetPath = false) outs
                /\ ((exists out,
                       mountedIn out targetPath = true
                       /\ (List.length outs < 5)%nat
                       /\ polling = (pollTrace outs [1; 2; 4; 2; 1]%Z ++ [EvMount out])%list
                       /\ resultOf (createV3IOFUSEContainer m spec targetPath) w = None)
                    \/ (List.length outs = 5%nat
                        /\ polling = pollTrace outs [1; 2; 4; 2; 1]%Z
                        /\ resultOf (createV3IOFUSEContainer m spec targetPath) w
                           = Some (fmt_Errorf ("Failed to mount " ++ targetPath
                                               ++ " due to timeout"))))
       end.
Proof.
  intros Hcri Hurls Hname.
  unfold createV3IOFUSEContainer, deferClose. run_simpl. rewrite Hcri.
  run_simpl. rewrite Hurls, Hname.
  unfold removeV3IOFUSEContainer. rewrite Hname.
  unfold RemoveContainer, CreateContainer, Close. run_simpl.
  set (w1 := worldOf createCRI w).
  set (removed := fst (cri_RemoveContainer c containerName w1)).
  set (w2 := snd (cri_RemoveContainer c containerName w1)).
  assert (Hw2 : worldOf
            match removed with
            | Some e =>
                ret (W := W) (Some (fmt_Errorf ("Could not remove container for "
                                       ++ targetPath ++ ": " ++ Error e)))
            | None => ret None
            end w2 = w2) by (destruct removed; reflexivity).
  assert (Ht2 : traceOf
            match removed with
            | Some e =>
                ret (W := W) (Some (fmt_Errorf ("Could not remove container for "
                                       ++ targetPath ++ ": " ++ Error e)))
            | None => ret None
            end w2 = []) by (destruct removed; reflexivity).
  rewrite Hw2, Ht2.
  set (image := _ ++ ":" ++ _).
  set (args := mounterArgs m spec dataUrls).
  set (created := fst (cri_CreateContainer c image containerName targetPath args w2)).
  set (w3 := snd (cri_CreateContainer c image containerName targetPath args w2)).
  destruct created as [e|] eqn:Hcreated.
  - run_simpl.
    exists image, removed, (Some e), (fst (cri_Close c w3)), [].
    split; [reflexivity|]. split; reflexivity.
  - run_simpl.
    destruct (waitMounted_shape targetPath [1; 2; 4; 2; 1]%Z w3)
      as (outs & Hall & Hcases).
    exists image, removed, None,
      (fst (cri_Close c (worldOf
         (if resultOf (waitMounted targetPath [1; 2; 4; 2; 1]%Z) w3
          then ret None
          else ret (Some (fmt_Errorf ("Failed to mount " ++ targetPath
                                      ++ " due to timeout"))))
         (worldOf (waitMounted targetPath [1; 2; 4; 2; 1]%Z) w3)))),
      (traceOf (waitMounted targetPath [1; 2; 4; 2; 1]%Z) w3).
    destruct Hcases as [(Hres & Hlen & Htr)|(Hres & Hlen & out & Hout & Htr)];
      rewrite Hres; run_simpl.
    + split; [simpl; rewrite ?app_nil_r; reflexivity|].
      split; [rewrite Htr; apply slept_pollTrace_create|].
      exists outs. split; [assumption|]. right. auto.
    + split; [simpl; rewrite ?app_nil_r; reflexivity|].
      split.
      * rewrite Htr, slept_app. cbn [slept].
        pose proof (slept_pollTrace_create outs). lia.
      * exists outs. split; [assumption|]. left. exists out. auto.
Qed.

End Polling.

Section Unmounting.

Context {W : Type} {host : Host W}.

(** The loop of [Unmount] probes, waits after each probe that found the
    path still mounted, and removes the directory at the first probe that
    found it not mounted. *)
Lemma waitUnmounted_shape (targetPath : string) (intervals : list Z) (w : W) :
  exists outs,
    Forall (fun out => mountedIn out targetPath = true) outs
    /\ ((resultOf (waitUnmounted targetPath intervals) w = None
         /\ List.length outs = List.length intervals
         /\ traceOf (waitUnmounted targetPath intervals) w = pollTrace outs intervals)
        \/ (exists out removed,
              mountedIn out targetPath = false
              /\ (List.length outs < List.length intervals)%nat
              /\ traceOf (waitUnmounted targetPath intervals) w
                 = (pollTrace outs intervals
                    ++ [EvMount out; EvRemove targetPath removed])%list
              /\ resultOf (waitUnmounted targetPath intervals) w
                 = Some match removed with
                        | None => NewSuccessResponse "Successfully unmounted"
                        | Some e =>
                            NewFailResponse ("Could not remove directory "
                                             ++ targetPath) (Some e)
                        end)).
Proof.
  revert w. induction intervals as [|interval rest IH]; intros w.
  - exists []. split; [constructor|]. left. repeat split.
  - cbn [waitUnmounted]. run_simpl.
    destruct (mountedIn (probe w) targetPath) eqn:Hprobe; cbn [negb].
    + run_simpl. rewrite worldOf_Sleep, traceOf_Sleep.
      destruct (IH (time_Sleep (interval * time_Second)
                               (snd (exec_mount_CombinedOutput w))))
        as (outs & Hall & Hcases).
      exists (probe w :: outs). split; [now constructor|].
      destruct Hcases as [(Hres & Hlen & Htr)
                         |(out & removed & Hout & Hlen & Htr & Hres)].
      * left. rewrite Hres, Htr. simpl. repeat split. now rewrite Hlen.
      * right. exists out, removed. rewrite Hres, Htr. simpl.
        repeat split; [assumption | lia].
    + exists []. split; [constructor|]. right.
      exists (probe w), (fst (os_Remove targetPath (snd (exec_mount_CombinedOutput w)))).
      unfold Remove. run_simpl.
      split; [assumption|]. split; [simpl; lia|].
      destruct (fst (os_Remove targetPath (snd (exec_mount_CombinedOutput w))));
        split; reflexivity.
Qed.

Lemma slept_pollTrace_unmount (outs : list (result string)) :
  (slept (pollTrace outs [1; 2; 4]%Z) <= 7 * time_Second)%Z.
Proof.
  destruct outs as [|? [|? [|? [|? ?]]]]; cbn [pollTrace slept];
    unfold time_Second; lia.
Qed.

Lemma slept_createCRI (w : W) : slept (traceOf createCRI w) = 0%Z.
Proof.
  unfold createCRI, Stat, NewContainerd, NewDocker. run_simpl.
  destruct (os_IsNotExist (fst (os_Stat "/usr/bin/docker" w)));
    run_simpl; reflexivity.
Qed.

Lemma no_Remove_in_pollTrace (outs : list (result string)) (intervals : list Z) :
  forall ev, In ev (pollTrace outs intervals) -> isRemove ev = false.
Proof.
  revert intervals. induction outs as [|out outs IH]; intros [|i intervals] ev;
    simpl; try tauto.
  intros [<-|[<-|H]]; try reflexivity. now apply (IH intervals).
Qed.

(** C5: when [Unmount] got as far as starting [umount] with success (the
    mounter is then not in link mode, the prober reported the path
    mounted and the runtime removed the container), it probes at once
    and again after the waits of 1s and 2s, at most three times and with
    at most 7s of waiting.  At the first probe that finds the path not
    mounted it removes the directory and answers with success when the
    removal succeeded.  When the three probes found the path mounted it
    waits 4s more and answers with the timeout failure, and no removal
    of the directory was asked. *)
Theorem Unmount_polling (m : Mounter) (targetPath : string) (w : W) :
  In (EvUmount targetPath None) (traceOf (Unmount m targetPath) w) ->
  exists (containerName : string) (outs : list (result string)) (closed : error),
    let before :=
      (EvMount (probe w)
       :: traceOf createCRI (snd (exec_mount_CombinedOutput w))
       ++ [EvRemoveContainer containerName None])%list in
    Type_ (Config_ m) <> "link"
    /\ mountedIn (probe w) targetPath = true
    /\ getContainerNameFromTargetPath targetPath = Ok containerName
    /\ Forall (fun out => mountedIn out targetPath = true) outs
    /\ (slept (traceOf (Unmount m targetPath) w) <= 7 * time_Second)%Z
    /\ ((exists out removed,
           mountedIn out targetPath = false
           /\ (List.length outs < 3)%nat
           /\ traceOf (Unmount m targetPath) w
              = (before ++ EvUmount targetPath None
                 :: pollTrace outs [1; 2; 4]%Z
                 ++ [EvMount out; EvRemove targetPath removed; EvClose closed])%list
           /\ resultOf (Unmount m targetPath) w
              = match removed with
                | None => NewSuccessResponse "Successfully unmounted"
                | Some e =>
                    NewFailResponse ("Could not remove directory " ++ targetPath)
                                    (Some e)
                end)
        \/ (List.length outs = 3%nat
            /\ traceOf (Unmount m targetPath) w
               = (before ++ EvUmount targetPath None
                  :: pollTrace outs [1; 2; 4]%Z ++ [EvClose closed])%list
            /\ resultOf (Unmount m targetPath) w
               = NewFailResponse ("Failed to umount " ++ targetPath
                                  ++ " due to timeout") None
            /\ forall ev, In ev (traceOf (Unmount m targetPath) w) ->
                          isRemove ev = false)).
Proof.
  unfold Unmount.
  destruct (String.eqb_spec (Type_ (Config_ m)) "link") as [Hmode|Hmode].
  { unfold unmountAsLink, Remove. run_simpl.
    destruct (fst (os_Remove targetPath w)); run_simpl;
      intros [H|[]]; discriminate. }
  run_simpl.
  destruct (mountedIn (probe w) targetPath) eqn:Hmounted; cbn [negb];
    [|run_simpl; intros [H|[]]; discriminate].
  run_simpl. set (w1 := snd (exec_mount_CombinedOutput w)).
  assert (Hcri : forall ev, In ev (traceOf createCRI w1) ->
                            ev <> EvUmount targetPath None).
  { intros ev Hin Heq. apply traceOf_createCRI_calls in Hin.
    subst ev. discriminate. }
  destruct (resultOf createCRI w1) as [c|e] eqn:Hc.
  2:{ run_simpl. rewrite app_nil_r. intros [H|H]; [discriminate|].
      now elim (Hcri _ H). }
  unfold deferClose, removeV3IOFUSEContainer, umountStart, Close, RemoveContainer.
  destruct (getContainerNameFromTargetPath targetPath) as [containerName|e] eqn:Hname.
  2:{ run_simpl. cbn [app]. intros [H|H]; [discriminate|].
      apply in_app_or in H. destruct H as [H|[H|[]]]; [|discriminate].
      now elim (Hcri _ H). }
  run_simpl. set (w2 := worldOf createCRI w1).
  destruct (fst (cri_RemoveContainer c containerName w2)) as [e|] eqn:Hremoved.
  { run_simpl. cbn [app]. intros [H|H]; [discriminate|].
    apply in_app_or in H. destruct H as [H|[H|[H|[]]]]; try discriminate.
    now elim (Hcri _ H). }
  run_simpl. set (w3 := snd (cri_RemoveContainer c containerName w2)).
  destruct (fst (exec_umount_Start targetPath w3)) as [e|] eqn:Hstarted.
  { run_simpl. cbn [app]. intros [H|H]; [discriminate|].
    apply in_app_or in H. destruct H as [H|[H|[H|[H|[]]]]]; try discriminate.
    now elim (Hcri _ H). }
  run_simpl. set (w4 := snd (exec_umount_Start targetPath w3)).
  intros _.
  destruct (waitUnmounted_shape targetPath [1; 2; 4]%Z w4) as (outs & Hall & Hcases).
  exists containerName, outs.
  destruct Hcases as [(Hres & Hlen & Htr)|(out & removed & Hout & Hlen & Htr & Hres)];
    rewrite Hres, Htr; run_simpl.
  - eexists. split; [assumption|]. split; [reflexivity|]. split; [reflexivity|].
    split; [assumption|]. split.
    + repeat (progress (cbn [app slept]; rewrite ?slept_app, ?slept_createCRI)).
      pose proof (slept_pollTrace_unmount outs). lia.
    + right. split; [assumption|].
      split; [cbn [app]; rewrite <- !app_assoc; reflexivity|].
      split; [reflexivity|].
      intros ev. cbn [app]. intros [<-|H]; [reflexivity|].
      apply in_app_or in H. destruct H as [H|H].
      * apply traceOf_createCRI_calls in H. now destruct ev.
      * destruct H as [<-|[<-|H]]; try reflexivity.
        apply in_app_or in H. destruct H as [H|H].
        -- apply in_app_or in H. destruct H as [H|[]].
           now apply no_Remove_in_pollTrace in H.
        -- destruct H as [<-|[]]. reflexivity.
  - eexists. split; [assumption|]. split; [reflexivity|]. split; [reflexivity|].
    split; [assumption|]. split.
    + repeat (progress (cbn [app slept]; rewrite ?slept_app, ?slept_createCRI)).
      pose proof (slept_pollTrace_unmount outs). lia.
    + left. exists out, removed. split; [assumption|]. split; [assumption|].
      split.
      * cbn [app]. rewrite <- !app_assoc. reflexivity.
      * now destruct removed.
Qed.

End Unmounting.

(** ** Runs on the scripted host *)

Lemma createV3IOFUSEContainer_protocol_witness :
  let w := Sim.mountedBetween Sim.podPath (3 * time_Second) (100 * time_Second) in
  exists image removed created closed polling,
    traceOf (createV3IOFUSEContainer
               (imports := Sim.imports Sim.noSpec Sim.noDirs)
               Sim.direct Sim.bigdata Sim.podPath) w
    = (traceOf createCRI w
       ++ EvRemoveContainer "v3io-fuse-0c08-vol1" removed
       :: EvCreateContainer image "v3io-fuse-0c08-vol1" Sim.podPath
            ["/fuse/mounter.sh"; "-o"; "allow_other";
             "--connection_strings"; "tcp://default:1234";
             "--mountpoint"; "/fuse_mount"; "--session_key"; "key";
             "-a"; "\b\i\g\d\a\t\a"] created
       :: polling ++ [EvClose closed])%list.
Proof.
  intros w.
  assert (Hcri : resultOf createCRI w = Ok Containerd) by reflexivity.
  destruct (createV3IOFUSEContainer_protocol
              (host := Sim.host) (imports := Sim.imports Sim.noSpec Sim.noDirs)
              Sim.direct Sim.bigdata Sim.podPath w
              Containerd "tcp://default:1234" "v3io-fuse-0c08-vol1"
              Hcri eq_refl eq_refl)
    as (image & removed & created & closed & polling & Htrace & _).
  exists image, removed, created, closed, polling. exact Htrace.
Defined.

(** C1, as stated, fails: the helper mounts the path 10s after the
    creation of the container.  The five probes are made 0s, 1s, 3s, 7s
    and 9s after the creation; the last wait, of 1s, is followed by no
    probe, and the call returns the timeout error although the path is
    mounted by then. *)
Lemma createV3IOFUSEContainer_no_probe_after_last_wait :
  let w := Sim.mountedBetween Sim.podPath (10 * time_Second) (100 * time_Second) in
  let run := createV3IOFUSEContainer
               (imports := Sim.imports Sim.noSpec Sim.noDirs)
               Sim.direct Sim.bigdata Sim.podPath in
  traceOf run w
  = [EvStat "/usr/bin/docker" (Some (Sim.ENOENT "/usr/bin/docker"));
     EvNewContainerd "/run/containerd/containerd.sock" "v3io" (Ok Containerd);
     EvRemoveContainer "v3io-fuse-0c08-vol1" None;
     EvCreateContainer "iguazio/v3io-fuse:local" "v3io-fuse-0c08-vol1" Sim.podPath
       ["/fuse/mounter.sh"; "-o"; "allow_other";
        "--connection_strings"; "tcp://default:1234";
        "--mountpoint"; "/fuse_mount"; "--session_key"; "key";
        "-a"; "\b\i\g\d\a\t\a"] None;
     EvMount (Ok ""); EvSleep 1000000000;
     EvMount (Ok ""); EvSleep 2000000000;
     EvMount (Ok ""); EvSleep 4000000000;
     EvMount (Ok ""); EvSleep 2000000000;
     EvMount (Ok ""); EvSleep 1000000000;
     EvClose None]
  /\ probedAfterEachSleep (traceOf run w) = false
  /\ resultOf run w
     = Some (fmt_Errorf ("Failed to mount " ++ Sim.podPath ++ " due to timeout"))
  /\ resultOf (isMountPoint Sim.podPath) (worldOf run w) = true.
Proof. vm_compute. repeat split; reflexivity. Qed.

Lemma Mount_already_mounted_witness :
  let w := Sim.mountedBetween Sim.podPath 0 (100 * time_Second) in
  Mount (imports := Sim.imports (fun _ => Ok Sim.bigdata) Sim.noDirs)
        Sim.direct Sim.podPath "{}" w
  = (NewSuccessResponse ("Already mounted: " ++ Sim.podPath), [EvMount (probe w)], w).
Proof.
  intros w.
  refine (proj1 (Mount_already_mounted
                   (host := Sim.host)
                   (imports := Sim.imports (fun _ => Ok Sim.bigdata) Sim.noDirs)
                   Sim.direct Sim.podPath "{}" Sim.bigdata w _ _ _ _));
    [reflexivity | reflexivity | discriminate | reflexivity].
Defined.

Lemma Unmount_not_mounted_witness :
  Unmount Sim.direct Sim.podPath Sim.quiet
  = (NewSuccessResponse (Sim.podPath ++ " Not a mountpoint, nothing to do"),
     [EvMount (Ok "")], Sim.quiet).
Proof.
  refine (proj1 (Unmount_not_mounted (host := Sim.host)
                                     Sim.direct Sim.podPath Sim.quiet _) _);
    [reflexivity | discriminate].
Defined.

(** C3, as stated, fails in link mode: the target path is not mounted
    and there is no link at it; [Unmount] answers with a failure. *)
Lemma Unmount_link_mode_fails :
  let w := Sim.withRemove (fun name => Some (Sim.ENOENT name)) Sim.quiet in
  resultOf (isMountPoint Sim.podPath) w = false
  /\ Unmount Sim.link Sim.podPath w
     = (NewFailResponse "unable to remove link" (Some (Sim.ENOENT Sim.podPath)),
        [EvRemove Sim.podPath (Some (Sim.ENOENT Sim.podPath))], w).
Proof. split; reflexivity. Qed.

Lemma Unmount_polling_witness :
  let w := Sim.mountedBetween Sim.podPath 0 (2 * time_Second) in
  In (EvUmount Sim.podPath None) (traceOf (Unmount Sim.direct Sim.podPath) w)
  /\ (slept (traceOf (Unmount Sim.direct Sim.podPath) w) <= 7 * time_Second)%Z.
Proof.
  intros w.
  assert (Hstarted : In (EvUmount Sim.podPath None)
                        (traceOf (Unmount Sim.direct Sim.podPath) w))
    by (vm_compute; tauto).
  split; [exact Hstarted|].
  destruct (Unmount_polling (host := Sim.host) Sim.direct Sim.podPath w Hstarted)
    as (name & outs & closed & _ & _ & _ & _ & Hslept & _).
  exact Hslept.
Defined.

(** A run of [Unmount] on a path that leaves the listing of [mount] 2s
    after [umount] was started. *)
Example Unmount_after_two_seconds :
  let w := Sim.mountedBetween Sim.podPath 0 (2 * time_Second) in
  resultOf (Unmount Sim.direct Sim.podPath) w
  = NewSuccessResponse "Successfully unmounted"
  /\ traceOf (Unmount Sim.direct Sim.podPath) w
     = [EvMount (Ok (mountLine "v3io" Sim.podPath "fuse" "rw"));
        EvStat "/usr/bin/docker" (Some (Sim.ENOENT "/usr/bin/docker"));
        EvNewContainerd "/run/containerd/containerd.sock" "v3io" (Ok Containerd);
        EvRemoveContainer "v3io-fuse-0c08-vol1" None;
        EvUmount Sim.podPath None;
        EvMount (Ok (mountLine "v3io" Sim.podPath "fuse" "rw")); EvSleep 1000000000;
        EvMount (Ok (mountLine "v3io" Sim.podPath "fuse" "rw")); EvSleep 2000000000;
        EvMount (Ok ""); EvRemove Sim.podPath None; EvClose None].
Proof. vm_compute. split; reflexivity. Qed.

(** A run of [Unmount] on a path that stays mounted: the last wait, of
    4s, is followed by the timeout failure and the directory stays. *)
Example Unmount_timeout :
  let w := Sim.mountedBetween Sim.podPath 0 (100 * time_Second) in
  resultOf (Unmount Sim.direct Sim.podPath) w
  = NewFailResponse ("Failed to umount " ++ Sim.podPath ++ " due to timeout") None
  /\ slept (traceOf (Unmount Sim.direct Sim.podPath) w) = (7 * time_Second)%Z
  /\ existsb isRemove (traceOf (Unmount Sim.direct Sim.podPath) w) = false.
Proof. vm_compute. repeat split; reflexivity. Qed.

(** ** The Lifecycle Manager: the shape of every run *)

Section Lifecycle.

Context {W : Type} {host : Host W} {imports : Imports}.

Lemma pollTrace_calls (outs : list (result string)) (intervals : list Z) :
  forall ev, In ev (pollTrace outs intervals) -> isPollCall ev = true.
Proof.
  revert intervals. induction outs as [|out outs IH]; intros [|i intervals] ev;
    simpl; try tauto.
  intros [<-|[<-|H]]; try reflexivity. now apply (IH intervals).
Qed.

Lemma waitMounted_calls (targetPath : string) (intervals : list Z) (w : W) :
  forall ev, In ev (traceOf (waitMounted targetPath intervals) w) ->
             isPollCall ev = true.
Proof.
  intros ev Hin.
  destruct (waitMounted_shape targetPath intervals w)
    as (outs & _ & [(_ & _ & Htr)|(_ & _ & out & _ & Htr)]);
    rewrite Htr in Hin.
  - now apply pollTrace_calls in Hin.
  - apply in_app_or in Hin. destruct Hin as [Hin|[<-|[]]]; [|reflexivity].
    now apply pollTrace_calls in Hin.
Qed.

(** Every run of [createV3IOFUSEContainer] is the calls of [createCRI],
    then nothing or the removal and the creation of the container named
    after the target path, then probes and waits, then [Close] when the
    runtime was at hand. *)
Lemma createV3IOFUSEContainer_trace (m : Mounter) (spec : Spec)
    (targetPath : string) (w : W) :
  exists creation polling closing,
    traceOf (createV3IOFUSEContainer m spec targetPath) w
    = (traceOf createCRI w ++ creation ++ polling ++ closing)%list
    /\ ((creation = [] /\ polling = []
         /\ exists e, resultOf (createV3IOFUSEContainer m spec targetPath) w = Some e)
        \/ exists containerName image dataUrls removed created,
             Config_DataURLs (Config_ m) (Spec_GetClusterName spec) = Ok dataUrls
             /\ getContainerNameFromTargetPath targetPath = Ok containerName
             /\ creation
                = [EvRemoveContainer containerName removed;
                   EvCreateContainer image containerName targetPath
                     (mounterArgs m spec dataUrls) created])
    /\ (forall ev, In ev polling -> isPollCall ev = true)
    /\ (closing = [] \/ exists closed, closing = [EvClose closed]).
Proof.
  unfold createV3IOFUSEContainer, deferClose. run_simpl.
  destruct (resultOf createCRI w) as [c|e] eqn:Hcri.
  2:{ exists [], [], []. run_simpl. split; [now rewrite !app_nil_r|].
      split; [left; eauto|]. split; [intros ev []|now left]. }
  run_simpl.
  destruct (Config_DataURLs (Config_ m) (Spec_GetClusterName spec))
    as [dataUrls|e] eqn:Hurls.
  2:{ exists [], []. eexists. unfold Close. run_simpl.
      split; [reflexivity|]. split; [left; eauto|].
      split; [intros ev []|right; eauto]. }
  destruct (getContainerNameFromTargetPath targetPath) as [containerName|e] eqn:Hname.
  2:{ exists [], []. eexists. unfold Close. run_simpl.
      split; [reflexivity|]. split; [left; eauto|].
      split; [intros ev []|right; eauto]. }
  unfold removeV3IOFUSEContainer. rewrite Hname.
  unfold RemoveContainer, CreateContainer, Close. run_simpl.
  set (w1 := worldOf createCRI w).
  set (removed := fst (cri_RemoveContainer c containerName w1)).
  set (w2 := snd (cri_RemoveContainer c containerName w1)).
  assert (Hw2 : worldOf
            match removed with
            | Some e =>
                ret (W := W) (Some (fmt_Errorf ("Could not remove container for "
                                       ++ targetPath ++ ": " ++ Error e)))
            | None => ret None
            end w2 = w2) by (destruct removed; reflexivity).
  assert (Ht2 : traceOf
            match removed with
            | Some e =>
                ret (W := W) (Some (fmt_Errorf ("Could not remove container for "
                                       ++ targetPath ++ ": " ++ Error e)))
            | None => ret None
            end w2 = []) by (destruct removed; reflexivity).
  rewrite Hw2, Ht2.
  set (image := _ ++ ":" ++ _).
  set (args := mounterArgs m spec dataUrls).
  set (created := fst (cri_CreateContainer c image containerName targetPath args w2)).
  set (w3 := snd (cri_CreateContainer c image containerName targetPath args w2)).
  destruct created as [e|] eqn:Hcreated.
  - run_simpl.
    exists [EvRemoveContainer containerName removed;
            EvCreateContainer image containerName targetPath args (Some e)],
      [], [EvClose (fst (cri_Close c w3))].
    split; [cbn [app]; reflexivity|].
    split; [right; exists containerName, image, dataUrls, removed, (Some e); auto|].
    split; [intros ev []|right; eauto].
  - run_simpl.
    exists [EvRemoveContainer containerName removed;
            EvCreateContainer image containerName targetPath args None],
      (traceOf (waitMounted targetPath [1; 2; 4; 2; 1]%Z) w3),
      [EvClose (fst (cri_Close c (worldOf (waitMounted targetPath
                                             [1; 2; 4; 2; 1]%Z) w3)))].
    split.
    { cbn [app].
      destruct (resultOf (waitMounted targetPath [1; 2; 4; 2; 1]%Z) w3);
        run_simpl; cbn [app]; rewrite app_nil_r; reflexivity. }
    split; [right; exists containerName, image, dataUrls, removed, None; auto|].
    split; [apply waitMounted_calls|right; eauto].
Qed.

(** C10: with an empty container field the argument vector of the helper
    is the nine fixed arguments and, when a configuration path is set,
    [-f] and that path: neither [-a] nor [-p] is added, whatever the
    sub-path.  With a container, [-a] and the escaped container follow,
    and [-p] and the escaped sub-path come after them exactly when the
    sub-path is not empty.  Every container that
    [createV3IOFUSEContainer] creates gets this vector. *)
Theorem mounterArgs_container_gates_subpath (m : Mounter) (spec : Spec)
    (targetPath : string) (w : W) :
  let fixedArgs dataUrls :=
    (["/fuse/mounter.sh"; "-o"; "allow_other"; "--connection_strings"; dataUrls;
      "--mountpoint"; "/fuse_mount"; "--session_key"; Spec_GetAccessKey spec]
     ++ (if String.eqb (V3ioConfigPath (Config_ m)) "" then []
         else ["-f"; V3ioConfigPath (Config_ m)]))%list in
  (Container spec = "" ->
   forall dataUrls, mounterArgs m spec dataUrls = fixedArgs dataUrls)
  /\ (Container spec <> "" ->
      forall dataUrls,
        mounterArgs m spec dataUrls
        = (fixedArgs dataUrls
           ++ ["-a"; backslashEncoded (Container spec)]
           ++ (if String.eqb (SubPath spec) "" then []
               else ["-p"; backslashEncoded (SubPath spec)]))%list)
  /\ (forall image name target args err,
        In (EvCreateContainer image name target args err)
           (traceOf (createV3IOFUSEContainer m spec targetPath) w) ->
        exists dataUrls,
          Config_DataURLs (Config_ m) (Spec_GetClusterName spec) = Ok dataUrls
          /\ args = mounterArgs m spec dataUrls).
Proof.
  intros fixedArgs. split; [|split].
  - intros Hempty dataUrls. unfold mounterArgs, fixedArgs. rewrite Hempty.
    cbn [String.eqb negb].
    now destruct (String.eqb (V3ioConfigPath (Config_ m)) "").
  - intros Hcontainer dataUrls. unfold mounterArgs, fixedArgs.
    apply String.eqb_neq in Hcontainer. rewrite Hcontainer. cbn [negb].
    destruct (String.eqb (V3ioConfigPath (Config_ m)) "");
      destruct (String.eqb (SubPath spec) ""); cbn [negb app];
      rewrite <- ?app_assoc; reflexivity.
  - intros image name target args err Hin.
    destruct (createV3IOFUSEContainer_trace m spec targetPath w)
      as (creation & polling & closing & Htr & Hcreation & Hpolling & Hclosing).
    rewrite Htr in Hin.
    apply in_app_or in Hin. destruct Hin as [Hin|Hin];
      [apply traceOf_createCRI_calls in Hin; discriminate|].
    apply in_app_or in Hin. destruct Hin as [Hin|Hin].
    + destruct Hcreation as [(-> & _)|(containerName & image' & dataUrls & removed
                                       & created & Hurls & Hname & ->)];
        [destruct Hin|].
      destruct Hin as [Hin|[Hin|[]]]; [discriminate|].
      injection Hin as _ _ _ <- _. now exists dataUrls.
    + apply in_app_or in Hin. destruct Hin as [Hin|Hin];
        [apply Hpolling in Hin; discriminate|].
      destruct Hclosing as [->|(closed & ->)]; [destruct Hin|].
      destruct Hin as [Hin|[]]. discriminate.
Qed.

End Lifecycle.

Lemma mounterArgs_container_gates_subpath_witness :
  mounterArgs (imports := Sim.imports Sim.noSpec Sim.noDirs) Sim.direct
              (mkSpec "sub/dir" "" "" "key" "ns" "") "tcp://default:1234"
  = ["/fuse/mounter.sh"; "-o"; "allow_other";
     "--connection_strings"; "tcp://default:1234";
     "--mountpoint"; "/fuse_mount"; "--session_key"; "key"].
Proof.
  refine (proj1 (mounterArgs_container_gates_subpath
                   (host := Sim.host) (imports := Sim.imports Sim.noSpec Sim.noDirs)
                   Sim.direct (mkSpec "sub/dir" "" "" "key" "ns" "")
                   Sim.podPath Sim.quiet) _ "tcp://default:1234").
  reflexivity.
Defined.

(** With a container and a sub-path both flags are passed, each
    character escaped. *)
Example mounterArgs_with_subpath :
  mounterArgs (imports := Sim.imports Sim.noSpec Sim.noDirs) Sim.direct
              (mkSpec "a/b" "big" "" "key" "ns" "") "tcp://default:1234"
  = ["/fuse/mounter.sh"; "-o"; "allow_other";
     "--connection_strings"; "tcp://default:1234";
     "--mountpoint"; "/fuse_mount"; "--session_key"; "key";
     "-a"; "\b\i\g"; "-p"; "\a\/\b"].
Proof. reflexivity. Qed.

(** ** Directory pre-creation *)

Section Directories.

Context {W : Type} {host : Host W} {imports : Imports}.

(** The loop of [createDirs] makes one of the runs of [DirsRun]. *)
Lemma createDirsLoop_runs (targetPath : string) (dirs : list DirToCreate) (w : W) :
  DirsRun targetPath dirs
          (traceOf (createDirsLoop targetPath dirs) w)
          (resultOf (createDirsLoop targetPath dirs) w).
Proof.
  revert w. induction dirs as [|dir rest IH]; intros w.
  - constructor.
  - cbn [createDirsLoop].
    destruct (strings.HasPrefix (Name dir) "/") eqn:Habs.
    + now constructor.
    + unfold Stat, MkdirAll. run_simpl.
      set (p := targetPath ++ "/" ++ Name dir).
      destruct (fst (os_Stat p w)) as [e|] eqn:Hstat.
      * cbn [os_IsNotExist]. destruct (notExist e) eqn:Hne; cbn [negb].
        -- run_simpl.
           destruct (fst (os_MkdirAll p (Permissions dir) (snd (os_Stat p w))))
             as [e'|] eqn:Hmk.
           ++ run_simpl. now constructor.
           ++ cbn [app]. constructor; [assumption..|apply IH].
        -- run_simpl. now constructor.
      * cbn [app]. constructor; [assumption|apply IH].
Qed.

End Directories.

Section DirsRunFacts.

Variable targetPath : string.

(** Only [Stat] and [MkdirAll], of the path of a descriptor with a
    relative name under the target path, and with its permission bits. *)
Lemma DirsRun_calls (dirs : list DirToCreate) (tr : list Event) (r : error) :
  DirsRun targetPath dirs tr r ->
  forall ev, In ev tr ->
    exists dir,
      In dir dirs
      /\ strings.HasPrefix (Name dir) "/" = false
      /\ ((exists err, ev = EvStat (targetPath ++ "/" ++ Name dir) err)
          \/ (exists err, ev = EvMkdirAll (targetPath ++ "/" ++ Name dir)
                                          (Permissions dir) err)).
Proof.
  induction 1 as [|dir rest Habs|dir rest tr r Habs Hrun IH|dir rest e Habs Hne
                  |dir rest e e' Habs Hne|dir rest e tr r Habs Hne Hrun IH];
    intros ev Hin; simpl in Hin.
  - destruct Hin.
  - destruct Hin.
  - destruct Hin as [<-|Hin].
    + exists dir. split; [now left|]. split; [assumption|]. left. eauto.
    + destruct (IH ev Hin) as (d & Hd & Hrest). exists d. split; [now right|exact Hrest].
  - destruct Hin as [<-|[]].
    exists dir. split; [now left|]. split; [assumption|]. left. eauto.
  - destruct Hin as [<-|[<-|[]]]; exists dir; (split; [now left|]);
      (split; [assumption|]); [left|right]; eauto.
  - destruct Hin as [<-|[<-|Hin]].
    + exists dir. split; [now left|]. split; [assumption|]. left. eauto.
    + exists dir. split; [now left|]. split; [assumption|]. right. eauto.
    + destruct (IH ev Hin) as (d & Hd & Hrest). exists d. split; [now right|exact Hrest].
Qed.





End DirsRunFacts.

Section CreateDirs.

Context {W : Type} {host : Host W} {imports : Imports}.


End CreateDirs.


(** The descriptor of the spec: [/t/a/b] is absent and is created with
    mode 0755; when it exists nothing is done to it. *)
Example createDirs_creates_absent_directory :
  let spec := mkSpec "" "bigdata" "" "key" "ns" "[{name:a/b}]" in
  let imports := Sim.imports Sim.noSpec (fun _ => Ok [mkDirToCreate "a/b" 493]) in
  (resultOf (createDirs Sim.direct spec "/t") Sim.quiet = None
   /\ traceOf (createDirs Sim.direct spec "/t") Sim.quiet
      = [EvStat "/t/a/b" (Some (Sim.ENOENT "/t/a/b")); EvMkdirAll "/t/a/b" 493 None])
  /\ (resultOf (createDirs Sim.direct spec "/t")
               (Sim.withStat (fun _ => None) Sim.quiet) = None
      /\ traceOf (createDirs Sim.direct spec "/t")
                 (Sim.withStat (fun _ => None) Sim.quiet)
         = [EvStat "/t/a/b" None]).
Proof. repeat split; reflexivity. Qed.

(** ** Mount: invalid input, and link mode *)

Section MountFailures.

Context {W : Type} {host : Host W} {imports : Imports}.

(** The Lifecycle Manager touches neither directories nor links. *)
Lemma createV3IOFUSEContainer_no_files (m : Mounter) (spec : Spec)
    (targetPath : string) (w : W) :
  forall ev, In ev (traceOf (createV3IOFUSEContainer m spec targetPath) w) ->
             isMkdirAll ev = false /\ isSymlink ev = false /\ isRemove ev = false.
Proof.
  intros ev Hin.
  destruct (createV3IOFUSEContainer_trace m spec targetPath w)
    as (creation & polling & closing & Htr & Hcreation & Hpolling & Hclosing).
  rewrite Htr in Hin.
  apply in_app_or in Hin. destruct Hin as [Hin|Hin];
    [apply traceOf_createCRI_calls in Hin; now destruct ev|].
  apply in_app_or in Hin. destruct Hin as [Hin|Hin].
  { destruct Hcreation as [(-> & _)|(n & i & u & r & c & _ & _ & ->)];
      [destruct Hin|].
    destruct Hin as [<-|[<-|[]]]; repeat split. }
  apply in_app_or in Hin. destruct Hin as [Hin|Hin];
    [apply Hpolling in Hin; now destruct ev|].
  destruct Hclosing as [->|(closed & ->)]; [destruct Hin|].
  destruct Hin as [<-|[]]. repeat split.
Qed.

(** Without an identity for the target path no container is created and
    the Lifecycle Manager fails. *)
Lemma createV3IOFUSEContainer_unnamed (m : Mounter) (spec : Spec)
    (targetPath : string) (w : W) (e : GoError) :
  getContainerNameFromTargetPath targetPath = Err e ->
  (exists e', resultOf (createV3IOFUSEContainer m spec targetPath) w = Some e')
  /\ forall ev, In ev (traceOf (createV3IOFUSEContainer m spec targetPath) w) ->
                isCreateContainer ev = false.
Proof.
  intros Hname.
  destruct (createV3IOFUSEContainer_trace m spec targetPath w)
    as (creation & polling & closing & Htr & Hcreation & Hpolling & Hclosing).
  destruct Hcreation as [(-> & -> & Hres)|(n & i & u & r & c & _ & Hok & _)];
    [|congruence].
  split; [exact Hres|].
  intros ev Hin. rewrite Htr in Hin. cbn [app] in Hin.
  apply in_app_or in Hin. destruct Hin as [Hin|Hin];
    [apply traceOf_createCRI_calls in Hin; now destruct ev|].
  destruct Hclosing as [->|(closed & ->)]; [destruct Hin|].
  destruct Hin as [<-|[]]. reflexivity.
Qed.

(** C8: a spec string that does not parse, or a spec that fails
    validation, makes [Mount] fail with no call to the host at all.  A
    descriptor list that does not parse is found out later: outside link
    mode [Mount] then creates no directory and no link, and it fails
    unless the prober reported the target path mounted. *)
Theorem Mount_invalid_input (m : Mounter) (targetPath specString : string) (w : W) :
  (forall e,
      json_Unmarshal_Spec specString = Err e ->
      Mount m targetPath specString w
      = (NewFailResponse "Failed to unmarshal spec" (Some e), [], w))
  /\ (forall spec e,
        json_Unmarshal_Spec specString = Ok spec ->
        Spec_validate spec = Some e ->
        Mount m targetPath specString w
        = (NewFailResponse "Mount failed validation" (Some e), [], w))
  /\ (forall spec e,
        json_Unmarshal_Spec specString = Ok spec ->
        Spec_validate spec = None ->
        json_Unmarshal_Dirs (DirsToCreate spec) = Err e ->
        DirsToCreate spec <> "" ->
        Type_ (Config_ m) <> "link" ->
        (forall ev, In ev (traceOf (Mount m targetPath specString) w) ->
                    isMkdirAll ev = false /\ isSymlink ev = false)
        /\ (mountedIn (probe w) targetPath = false ->
            isSuccess (resultOf (Mount m targetPath specString) w) = false)).
Proof.
  split; [|split].
  - intros e Hparse. unfold Mount. now rewrite Hparse.
  - intros spec e Hparse Hvalid. unfold Mount. now rewrite Hparse, Hvalid.
  - intros spec e Hparse Hvalid Hdirs Hnonempty Hmode.
    unfold Mount. rewrite Hparse, Hvalid, (not_link m Hmode). run_simpl.
    destruct (mountedIn (probe w) targetPath) eqn:Hmounted.
    { run_simpl. split; [|discriminate].
      intros ev [<-|[]]. split; reflexivity. }
    run_simpl. set (w1 := snd (exec_mount_CombinedOutput w)).
    pose proof (createV3IOFUSEContainer_no_files m spec targetPath w1) as Hfiles.
    assert (Hcd : forall w', createDirs m spec targetPath w'
                             = (Some (fmt_Errorf ("Failed to parse dirsToCreate ["
                                                  ++ DirsToCreate spec ++ "]: "
                                                  ++ Error e)), [], w')).
    { intros w'. unfold createDirs. rewrite Hdirs.
      apply String.eqb_neq in Hnonempty. now rewrite Hnonempty. }
    assert (Hcdr : forall w', resultOf (createDirs m spec targetPath) w'
                              = Some (fmt_Errorf ("Failed to parse dirsToCreate ["
                                                  ++ DirsToCreate spec ++ "]: "
                                                  ++ Error e)))
      by (intros w'; unfold resultOf; now rewrite Hcd).
    assert (Hcdt : forall w', traceOf (createDirs m spec targetPath) w' = [])
      by (intros w'; unfold traceOf; now rewrite Hcd).
    destruct (resultOf (createV3IOFUSEContainer m spec targetPath) w1) as [e'|].
    + run_simpl. split; [|reflexivity].
      intros ev [<-|Hin]; [split; reflexivity|].
      rewrite app_nil_r in Hin. apply Hfiles in Hin. tauto.
    + run_simpl. rewrite Hcdr, Hcdt. run_simpl. split; [|reflexivity].
      intros ev [<-|Hin]; [split; reflexivity|].
      rewrite !app_nil_r in Hin. apply Hfiles in Hin. tauto.
Qed.

(** In link mode, when the shared path is not reported mounted and no
    identity can be derived from it, [Mount] fails: no container is
    created and no link is made. *)
Lemma Mount_link_unnamed (m : Mounter) (targetPath specString : string)
    (spec : Spec) (w : W) (e : GoError) :
  json_Unmarshal_Spec specString = Ok spec ->
  Spec_validate spec = None ->
  Type_ (Config_ m) = "link" ->
  getContainerNameFromTargetPath
    (path.Join ["/mnt/v3io"; Namespace spec; Container spec]) = Err e ->
  mountedIn (probe w) (path.Join ["/mnt/v3io"; Namespace spec; Container spec])
  = false ->
  isSuccess (resultOf (Mount m targetPath specString) w) = false
  /\ forall ev, In ev (traceOf (Mount m targetPath specString) w) ->
                isCreateContainer ev = false /\ isSymlink ev = false.
Proof.
  intros Hparse Hvalid Hmode Hname Hfree.
  unfold Mount. rewrite Hparse, Hvalid, Hmode. cbn [String.eqb Ascii.eqb Bool.eqb].
  unfold mountAsLink, MkdirAll. run_simpl.
  set (linkPath := path.Join ["/mnt/v3io"; Namespace spec; Container spec]) in *.
  rewrite Hfree. cbn [negb]. run_simpl.
  set (w1 := snd (exec_mount_CombinedOutput w)).
  destruct (fst (os_MkdirAll linkPath 493 w1)) as [e'|] eqn:Hmk.
  { run_simpl. split; [reflexivity|].
    intros ev [<-|[<-|[]]]; split; reflexivity. }
  run_simpl. set (w2 := snd (os_MkdirAll linkPath 493 w1)).
  destruct (createV3IOFUSEContainer_unnamed m spec linkPath w2 e Hname)
    as ((e' & Hres) & Hnone).
  pose proof (createV3IOFUSEContainer_no_files m spec linkPath w2) as Hfiles.
  rewrite Hres. run_simpl. split; [reflexivity|].
  intros ev [<-|[<-|Hin]]; try (split; reflexivity).
  rewrite !app_nil_r in Hin. split; [now apply Hnone|now apply Hfiles].
Qed.

(** In link mode, when the shared path is reported mounted, [Mount]
    removes what is at the target path and links it to the shared path;
    it calls nothing else. *)
Lemma Mount_link_shared (m : Mounter) (targetPath specString : string)
    (spec : Spec) (w : W) :
  json_Unmarshal_Spec specString = Ok spec ->
  Spec_validate spec = None ->
  Type_ (Config_ m) = "link" ->
  mountedIn (probe w) (path.Join ["/mnt/v3io"; Namespace spec; Container spec])
  = true ->
  let linkPath := path.Join ["/mnt/v3io"; Namespace spec; Container spec] in
  let w1 := snd (exec_mount_CombinedOutput w) in
  match fst (os_Remove targetPath w1) with
  | Some e =>
      resultOf (Mount m targetPath specString) w
      = NewFailResponse ("Failed to remove target " ++ targetPath) (Some e)
      /\ traceOf (Mount m targetPath specString) w
         = [EvMount (probe w); EvRemove targetPath (Some e)]
  | None =>
      let linked := fst (os_Symlink linkPath targetPath (snd (os_Remove targetPath w1))) in
      traceOf (Mount m targetPath specString) w
      = [EvMount (probe w); EvRemove targetPath None;
         EvSymlink linkPath targetPath linked]
      /\ resultOf (Mount m targetPath specString) w
         = match linked with
           | Some e =>
               NewFailResponse ("Failed to create link " ++ linkPath
                                ++ " to target " ++ targetPath) (Some e)
           | None => NewSuccessResponse "Successfully mounted as link"
           end
  end.
Proof.
  intros Hparse Hvalid Hmode Hmounted linkPath w1.
  unfold Mount. rewrite Hparse, Hvalid, Hmode. cbn [String.eqb Ascii.eqb Bool.eqb].
  unfold mountAsLink, Remove, Symlink. run_simpl. fold linkPath.
  unfold linkPath in Hmounted |- *. rewrite Hmounted. cbn [negb]. run_simpl.
  fold w1. destruct (fst (os_Remove targetPath w1)) as [e|].
  - run_simpl. split; reflexivity.
  - run_simpl. cbn zeta.
    destruct (fst (os_Symlink _ targetPath (snd (os_Remove targetPath w1))));
      run_simpl; split; reflexivity.
Qed.

End MountFailures.

Lemma Mount_invalid_input_witness :
  Mount (host := Sim.host) (imports := Sim.imports Sim.noSpec Sim.noDirs)
        Sim.direct Sim.podPath "{" Sim.quiet
  = (NewFailResponse "Failed to unmarshal spec"
                     (Some (fmt_Errorf "unexpected end of JSON input")),
     [], Sim.quiet).
Proof.
  refine (proj1 (Mount_invalid_input
                   (host := Sim.host) (imports := Sim.imports Sim.noSpec Sim.noDirs)
                   Sim.direct Sim.podPath "{" Sim.quiet)
                (fmt_Errorf "unexpected end of JSON input") _).
  reflexivity.
Defined.

(** C8, as stated, fails for the descriptor list: the spec is valid but
    its list of directories does not parse; the helper mounts the path
    1s after its creation.  [Mount] fails only after it had the
    container removed and created. *)
Lemma Mount_malformed_dirs_after_creation :
  let spec := mkSpec "" "bigdata" "" "key" "ns" "[{" in
  let imports := Sim.imports (fun _ => Ok spec) Sim.noDirs in
  let w := Sim.mountedBetween Sim.podPath (1 * time_Second) (100 * time_Second) in
  resultOf (Mount Sim.direct Sim.podPath "{}") w
  = NewFailResponse "Failed to create folders"
      (Some (fmt_Errorf
               "Failed to parse dirsToCreate [[{]: unexpected end of JSON input"))
  /\ traceOf (Mount Sim.direct Sim.podPath "{}") w
     = [EvMount (Ok "");
        EvStat "/usr/bin/docker" (Some (Sim.ENOENT "/usr/bin/docker"));
        EvNewContainerd "/run/containerd/containerd.sock" "v3io" (Ok Containerd);
        EvRemoveContainer "v3io-fuse-0c08-vol1" None;
        EvCreateContainer "iguazio/v3io-fuse:local" "v3io-fuse-0c08-vol1" Sim.podPath
          ["/fuse/mounter.sh"; "-o"; "allow_other";
           "--connection_strings"; "tcp://default:1234";
           "--mountpoint"; "/fuse_mount"; "--session_key"; "key";
           "-a"; "\b\i\g\d\a\t\a"] None;
        EvMount (Ok ""); EvSleep 1000000000;
        EvMount (Ok (mountLine "v3io" Sim.podPath "fuse" "rw"));
        EvClose None]
  /\ existsb isCreateContainer (traceOf (Mount Sim.direct Sim.podPath "{}") w) = true.
Proof. vm_compute. repeat split; reflexivity. Qed.

(** The run of [Mount] in link mode for the namespace [ns] and the
    container [bigdata], with nothing mounted yet: the shared directory
    is made, and the Lifecycle Manager stops at the identity of
    [/mnt/v3io/ns/bigdata], which has no segment [pods]. *)
Example Mount_link_first_call :
  let imports := Sim.imports (fun _ => Ok Sim.bigdata) Sim.noDirs in
  resultOf (Mount Sim.link Sim.podPath "{}") Sim.quiet
  = NewFailResponse "Failed to create v3io FUSE container"
      (Some (fmt_Errorf
               "Failed to get container name: Could not find pod directory in path: /mnt/v3io/ns/bigdata"))
  /\ traceOf (Mount Sim.link Sim.podPath "{}") Sim.quiet
     = [EvMount (Ok "");
        EvMkdirAll "/mnt/v3io/ns/bigdata" 493 None;
        EvStat "/usr/bin/docker" (Some (Sim.ENOENT "/usr/bin/docker"));
        EvNewContainerd "/run/containerd/containerd.sock" "v3io" (Ok Containerd);
        EvClose None].
Proof. vm_compute. split; reflexivity. Qed.

(** With the shared path mounted by other means, two calls for two pods
    make two links to it and call the runtime not at all. *)
Example Mount_link_two_pods :
  let imports := Sim.imports (fun _ => Ok Sim.bigdata) Sim.noDirs in
  let w := Sim.mountedBetween "/mnt/v3io/ns/bigdata" 0 (100 * time_Second) in
  let other := "/var/lib/kubelet/pods/1d19/volumes/v3io~fuse/vol1" in
  let both :=
    first <- Mount Sim.link Sim.podPath "{}" ;;
    second <- Mount Sim.link other "{}" ;;
    ret (first, second) in
  resultOf both w
  = (NewSuccessResponse "Successfully mounted as link",
     NewSuccessResponse "Successfully mounted as link")
  /\ traceOf both w
     = [EvMount (Ok (mountLine "v3io" "/mnt/v3io/ns/bigdata" "fuse" "rw"));
        EvRemove Sim.podPath None;
        EvSymlink "/mnt/v3io/ns/bigdata" Sim.podPath None;
        EvMount (Ok (mountLine "v3io" "/mnt/v3io/ns/bigdata" "fuse" "rw"));
        EvRemove other None;
        EvSymlink "/mnt/v3io/ns/bigdata" other None].
Proof. vm_compute. split; reflexivity. Qed.

(** ** The shared path of link mode has no identity *)

Section LinkPath.

Lemma Split_no_separator (s : string) :
  existsb (Ascii.eqb "/") (list_ascii_of_string s) = false ->
  strings.Split s "/" = [s].
Proof.
  induction s as [|c s IH]; [reflexivity|]. cbn [list_ascii_of_string existsb].
  intros H. apply orb_false_elim in H. destruct H as [Hc Hs].
  cbn [strings.Split]. rewrite Ascii.eqb_sym in Hc. rewrite Hc, (IH Hs). reflexivity.
Qed.

Lemma Split_at_separator (s rest : string) :
  existsb (Ascii.eqb "/") (list_ascii_of_string s) = false ->
  strings.Split (s ++ String "/" rest) "/" = s :: strings.Split rest "/".
Proof.
  induction s as [|c s IH]; [reflexivity|]. cbn [list_ascii_of_string existsb].
  intros H. apply orb_false_elim in H. destruct H as [Hc Hs].
  cbn [append strings.Split]. rewrite Ascii.eqb_sym in Hc. rewrite Hc, (IH Hs).
  reflexivity.
Qed.

Lemma isPlainElem_facts (s : string) :
  isPlainElem s = true ->
  existsb (Ascii.eqb "/") (list_ascii_of_string s) = false
  /\ String.eqb s "" = false /\ String.eqb s "." = false
  /\ String.eqb s ".." = false.
Proof.
  unfold isPlainElem. intros H.
  repeat (apply andb_prop in H; destruct H as [H ?]).
  repeat split; now apply negb_true_iff.
Qed.

(** For a namespace and a container that are plain path elements the
    shared path is [/mnt/v3io/<namespace>/<container>]. *)
Lemma linkPath_plain (namespace container : string) :
  isPlainElem namespace = true ->
  isPlainElem container = true ->
  path.Join ["/mnt/v3io"; namespace; container]
  = "/mnt/v3io/" ++ namespace ++ "/" ++ container.
Proof.
  intros Hn Hc.
  destruct (isPlainElem_facts _ Hn) as (Hn1 & Hn2 & Hn3 & Hn4).
  destruct (isPlainElem_facts _ Hc) as (Hc1 & Hc2 & Hc3 & Hc4).
  unfold path.Join. cbn [filter String.eqb negb]. rewrite Hn2, Hc2. cbn [negb].
  cbn [strings.Join]. unfold path.Clean.
  change ("/mnt/v3io" ++ "/" ++ namespace ++ "/" ++ container)
    with (String "/" ("mnt" ++ String "/" ("v3io" ++ String "/"
            (namespace ++ String "/" container)))).
  cbv iota beta. change (Ascii.eqb "/" "/") with true. cbv zeta iota.
  change (String "/" ("mnt" ++ String "/" ("v3io" ++ String "/"
            (namespace ++ String "/" container))))
    with ("" ++ String "/" ("mnt" ++ String "/" ("v3io" ++ String "/"
            (namespace ++ String "/" container)))).
  rewrite !Split_at_separator by (assumption || reflexivity).
  rewrite (Split_no_separator _ Hc1).
  cbn [path.cleanElems String.eqb Ascii.eqb Bool.eqb orb].
  rewrite Hn2, Hn3, Hn4. cbn [orb].
  cbn [path.cleanElems String.eqb Ascii.eqb Bool.eqb orb].
  rewrite Hc2, Hc3, Hc4. cbn [orb path.cleanElems rev app strings.Join].
  reflexivity.
Qed.

(** No identity can be derived from it, unless the namespace or the
    container is itself called [pods]. *)
Lemma linkPath_unnamed (namespace container : string) :
  isPlainElem namespace = true ->
  isPlainElem container = true ->
  namespace <> "pods" ->
  container <> "pods" ->
  getContainerNameFromTargetPath (path.Join ["/mnt/v3io"; namespace; container])
  = Err (fmt_Errorf ("Could not find pod directory in path: /mnt/v3io/"
                     ++ namespace ++ "/" ++ container)).
Proof.
  intros Hn Hc Hnp Hcp. rewrite (linkPath_plain _ _ Hn Hc).
  destruct (isPlainElem_facts _ Hn) as (Hn1 & _).
  destruct (isPlainElem_facts _ Hc) as (Hc1 & _).
  rewrite resolve_absent; [reflexivity|].
  change ("/mnt/v3io/" ++ namespace ++ "/" ++ container)
    with ("" ++ String "/" ("mnt" ++ String "/" ("v3io" ++ String "/"
            (namespace ++ String "/" container)))).
  unfold filepath_Separator.
  rewrite !Split_at_separator by (assumption || reflexivity).
  rewrite (Split_no_separator _ Hc1).
  simpl. intros [H|[H|[H|[H|[H|[]]]]]]; try discriminate; congruence.
Qed.

End LinkPath.

Section LinkMode.

Context {W : Type} {host : Host W} {imports : Imports}.

(** C7: in link mode, for a namespace and a container that are plain
    path elements other than [pods], the shared path is
    [/mnt/v3io/<namespace>/<container>]; when the prober does not report
    it mounted, [Mount] fails, creates no container and makes no link:
    the Lifecycle Manager finds no segment [pods] in the shared path to
    name the container after. *)
Theorem Mount_link_cannot_bind (m : Mounter) (targetPath specString : string)
    (spec : Spec) (w : W) :
  json_Unmarshal_Spec specString = Ok spec ->
  Spec_validate spec = None ->
  Type_ (Config_ m) = "link" ->
  isPlainElem (Namespace spec) = true ->
  isPlainElem (Container spec) = true ->
  Namespace spec <> "pods" ->
  Container spec <> "pods" ->
  mountedIn (probe w) ("/mnt/v3io/" ++ Namespace spec ++ "/" ++ Container spec)
  = false ->
  path.Join ["/mnt/v3io"; Namespace spec; Container spec]
  = "/mnt/v3io/" ++ Namespace spec ++ "/" ++ Container spec
  /\ isSuccess (resultOf (Mount m targetPath specString) w) = false
  /\ forall ev, In ev (traceOf (Mount m targetPath specString) w) ->
                isCreateContainer ev = false /\ isSymlink ev = false.
Proof.
  intros Hparse Hvalid Hmode Hn Hc Hnp Hcp Hfree.
  split; [now apply linkPath_plain|].
  apply Mount_link_unnamed
    with (spec := spec)
         (e := fmt_Errorf ("Could not find pod directory in path: /mnt/v3io/"
                           ++ Namespace spec ++ "/" ++ Container spec));
    try assumption.
  - now apply linkPath_unnamed.
  - now rewrite linkPath_plain.
Qed.

End LinkMode.

Lemma Mount_link_cannot_bind_witness :
  let imports := Sim.imports (fun _ => Ok Sim.bigdata) Sim.noDirs in
  isSuccess (resultOf (Mount Sim.link Sim.podPath "{}") Sim.quiet) = false.
Proof.
  intros imports.
  refine (proj1 (proj2 (Mount_link_cannot_bind
                          (host := Sim.host) (imports := imports)
                          Sim.link Sim.podPath "{}" Sim.bigdata Sim.quiet
                          _ _ _ _ _ _ _ _)));
    try reflexivity; discriminate.
Defined.

(** * Every run of the entry points *)

Section EveryRun.

Context {W : Type} {host : Host W} {imports : Imports}.

Lemma createCRI_run (w : W) :
  traceOf createCRI w
  = [EvStat "/usr/bin/docker" (fst (os_Stat "/usr/bin/docker" w));
     if os_IsNotExist (fst (os_Stat "/usr/bin/docker" w))
     then EvNewContainerd "/run/containerd/containerd.sock" "v3io"
                          (resultOf createCRI w)
     else EvNewDocker "/usr/bin/docker" (resultOf createCRI w)].
Proof.
  unfold createCRI, Stat, NewContainerd, NewDocker. run_simpl.
  destruct (os_IsNotExist (fst (os_Stat "/usr/bin/docker" w)));
    run_simpl; reflexivity.
Qed.

(** Every run of [createV3IOFUSEContainer] is the calls of [createCRI]
    followed by one of the runs of [BindRun]. *)
Lemma createV3IOFUSEContainer_runs (m : Mounter) (spec : Spec)
    (targetPath : string) (w : W) :
  exists tail,
    traceOf (createV3IOFUSEContainer m spec targetPath) w
    = (traceOf createCRI w ++ tail)%list
    /\ BindRun targetPath (imageOf m)
         (getContainerNameFromTargetPath targetPath)
         match Config_DataURLs (Config_ m) (Spec_GetClusterName spec) with
         | Ok dataUrls => Ok (mounterArgs m spec dataUrls)
         | Err e => Err e
         end
         (resultOf createCRI w) tail
         (resultOf (createV3IOFUSEContainer m spec targetPath) w).
Proof.
  unfold createV3IOFUSEContainer, deferClose. run_simpl.
  destruct (resultOf createCRI w) as [c|e] eqn:Hcri.
  2:{ exists []. run_simpl. split; [reflexivity|constructor]. }
  run_simpl.
  destruct (Config_DataURLs (Config_ m) (Spec_GetClusterName spec))
    as [dataUrls|e] eqn:Hurls.
  2:{ eexists. unfold Close. run_simpl. split; [reflexivity|].
      now constructor. }
  destruct (getContainerNameFromTargetPath targetPath) as [containerName|e] eqn:Hname.
  2:{ eexists. unfold Close. run_simpl. split; [reflexivity|].
      now apply BindNoName with (a := mounterArgs m spec dataUrls). }
  unfold removeV3IOFUSEContainer. rewrite Hname.
  unfold RemoveContainer, CreateContainer, Close. run_simpl.
  set (w1 := worldOf createCRI w).
  set (removed := fst (cri_RemoveContainer c containerName w1)).
  set (w2 := snd (cri_RemoveContainer c containerName w1)).
  assert (Hw2 : worldOf
            match removed with
            | Some e =>
                ret (W := W) (Some (fmt_Errorf ("Could not remove container for "
                                       ++ targetPath ++ ": " ++ Error e)))
            | None => ret None
            end w2 = w2) by (destruct removed; reflexivity).
  assert (Ht2 : traceOf
            match removed with
            | Some e =>
                ret (W := W) (Some (fmt_Errorf ("Could not remove container for "
                                       ++ targetPath ++ ": " ++ Error e)))
            | None => ret None
            end w2 = []) by (destruct removed; reflexivity).
  rewrite Hw2, Ht2. fold (imageOf m).
  set (args := mounterArgs m spec dataUrls).
  set (created := fst (cri_CreateContainer c (imageOf m) containerName targetPath
                                           args w2)).
  set (w3 := snd (cri_CreateContainer c (imageOf m) containerName targetPath args w2)).
  destruct created as [e|] eqn:Hcreated.
  - run_simpl. eexists. split; [cbn [app]; reflexivity|].
    now apply BindCreateFailed.
  - run_simpl.
    destruct (waitMounted_shape targetPath [1; 2; 4; 2; 1]%Z w3)
      as (outs & Hall & [(Hres & Hlen & Htr)|(Hres & Hlen & out & Hout & Htr)]);
      rewrite Hres, Htr; run_simpl.
    + eexists. split; [cbn [app]; rewrite app_nil_r; reflexivity|].
      now apply (BindTimeout targetPath (imageOf m) _ _ c args containerName
                             removed outs).
    + eexists. split.
      2:{ now apply (BindMounted targetPath (imageOf m) _ _ c args containerName
                                 removed outs out). }
      cbn [app]. rewrite app_nil_r, <- app_assoc. reflexivity.
Qed.

(** Outside link mode and on a path reported mounted, every run of
    [Unmount] is the probe, the calls of [createCRI] and one of the runs
    of [ReleaseRun]. *)
Lemma Unmount_direct_runs (m : Mounter) (targetPath : string) (w : W) :
  Type_ (Config_ m) <> "link" ->
  mountedIn (probe w) targetPath = true ->
  exists tail,
    traceOf (Unmount m targetPath) w
    = (EvMount (probe w)
       :: traceOf createCRI (snd (exec_mount_CombinedOutput w)) ++ tail)%list
    /\ ReleaseRun targetPath (getContainerNameFromTargetPath targetPath)
         (resultOf createCRI (snd (exec_mount_CombinedOutput w))) tail
         (resultOf (Unmount m targetPath) w).
Proof.
  intros Hmode Hmounted. unfold Unmount. rewrite (not_link m Hmode). run_simpl.
  rewrite Hmounted. cbn [negb]. run_simpl.
  set (w1 := snd (exec_mount_CombinedOutput w)).
  destruct (resultOf createCRI w1) as [c|e] eqn:Hc.
  2:{ exists []. run_simpl. split; [reflexivity|constructor]. }
  unfold deferClose, removeV3IOFUSEContainer, umountStart, Close, RemoveContainer.
  destruct (getContainerNameFromTargetPath targetPath) as [containerName|e] eqn:Hname.
  2:{ run_simpl. eexists. split; [cbn [app]; reflexivity|]. now constructor. }
  run_simpl. set (w2 := worldOf createCRI w1).
  destruct (fst (cri_RemoveContainer c containerName w2)) as [e|] eqn:Hremoved.
  { run_simpl. eexists. split; [cbn [app]; reflexivity|]. now constructor. }
  run_simpl. set (w3 := snd (cri_RemoveContainer c containerName w2)).
  destruct (fst (exec_umount_Start targetPath w3)) as [e|] eqn:Hstarted.
  { run_simpl. eexists. split; [cbn [app]; reflexivity|]. now constructor. }
  run_simpl. set (w4 := snd (exec_umount_Start targetPath w3)).
  destruct (waitUnmounted_shape targetPath [1; 2; 4]%Z w4)
    as (outs & Hall & [(Hres & Hlen & Htr)
                      |(out & removed & Hout & Hlen & Htr & Hres)]);
    rewrite Hres, Htr; run_simpl.
  - eexists. split; [cbn [app]; rewrite app_nil_r; reflexivity|].
    now apply (ReleaseTimeout targetPath _ c containerName outs).
  - eexists. split.
    2:{ now apply (ReleaseUnmounted targetPath _ c containerName outs out removed). }
    cbn [app]. rewrite app_nil_r, <- app_assoc. reflexivity.
Qed.

End EveryRun.

(** ** Facts on traces *)

Section TraceFacts.

Lemma filter_pollTrace (p : Event -> bool) (outs : list (result string))
    (intervals : list Z) :
  (forall out, p (EvMount out) = false) ->
  (forall d, p (EvSleep d) = false) ->
  filter p (pollTrace outs intervals) = [].
Proof.
  intros Hm Hs. revert intervals.
  induction outs as [|out outs IH]; intros [|i intervals]; try reflexivity.
  cbn [pollTrace filter]. now rewrite Hm, Hs, IH.
Qed.

Lemma probes_of_pollTrace (outs : list (result string)) (intervals : list Z)
    (out : result string) :
  In (EvMount out) (pollTrace outs intervals) -> In out outs.
Proof.
  revert intervals. induction outs as [|o outs IH]; intros [|i intervals];
    simpl; try tauto.
  intros [H|[H|H]]; [left; congruence|discriminate|right; eauto].
Qed.

Lemma slept_nonneg_pollTrace (outs : list (result string)) (intervals : list Z) :
  Forall (fun i => 0 <= i)%Z intervals ->
  (0 <= slept (pollTrace outs intervals))%Z.
Proof.
  intros H. revert outs. induction H as [|i intervals Hi _ IH]; intros [|o outs];
    cbn [pollTrace slept]; try lia.
  specialize (IH outs). unfold time_Second. lia.
Qed.

End TraceFacts.

Section BindFacts.

Variables (targetPath image : string) (containerName : result string)
          (args : result (list string)).

Lemma BindRun_slept (opened : result CRI) (tail : list Event) (r : error) :
  BindRun targetPath image containerName args opened tail r ->
  (0 <= slept tail <= 10 * time_Second)%Z.
Proof.
  destruct 1; cbn [app slept]; rewrite ?slept_app; cbn [slept];
    try (unfold time_Second; lia);
    pose proof (slept_pollTrace_create outs);
    pose proof (slept_nonneg_pollTrace outs [1; 2; 4; 2; 1]%Z
                  ltac:(repeat constructor; lia)); lia.
Qed.


Lemma BindRun_probes (opened : result CRI) (tail : list Event) (r : error) :
  BindRun targetPath image containerName args opened tail r ->
  r <> None ->
  forall out, In (EvMount out) tail -> mountedIn out targetPath = false.
Proof.
  destruct 1; intros Hr o Hin; try congruence;
    try (simpl in Hin; intuition discriminate).
  cbn [app] in Hin. destruct Hin as [Hin|[Hin|Hin]]; try discriminate.
  apply in_app_or in Hin. destruct Hin as [Hin|[Hin|[]]]; [|discriminate].
  apply probes_of_pollTrace in Hin.
  rewrite Forall_forall in H1. now apply H1.
Qed.

Lemma BindRun_containers (opened : result CRI) (tail : list Event) (r : error) :
  BindRun targetPath image containerName args opened tail r ->
  (forall image' n target a e,
      In (EvCreateContainer image' n target a e) tail ->
      image' = image /\ target = targetPath
      /\ containerName = Ok n /\ args = Ok a
      /\ exists removed before after,
           tail = (before ++ EvRemoveContainer n removed
                   :: EvCreateContainer image' n target a e :: after)%list)
  /\ (forall n e, In (EvRemoveContainer n e) tail -> containerName = Ok n)
  /\ (List.length (filter isCreateContainer tail) <= 1)%nat.
Proof.
  destruct 1.
  - repeat split; try (intros; simpl in *; tauto). simpl. lia.
  - repeat split; try (intros; simpl in *; intuition discriminate). simpl. lia.
  - repeat split; try (intros; simpl in *; intuition discriminate). simpl. lia.
  - split; [|split].
    + intros image' n' target a' e' [Hin|[Hin|[Hin|[]]]]; try discriminate.
      injection Hin as <- <- <- <- <-. repeat split; try assumption.
      exists removed, [], [EvClose closed]. reflexivity.
    + intros n' e' [Hin|[Hin|[Hin|[]]]]; try discriminate. congruence.
    + simpl. lia.
  - split; [|split].
    + intros image' n' target a' e' Hin. cbn [app] in Hin.
      destruct Hin as [Hin|[Hin|Hin]]; [discriminate| |].
      * injection Hin as <- <- <- <- <-. repeat split; try assumption.
        exists removed, [], (pollTrace outs [1; 2; 4; 2; 1]%Z
                             ++ [EvMount out; EvClose closed])%list.
        reflexivity.
      * apply in_app_or in Hin. destruct Hin as [Hin|[Hin|[Hin|[]]]];
          try discriminate.
        apply pollTrace_calls in Hin. discriminate.
    + intros n' e' Hin. cbn [app] in Hin.
      destruct Hin as [Hin|[Hin|Hin]]; [congruence|discriminate|].
      apply in_app_or in Hin. destruct Hin as [Hin|[Hin|[Hin|[]]]];
        try discriminate.
      apply pollTrace_calls in Hin. discriminate.
    + cbn [app filter isCreateContainer]. rewrite filter_app, filter_pollTrace
        by reflexivity. simpl. lia.
  - split; [|split].
    + intros image' n' target a' e' Hin. cbn [app] in Hin.
      destruct Hin as [Hin|[Hin|Hin]]; [discriminate| |].
      * injection Hin as <- <- <- <- <-. repeat split; try assumption.
        exists removed, [], (pollTrace outs [1; 2; 4; 2; 1]%Z
                             ++ [EvClose closed])%list.
        reflexivity.
      * apply in_app_or in Hin. destruct Hin as [Hin|[Hin|[]]];
          try discriminate.
        apply pollTrace_calls in Hin. discriminate.
    + intros n' e' Hin. cbn [app] in Hin.
      destruct Hin as [Hin|[Hin|Hin]]; [congruence|discriminate|].
      apply in_app_or in Hin. destruct Hin as [Hin|[Hin|[]]];
        try discriminate.
      apply pollTrace_calls in Hin. discriminate.
    + cbn [app filter isCreateContainer]. rewrite filter_app, filter_pollTrace
        by reflexivity. simpl. lia.
Qed.

Lemma BindRun_calls (opened : result CRI) (tail : list Event) (r : error) :
  BindRun targetPath image containerName args opened tail r ->
  forall ev, In ev tail -> isRuntimeCall ev = true \/ isPollCall ev = true.
Proof.
  destruct 1; intros ev Hin; cbn [app] in Hin.
  - destruct Hin.
  - destruct Hin as [<-|[]]. now left.
  - destruct Hin as [<-|[]]. now left.
  - destruct Hin as [<-|[<-|[<-|[]]]]; now left.
  - destruct Hin as [<-|[<-|Hin]]; try now left.
    apply in_app_or in Hin. destruct Hin as [Hin|[<-|[<-|[]]]];
      [right; now apply pollTrace_calls in Hin|now right|now left].
  - destruct Hin as [<-|[<-|Hin]]; try now left.
    apply in_app_or in Hin. destruct Hin as [Hin|[<-|[]]];
      [right; now apply pollTrace_calls in Hin|now left].
Qed.

Lemma BindRun_closes (opened : result CRI) (tail : list Event) (r : error) :
  BindRun targetPath image containerName args opened tail r ->
  match opened with
  | Ok _ => exists body closed,
              tail = (body ++ [EvClose closed])%list
              /\ filter isClose body = []
  | Err _ => tail = []
  end.
Proof.
  destruct 1.
  - reflexivity.
  - exists [], closed. now split.
  - exists [], closed. now split.
  - eexists [_; _], closed. now split.
  - exists ([EvRemoveContainer n removed;
             EvCreateContainer image n targetPath a None]
            ++ pollTrace outs [1; 2; 4; 2; 1]%Z ++ [EvMount out])%list, closed.
    split; [cbn [app]; rewrite <- !app_assoc; reflexivity|].
    cbn [app filter isClose]. rewrite filter_app, filter_pollTrace by reflexivity.
    reflexivity.
  - exists ([EvRemoveContainer n removed;
             EvCreateContainer image n targetPath a None]
            ++ pollTrace outs [1; 2; 4; 2; 1]%Z)%list, closed.
    split; [cbn [app]; rewrite <- ?app_assoc; reflexivity|].
    cbn [app filter isClose]. rewrite filter_pollTrace by reflexivity.
    reflexivity.
Qed.

End BindFacts.

Section MountRuns.

Context {W : Type} {host : Host W} {imports : Imports}.

Lemma createDirs_calls (m : Mounter) (spec : Spec) (targetPath : string) (w : W) :
  forall ev, In ev (traceOf (createDirs m spec targetPath) w) ->
    (exists name e, ev = EvStat name e)
    \/ (exists dir perm e, ev = EvMkdirAll dir perm e).
Proof.
  intros ev Hin. unfold createDirs in Hin.
  destruct (json_Unmarshal_Dirs (DirsToCreate spec)) as [dirs|e].
  - pose proof (createDirsLoop_runs targetPath dirs w) as Hrun.
    destruct (DirsRun_calls _ _ _ _ Hrun ev Hin)
      as (dir & _ & _ & [(e & ->)|(e & ->)]); [left|right]; eauto.
  - destruct (negb (DirsToCreate spec =? "")); destruct Hin.
Qed.

Lemma createDirs_slept (m : Mounter) (spec : Spec) (targetPath : string) (w : W) :
  slept (traceOf (createDirs m spec targetPath) w) = 0%Z.
Proof.
  pose proof (createDirs_calls m spec targetPath w) as H.
  induction (traceOf (createDirs m spec targetPath) w) as [|ev tr IH];
    [reflexivity|].
  destruct (H ev (or_introl eq_refl)) as [(n & e & ->)|(d & p & e & ->)];
    cbn [slept]; apply IH; intros; apply H; now right.
Qed.

(** [Mount] outside link mode, on a spec that is valid. *)
Lemma Mount_direct_run (m : Mounter) (targetPath specString : string)
    (spec : Spec) (w : W) :
  json_Unmarshal_Spec specString = Ok spec ->
  Spec_validate spec = None ->
  Type_ (Config_ m) <> "link" ->
  let w1 := snd (exec_mount_CombinedOutput w) in
  let bound := createV3IOFUSEContainer m spec targetPath in
  traceOf (Mount m targetPath specString) w
  = EvMount (probe w)
    :: (if mountedIn (probe w) targetPath then []
        else traceOf bound w1
             ++ match resultOf bound w1 with
                | Some _ => []
                | None => traceOf (createDirs m spec targetPath) (worldOf bound w1)
                end)%list
  /\ resultOf (Mount m targetPath specString) w
     = if mountedIn (probe w) targetPath
       then NewSuccessResponse ("Already mounted: " ++ targetPath)
       else match resultOf bound w1 with
            | Some e =>
                NewFailResponse "Failed to create v3io FUSE container" (Some e)
            | None =>
                match resultOf (createDirs m spec targetPath) (worldOf bound w1) with
                | Some e => NewFailResponse "Failed to create folders" (Some e)
                | None => NewSuccessResponse "Successfully mounted"
                end
            end.
Proof.
  intros Hparse Hvalid Hmode w1 bound.
  unfold Mount. rewrite Hparse, Hvalid, (not_link m Hmode). run_simpl.
  destruct (mountedIn (probe w) targetPath); run_simpl; [now split|].
  fold w1 bound.
  destruct (resultOf bound w1); run_simpl; [now split|].
  destruct (resultOf (createDirs m spec targetPath) (worldOf bound w1));
    run_simpl; rewrite ?app_nil_r; now split.
Qed.

(** [Mount] in link mode, on a spec that is valid. *)
Lemma Mount_link_run (m : Mounter) (targetPath specString : string)
    (spec : Spec) (w : W) :
  json_Unmarshal_Spec specString = Ok spec ->
  Spec_validate spec = None ->
  Type_ (Config_ m) = "link" ->
  let linkPath := path.Join ["/mnt/v3io"; Namespace spec; Container spec] in
  let w1 := snd (exec_mount_CombinedOutput w) in
  let made := fst (os_MkdirAll linkPath 493 w1) in
  let w2 := snd (os_MkdirAll linkPath 493 w1) in
  let bound := createV3IOFUSEContainer m spec linkPath in
  let linked w' :=
    fst (os_Symlink linkPath targetPath (snd (os_Remove targetPath w'))) in
  let linkTrace w' :=
    EvRemove targetPath (fst (os_Remove targetPath w'))
    :: match fst (os_Remove targetPath w') with
       | Some _ => []
       | None => [EvSymlink linkPath targetPath (linked w')]
       end in
  let linkResult w' :=
    match fst (os_Remove targetPath w') with
    | Some e => NewFailResponse ("Failed to remove target " ++ targetPath) (Some e)
    | None =>
        match linked w' with
        | Some e =>
            NewFailResponse ("Failed to create link " ++ linkPath
                             ++ " to target " ++ targetPath) (Some e)
        | None => NewSuccessResponse "Successfully mounted as link"
        end
    end in
  traceOf (Mount m targetPath specString) w
  = EvMount (probe w)
    :: (if mountedIn (probe w) linkPath then linkTrace w1
        else EvMkdirAll linkPath 493 made
             :: match made with
                | Some _ => []
                | None =>
                    traceOf bound w2
                    ++ match resultOf bound w2 with
                       | Some _ => []
                       | None => linkTrace (worldOf bound w2)
                       end
                end)%list
  /\ resultOf (Mount m targetPath specString) w
     = if mountedIn (probe w) linkPath then linkResult w1
       else match made with
            | Some e =>
                NewFailResponse ("Failed to create target " ++ linkPath) (Some e)
            | None =>
                match resultOf bound w2 with
                | Some e =>
                    NewFailResponse "Failed to create v3io FUSE container" (Some e)
                | None => linkResult (worldOf bound w2)
                end
            end.
Proof.
  intros Hparse Hvalid Hmode linkPath w1 made w2 bound linked linkTrace linkResult.
  unfold Mount. rewrite Hparse, Hvalid, Hmode. cbn [String.eqb Ascii.eqb Bool.eqb].
  unfold mountAsLink, MkdirAll, Remove, Symlink. fold linkPath. run_simpl. fold w1.
  unfold linkTrace, linkResult, linked.
  destruct (mountedIn (probe w) linkPath); cbn [negb]; run_simpl.
  { destruct (fst (os_Remove targetPath w1)); run_simpl;
      [split; reflexivity|].
    destruct (fst (os_Symlink linkPath targetPath (snd (os_Remove targetPath w1))));
      run_simpl; split; reflexivity. }
  fold made w2.
  destruct made as [e|]; run_simpl; [split; reflexivity|].
  fold bound.
  destruct (resultOf bound w2) as [e|]; run_simpl.
  { rewrite ?app_nil_r. split; reflexivity. }
  set (w3 := worldOf bound w2).
  destruct (fst (os_Remove targetPath w3)); run_simpl;
    [rewrite ?app_nil_r; split; reflexivity|].
  destruct (fst (os_Symlink linkPath targetPath (snd (os_Remove targetPath w3))));
    run_simpl; rewrite ?app_nil_r; split; reflexivity.
Qed.

End MountRuns.

Section ListFacts.

Variable p : Event -> bool.

Lemma no_occurrence (l pre post : list Event) (x : Event) :
  filter p l = [] -> l = (pre ++ x :: post)%list -> p x = true -> False.
Proof.
  intros Hf -> Hx. rewrite filter_app in Hf. cbn [filter] in Hf. rewrite Hx in Hf.
  now destruct (filter p pre).
Qed.

(** Where the one event of a kind sits. *)
Lemma one_occurrence (a b pre post : list Event) (x y : Event) :
  filter p a = [] -> filter p b = [] -> p y = true ->
  (a ++ x :: b)%list = (pre ++ y :: post)%list ->
  pre = a /\ y = x /\ post = b.
Proof.
  intros Ha Hb Hy. revert pre.
  induction a as [|z a IH]; intros pre Heq.
  - destruct pre as [|z pre].
    + injection Heq as -> ->. auto.
    + injection Heq as -> Heq. exfalso.
      eapply (no_occurrence b pre post y); eauto.
  - cbn [filter] in Ha. destruct (p z) eqn:Hz; [discriminate|].
    destruct pre as [|z' pre].
    + injection Heq as <- _. congruence.
    + injection Heq as <- Heq. destruct (IH Ha pre Heq) as (-> & -> & ->). auto.
Qed.

End ListFacts.

Section ReleaseFacts.

Variables (targetPath : string) (containerName : result string).

Lemma ReleaseRun_slept (opened : result CRI) (tail : list Event) (r : Response) :
  ReleaseRun targetPath containerName opened tail r ->
  (0 <= slept tail <= 7 * time_Second)%Z.
Proof.
  destruct 1; cbn [app slept]; rewrite ?slept_app; cbn [slept];
    try (unfold time_Second; lia);
    pose proof (slept_pollTrace_unmount outs);
    pose proof (slept_nonneg_pollTrace outs [1; 2; 4]%Z
                  ltac:(repeat constructor; lia)); lia.
Qed.

Lemma ReleaseRun_closes (opened : result CRI) (tail : list Event) (r : Response) :
  ReleaseRun targetPath containerName opened tail r ->
  match opened with
  | Ok _ => exists body closed,
              tail = (body ++ [EvClose closed])%list
              /\ filter isClose body = []
  | Err _ => tail = []
  end.
Proof.
  destruct 1.
  - reflexivity.
  - exists [], closed. now split.
  - eexists [_], closed. now split.
  - eexists [_; _], closed. now split.
  - exists ([EvRemoveContainer n None; EvUmount targetPath None]
            ++ pollTrace outs [1; 2; 4]%Z
            ++ [EvMount out; EvRemove targetPath removed])%list, closed.
    split; [cbn [app]; rewrite <- ?app_assoc; reflexivity|].
    cbn [app filter isClose]. rewrite filter_app, filter_pollTrace by reflexivity.
    reflexivity.
  - exists ([EvRemoveContainer n None; EvUmount targetPath None]
            ++ pollTrace outs [1; 2; 4]%Z)%list, closed.
    split; [cbn [app]; rewrite <- ?app_assoc; reflexivity|].
    cbn [app filter isClose]. rewrite filter_pollTrace by reflexivity.
    reflexivity.
Qed.

Lemma ReleaseRun_names (opened : result CRI) (tail : list Event) (r : Response) :
  ReleaseRun targetPath containerName opened tail r ->
  forall n e, In (EvRemoveContainer n e) tail -> containerName = Ok n.
Proof.
  destruct 1; intros n' e' Hin; cbn [app] in Hin;
    repeat (destruct Hin as [Hin|Hin]; [try discriminate; try congruence|]);
    try (now destruct Hin);
    apply in_app_or in Hin; destruct Hin as [Hin|Hin];
    try (apply pollTrace_calls in Hin; discriminate);
    repeat (destruct Hin as [Hin|Hin]; [discriminate|]); now destruct Hin.
Qed.

Lemma ReleaseRun_calls (opened : result CRI) (tail : list Event) (r : Response) :
  ReleaseRun targetPath containerName opened tail r ->
  forall ev, In ev tail ->
    isRuntimeCall ev = true \/ isPollCall ev = true
    \/ isUmount ev = true \/ isRemove ev = true.
Proof.
  destruct 1; intros ev Hin; cbn [app] in Hin;
    repeat (destruct Hin as [<-|Hin]; [simpl; tauto|]);
    try (now destruct Hin);
    apply in_app_or in Hin; destruct Hin as [Hin|Hin];
    try (apply pollTrace_calls in Hin; tauto);
    repeat (destruct Hin as [<-|Hin]; [simpl; tauto|]); now destruct Hin.
Qed.

(** The directory is removed only right after a probe that found the
    path not mounted, and [umount] is started only right after the
    runtime removed the container. *)
Lemma ReleaseRun_order (opened : result CRI) (tail : list Event) (r : Response) :
  ReleaseRun targetPath containerName opened tail r ->
  (forall pre name e post,
      tail = (pre ++ EvRemove name e :: post)%list ->
      name = targetPath
      /\ exists pre' out,
           pre = (pre' ++ [EvMount out])%list /\ mountedIn out targetPath = false)
  /\ (forall pre name e post,
        tail = (pre ++ EvUmount name e :: post)%list ->
        name = targetPath
        /\ exists n, pre = [EvRemoveContainer n None] /\ containerName = Ok n).
Proof.
  destruct 1.
  - split; intros pre name e' post Heq; now destruct pre.
  - split; intros pre name e' post Heq; exfalso.
    + eapply (no_occurrence isRemove); [|exact Heq|]; reflexivity.
    + eapply (no_occurrence isUmount); [|exact Heq|]; reflexivity.
  - split; intros pre name e' post Heq; exfalso.
    + eapply (no_occurrence isRemove); [|exact Heq|]; reflexivity.
    + eapply (no_occurrence isUmount); [|exact Heq|]; reflexivity.
  - split; intros pre name e' post Heq.
    + exfalso. eapply (no_occurrence isRemove); [|exact Heq|]; reflexivity.
    + destruct (one_occurrence isUmount [EvRemoveContainer n None] [EvClose closed]
                  pre post (EvUmount targetPath (Some e)) (EvUmount name e')
                  eq_refl eq_refl eq_refl Heq) as (-> & Hy & _).
      injection Hy as -> _. split; [reflexivity|]. now exists n.
  - split; intros pre name e' post Heq.
    + assert (Heq' : (([EvRemoveContainer n None; EvUmount targetPath None]
                       ++ pollTrace outs [1; 2; 4]%Z ++ [EvMount out])
                      ++ EvRemove targetPath removed :: [EvClose closed])%list
                     = (pre ++ EvRemove name e' :: post)%list).
      { rewrite <- Heq. cbn [app]. rewrite <- ?app_assoc. reflexivity. }
      apply (one_occurrence isRemove) in Heq'; try reflexivity.
      * destruct Heq' as (-> & Hy & _). injection Hy as -> _.
        split; [reflexivity|].
        exists ([EvRemoveContainer n None; EvUmount targetPath None]
                ++ pollTrace outs [1; 2; 4]%Z)%list, out.
        split; [cbn [app]; rewrite <- ?app_assoc; reflexivity|assumption].
      * cbn [app filter isRemove]. rewrite filter_app, filter_pollTrace
          by reflexivity. reflexivity.
    + assert (Heq' : ([EvRemoveContainer n None]
                      ++ EvUmount targetPath None
                      :: (pollTrace outs [1; 2; 4]%Z
                          ++ [EvMount out; EvRemove targetPath removed;
                              EvClose closed]))%list
                     = (pre ++ EvUmount name e' :: post)%list)
        by (rewrite <- Heq; reflexivity).
      apply (one_occurrence isUmount) in Heq'; try reflexivity.
      * destruct Heq' as (-> & Hy & _). injection Hy as -> _.
        split; [reflexivity|]. now exists n.
      * rewrite filter_app, filter_pollTrace by reflexivity. reflexivity.
  - split; intros pre name e' post Heq.
    + exfalso. eapply (no_occurrence isRemove); [|exact Heq|]; [|reflexivity].
      cbn [app filter isRemove]. rewrite filter_app, filter_pollTrace
        by reflexivity. reflexivity.
    + assert (Heq' : ([EvRemoveContainer n None]
                      ++ EvUmount targetPath None
                      :: (pollTrace outs [1; 2; 4]%Z ++ [EvClose closed]))%list
                     = (pre ++ EvUmount name e' :: post)%list)
        by (rewrite <- Heq; reflexivity).
      apply (one_occurrence isUmount) in Heq'; try reflexivity.
      * destruct Heq' as (-> & Hy & _). injection Hy as -> _.
        split; [reflexivity|]. now exists n.
      * rewrite filter_app, filter_pollTrace by reflexivity. reflexivity.
Qed.

End ReleaseFacts.

(** * What every call of [Mount] and [Unmount] keeps *)

Section EntryPoints.

Context {W : Type} {host : Host W} {imports : Imports}.

Lemma Mount_unparsed (m : Mounter) (targetPath specString : string) (w : W)
    (e : GoError) :
  json_Unmarshal_Spec specString = Err e ->
  Mount m targetPath specString w
  = (NewFailResponse "Failed to unmarshal spec" (Some e), [], w).
Proof. intros H. unfold Mount. now rewrite H. Qed.

Lemma Mount_invalid (m : Mounter) (targetPath specString : string) (w : W)
    (spec : Spec) (e : GoError) :
  json_Unmarshal_Spec specString = Ok spec ->
  Spec_validate spec = Some e ->
  Mount m targetPath specString w
  = (NewFailResponse "Mount failed validation" (Some e), [], w).
Proof. intros H1 H2. unfold Mount. now rewrite H1, H2. Qed.

(** The two shapes of a run of [Unmount] that does not reach the
    runtime. *)
Lemma Unmount_link_run (m : Mounter) (targetPath : string) (w : W) :
  Type_ (Config_ m) = "link" ->
  traceOf (Unmount m targetPath) w
  = [EvRemove targetPath (fst (os_Remove targetPath w))].
Proof.
  intros Hmode. unfold Unmount, unmountAsLink, Remove. rewrite Hmode. simpl.
  run_simpl. now destruct (fst (os_Remove targetPath w)).
Qed.

Lemma Unmount_free_run (m : Mounter) (targetPath : string) (w : W) :
  Type_ (Config_ m) <> "link" ->
  mountedIn (probe w) targetPath = false ->
  traceOf (Unmount m targetPath) w = [EvMount (probe w)]
  /\ resultOf (Unmount m targetPath) w
     = NewSuccessResponse (targetPath ++ " Not a mountpoint, nothing to do").
Proof.
  intros Hmode Hfree. unfold Unmount. rewrite (not_link m Hmode). run_simpl.
  rewrite Hfree. simpl. run_simpl. now split.
Qed.

(** X1: whatever the input and the host, [Mount] spends at most 10s in
    [time.Sleep] and [Unmount] at most 7s. *)
Theorem waiting_is_bounded (m : Mounter) (targetPath specString : string) (w : W) :
  (0 <= slept (traceOf (Mount m targetPath specString) w) <= 10 * time_Second)%Z
  /\ (0 <= slept (traceOf (Unmount m targetPath) w) <= 7 * time_Second)%Z.
Proof.
  assert (Hbound : forall spec path w',
             (0 <= slept (traceOf (createV3IOFUSEContainer m spec path) w')
              <= 10 * time_Second)%Z).
  { intros spec path w'.
    destruct (createV3IOFUSEContainer_runs m spec path w') as (tail & -> & Hrun).
    rewrite slept_app, slept_createCRI. now apply BindRun_slept in Hrun. }
  split.
  - destruct (json_Unmarshal_Spec specString) as [spec|e] eqn:Hparse.
    2:{ unfold traceOf. rewrite (Mount_unparsed m _ _ w e Hparse). simpl.
        unfold time_Second. lia. }
    destruct (Spec_validate spec) as [e|] eqn:Hvalid.
    { unfold traceOf. rewrite (Mount_invalid m _ _ w spec e Hparse Hvalid). simpl.
      unfold time_Second. lia. }
    destruct (string_dec (Type_ (Config_ m)) "link") as [Hmode|Hmode].
    + destruct (Mount_link_run m targetPath specString spec w Hparse Hvalid Hmode)
        as [-> _].
      set (linkPath := path.Join ["/mnt/v3io"; Namespace spec; Container spec]).
      assert (Hlink : forall w',
                 slept (EvRemove targetPath (fst (os_Remove targetPath w'))
                        :: match fst (os_Remove targetPath w') with
                           | Some _ => []
                           | None =>
                               [EvSymlink linkPath targetPath
                                  (fst (os_Symlink linkPath targetPath
                                          (snd (os_Remove targetPath w'))))]
                           end) = 0%Z)
        by (intros w'; now destruct (fst (os_Remove targetPath w'))).
      cbn [slept].
      destruct (mountedIn (probe w) linkPath).
      { rewrite Hlink. unfold time_Second. lia. }
      cbn [slept].
      destruct (fst (os_MkdirAll linkPath 493 (snd (exec_mount_CombinedOutput w)))).
      { simpl. unfold time_Second. lia. }
      rewrite slept_app.
      pose proof (Hbound spec linkPath
                    (snd (os_MkdirAll linkPath 493
                            (snd (exec_mount_CombinedOutput w))))) as Hb.
      destruct (resultOf (createV3IOFUSEContainer m spec linkPath) _).
      * cbn [slept]. lia.
      * rewrite Hlink. lia.
    + destruct (Mount_direct_run m targetPath specString spec w Hparse Hvalid Hmode)
        as [-> _].
      cbn [slept]. destruct (mountedIn (probe w) targetPath).
      { simpl. unfold time_Second. lia. }
      rewrite slept_app.
      pose proof (Hbound spec targetPath (snd (exec_mount_CombinedOutput w))) as Hb.
      destruct (resultOf (createV3IOFUSEContainer m spec targetPath) _).
      * cbn [slept]. lia.
      * rewrite createDirs_slept. lia.
  - destruct (string_dec (Type_ (Config_ m)) "link") as [Hmode|Hmode].
    { rewrite (Unmount_link_run m targetPath w Hmode). simpl.
      unfold time_Second. lia. }
    destruct (mountedIn (probe w) targetPath) eqn:Hmounted.
    + destruct (Unmount_direct_runs m targetPath w Hmode Hmounted)
        as (tail & -> & Hrun).
      cbn [slept]. rewrite slept_app, slept_createCRI.
      now apply ReleaseRun_slept in Hrun.
    + destruct (Unmount_free_run m targetPath w Hmode Hmounted) as [-> _].
      simpl. unfold time_Second. lia.
Qed.


End EntryPoints.

Section MoreListFacts.

Variable p : Event -> bool.

Lemma occurrence_in_suffix (a b pre post : list Event) (x : Event) :
  filter p a = [] -> p x = true ->
  (a ++ b)%list = (pre ++ x :: post)%list ->
  exists pre', pre = (a ++ pre')%list /\ b = (pre' ++ x :: post)%list.
Proof.
  intros Ha Hx. revert pre.
  induction a as [|z a IH]; intros pre Heq.
  - now exists pre.
  - cbn [filter] in Ha. destruct (p z) eqn:Hz; [discriminate|].
    destruct pre as [|z' pre].
    + injection Heq as <- _. congruence.
    + injection Heq as <- Heq. destruct (IH Ha pre Heq) as (pre' & -> & ->).
      now exists pre'.
Qed.

Lemma filter_nil_In (l : list Event) :
  (forall ev, In ev l -> p ev = false) -> filter p l = [].
Proof.
  induction l as [|ev l IH]; intros H; [reflexivity|].
  cbn [filter]. rewrite (H ev) by now left. apply IH. intros; apply H; now right.
Qed.

End MoreListFacts.

Section UnmountOrder.

Context {W : Type} {host : Host W}.

Lemma filter_createCRI (p : Event -> bool) (w : W) :
  (forall ev, isCreateCRICall ev = true -> p ev = false) ->
  filter p (traceOf createCRI w) = [].
Proof.
  intros H. apply filter_nil_In. intros ev Hin. apply H.
  now apply traceOf_createCRI_calls in Hin.
Qed.

(** X3: outside link mode [Unmount] removes nothing but the target
    path, and only right after a probe that found it not mounted; it
    starts [umount] on nothing but the target path, and only right after
    the runtime removed the container named after that path. *)
Theorem Unmount_order (m : Mounter) (targetPath : string) (w : W) :
  Type_ (Config_ m) <> "link" ->
  (forall pre name e post,
      traceOf (Unmount m targetPath) w = (pre ++ EvRemove name e :: post)%list ->
      name = targetPath
      /\ exists pre' out,
           pre = (pre' ++ [EvMount out])%list /\ mountedIn out targetPath = false)
  /\ (forall pre name e post,
        traceOf (Unmount m targetPath) w = (pre ++ EvUmount name e :: post)%list ->
        name = targetPath
        /\ exists pre' n,
             pre = (pre' ++ [EvRemoveContainer n None])%list
             /\ getContainerNameFromTargetPath targetPath = Ok n).
Proof.
  intros Hmode.
  destruct (mountedIn (probe w) targetPath) eqn:Hmounted.
  2:{ destruct (Unmount_free_run m targetPath w Hmode Hmounted) as [-> _].
      split; intros pre name e post Heq; exfalso.
      - eapply (no_occurrence isRemove); [|exact Heq|]; reflexivity.
      - eapply (no_occurrence isUmount); [|exact Heq|]; reflexivity. }
  destruct (Unmount_direct_runs m targetPath w Hmode Hmounted) as (tail & -> & Hrun).
  destruct (ReleaseRun_order _ _ _ _ _ Hrun) as [Hremove Humount].
  set (w1 := snd (exec_mount_CombinedOutput w)) in *.
  split; intros pre name e post Heq.
  - change (EvMount (probe w) :: traceOf createCRI w1 ++ tail)%list
      with ((EvMount (probe w) :: traceOf createCRI w1) ++ tail)%list in Heq.
    apply (occurrence_in_suffix isRemove) in Heq; [|idtac|reflexivity].
    2:{ cbn [filter isRemove]. now apply filter_createCRI; intros [] H. }
    destruct Heq as (pre' & -> & Heq).
    destruct (Hremove _ _ _ _ Heq) as (-> & pre'' & out & -> & Hout).
    split; [reflexivity|].
    exists ((EvMount (probe w) :: traceOf createCRI w1) ++ pre'')%list, out.
    split; [now rewrite app_assoc|assumption].
  - change (EvMount (probe w) :: traceOf createCRI w1 ++ tail)%list
      with ((EvMount (probe w) :: traceOf createCRI w1) ++ tail)%list in Heq.
    apply (occurrence_in_suffix isUmount) in Heq; [|idtac|reflexivity].
    2:{ cbn [filter isUmount]. now apply filter_createCRI; intros [] H. }
    destruct Heq as (pre' & -> & Heq).
    destruct (Humount _ _ _ _ Heq) as (-> & n & -> & Hn).
    split; [reflexivity|].
    exists (EvMount (probe w) :: traceOf createCRI w1), n. now split.
Qed.

(** X4: when the runtime fails to remove the container, [Unmount]
    answers with that failure, wrapped with the target path; it starts
    no [umount] and removes no directory. *)
Theorem Unmount_removal_failure (m : Mounter) (targetPath : string) (w : W)
    (n : string) (e : GoError) :
  In (EvRemoveContainer n (Some e)) (traceOf (Unmount m targetPath) w) ->
  resultOf (Unmount m targetPath) w
  = NewFailResponse "Failed to remove v3io FUSE container"
      (Some (fmt_Errorf ("Could not remove container for " ++ targetPath
                         ++ ": " ++ Error e)))
  /\ getContainerNameFromTargetPath targetPath = Ok n
  /\ forall ev, In ev (traceOf (Unmount m targetPath) w) ->
                isUmount ev = false /\ isRemove ev = false.
Proof.
  intros Hin.
  destruct (string_dec (Type_ (Config_ m)) "link") as [Hmode|Hmode].
  { rewrite (Unmount_link_run m targetPath w Hmode) in Hin.
    destruct Hin as [Hin|[]]. discriminate. }
  destruct (mountedIn (probe w) targetPath) eqn:Hmounted.
  2:{ destruct (Unmount_free_run m targetPath w Hmode Hmounted) as [Htr _].
      rewrite Htr in Hin. destruct Hin as [Hin|[]]. discriminate. }
  destruct (Unmount_direct_runs m targetPath w Hmode Hmounted)
    as (tail & Htr & Hrun).
  rewrite Htr in Hin |- *. set (w1 := snd (exec_mount_CombinedOutput w)) in *.
  destruct Hin as [Hin|Hin]; [discriminate|].
  apply in_app_or in Hin. destruct Hin as [Hin|Hin];
    [apply traceOf_createCRI_calls in Hin; discriminate|].
  assert (Htail : exists closed, tail = [EvRemoveContainer n (Some e); EvClose closed]
                  /\ resultOf (Unmount m targetPath) w
                     = NewFailResponse "Failed to remove v3io FUSE container"
                         (Some (fmt_Errorf ("Could not remove container for "
                                            ++ targetPath ++ ": " ++ Error e)))
                  /\ getContainerNameFromTargetPath targetPath = Ok n).
  { destruct Hrun; cbn [app] in Hin;
      try (repeat (destruct Hin as [Hin|Hin]; [discriminate|]); now destruct Hin).
    - destruct Hin as [Hin|[Hin|[]]]; [|discriminate].
      injection Hin as -> ->. now exists closed.
    - repeat (destruct Hin as [Hin|Hin]; [discriminate|]).
      apply in_app_or in Hin. destruct Hin as [Hin|Hin];
        [apply pollTrace_calls in Hin; discriminate|].
      repeat (destruct Hin as [Hin|Hin]; [discriminate|]); now destruct Hin.
    - repeat (destruct Hin as [Hin|Hin]; [discriminate|]).
      apply in_app_or in Hin. destruct Hin as [Hin|Hin];
        [apply pollTrace_calls in Hin; discriminate|].
      repeat (destruct Hin as [Hin|Hin]; [discriminate|]); now destruct Hin. }
  destruct Htail as (closed & -> & Hres & Hname).
  split; [exact Hres|]. split; [exact Hname|].
  intros ev [<-|Hev]; [split; reflexivity|].
  apply in_app_or in Hev. destruct Hev as [Hev|[<-|[<-|[]]]];
    try (split; reflexivity).
  apply traceOf_createCRI_calls in Hev. now destruct ev.
Qed.

End UnmountOrder.

Section Containers.

Context {W : Type} {host : Host W} {imports : Imports}.

(** Every run of [Mount] is calls that reach neither the runtime nor
    [umount], around at most one run of [createV3IOFUSEContainer]. *)
Lemma Mount_around_bind (m : Mounter) (targetPath specString : string) (w : W) :
  exists front back,
    (forall ev, In ev front \/ In ev back ->
                isRuntimeCall ev = false /\ isUmount ev = false)
    /\ (traceOf (Mount m targetPath specString) w = (front ++ back)%list
        \/ exists spec w',
             json_Unmarshal_Spec specString = Ok spec
             /\ Spec_validate spec = None
             /\ traceOf (Mount m targetPath specString) w
                = (front
                   ++ traceOf (createV3IOFUSEContainer m spec
                                 (if String.eqb (Type_ (Config_ m)) "link"
                                  then path.Join ["/mnt/v3io"; Namespace spec;
                                                  Container spec]
                                  else targetPath)) w'
                   ++ back)%list).
Proof.
  destruct (json_Unmarshal_Spec specString) as [spec|e] eqn:Hparse.
  2:{ exists [], []. split; [intros ev [[]|[]]|]. left.
      unfold traceOf. now rewrite (Mount_unparsed m _ _ w e Hparse). }
  destruct (Spec_validate spec) as [e|] eqn:Hvalid.
  { exists [], []. split; [intros ev [[]|[]]|]. left.
    unfold traceOf. now rewrite (Mount_invalid m _ _ w spec e Hparse Hvalid). }
  destruct (string_dec (Type_ (Config_ m)) "link") as [Hmode|Hmode].
  - destruct (Mount_link_run m targetPath specString spec w Hparse Hvalid Hmode)
      as [-> _].
    rewrite Hmode. cbn [String.eqb Ascii.eqb Bool.eqb].
    set (linkPath := path.Join ["/mnt/v3io"; Namespace spec; Container spec]).
    set (w1 := snd (exec_mount_CombinedOutput w)).
    assert (Hlink : forall w' ev,
               In ev (EvRemove targetPath (fst (os_Remove targetPath w'))
                      :: match fst (os_Remove targetPath w') with
                         | Some _ => []
                         | None =>
                             [EvSymlink linkPath targetPath
                                (fst (os_Symlink linkPath targetPath
                                        (snd (os_Remove targetPath w'))))]
                         end) -> isRuntimeCall ev = false /\ isUmount ev = false).
    { intros w' ev. destruct (fst (os_Remove targetPath w'));
        intros [<-|Hin]; try (split; reflexivity);
        [destruct Hin|destruct Hin as [<-|[]]; split; reflexivity]. }
    destruct (mountedIn (probe w) linkPath).
    { eexists [EvMount (probe w)], _. split; [|left; reflexivity].
      intros ev [[<-|[]]|Hin]; [split; reflexivity|now apply Hlink in Hin]. }
    destruct (fst (os_MkdirAll linkPath 493 w1)) as [e|] eqn:Hmade.
    { exists [EvMount (probe w); EvMkdirAll linkPath 493 (Some e)], [].
      split; [|left; reflexivity].
      intros ev [[<-|[<-|[]]]|[]]; split; reflexivity. }
    set (w2 := snd (os_MkdirAll linkPath 493 w1)).
    eexists [EvMount (probe w); EvMkdirAll linkPath 493 None], _.
    split; [|right; exists spec, w2; repeat split; try assumption; reflexivity].
    intros ev [[<-|[<-|[]]]|Hin]; try (split; reflexivity).
    destruct (resultOf (createV3IOFUSEContainer m spec linkPath) w2);
      [destruct Hin|now apply Hlink in Hin].
  - destruct (Mount_direct_run m targetPath specString spec w Hparse Hvalid Hmode)
      as [-> _].
    rewrite (not_link m Hmode).
    set (w1 := snd (exec_mount_CombinedOutput w)).
    destruct (mountedIn (probe w) targetPath).
    { exists [EvMount (probe w)], []. split; [|left; reflexivity].
      intros ev [[<-|[]]|[]]. split; reflexivity. }
    eexists [EvMount (probe w)], _.
    split; [|right; exists spec, w1; repeat split; try assumption; reflexivity].
    intros ev [[<-|[]]|Hin]; [split; reflexivity|].
    destruct (resultOf (createV3IOFUSEContainer m spec targetPath) w1);
      [destruct Hin|].
    apply createDirs_calls in Hin.
    destruct Hin as [(n & e & ->)|(d & p & e & ->)]; split; reflexivity.
Qed.

Lemma Mount_shape (m : Mounter) (targetPath specString : string) (w : W) :
  exists front back,
    (forall ev, In ev front \/ In ev back -> isRuntimeCall ev = false)
    /\ (traceOf (Mount m targetPath specString) w = (front ++ back)%list
        \/ exists spec w',
             json_Unmarshal_Spec specString = Ok spec
             /\ Spec_validate spec = None
             /\ traceOf (Mount m targetPath specString) w
                = (front
                   ++ traceOf (createV3IOFUSEContainer m spec
                                 (if String.eqb (Type_ (Config_ m)) "link"
                                  then path.Join ["/mnt/v3io"; Namespace spec;
                                                  Container spec]
                                  else targetPath)) w'
                   ++ back)%list).
Proof.
  destruct (Mount_around_bind m targetPath specString w)
    as (front & back & Hquiet & Htr).
  exists front, back. split; [|exact Htr].
  intros ev Hin. now destruct (Hquiet ev Hin).
Qed.

(** X5: a call of [Mount] creates at most one container, and the
    creation comes right after the runtime was asked to remove the
    container of the same name, whatever the answer to that was. *)
Theorem Mount_creates_after_removal (m : Mounter) (targetPath specString : string)
    (w : W) :
  (List.length (filter isCreateContainer (traceOf (Mount m targetPath specString) w))
   <= 1)%nat
  /\ forall image n target a e,
       In (EvCreateContainer image n target a e)
          (traceOf (Mount m targetPath specString) w) ->
       exists removed before after,
         traceOf (Mount m targetPath specString) w
         = (before ++ EvRemoveContainer n removed
            :: EvCreateContainer image n target a e :: after)%list.
Proof.
  destruct (Mount_shape m targetPath specString w)
    as (front & back & Hquiet & [Htr|(spec & w' & _ & _ & Htr)]); rewrite Htr.
  - assert (Hnone : forall ev, In ev (front ++ back) -> isCreateContainer ev = false).
    { intros ev Hin. apply in_app_or in Hin. apply Hquiet in Hin. now destruct ev. }
    split.
    + rewrite (filter_nil_In _ _ Hnone). simpl. lia.
    + intros image n target a e Hin. apply Hnone in Hin. discriminate.
  - set (path := if String.eqb (Type_ (Config_ m)) "link"
                 then path.Join ["/mnt/v3io"; Namespace spec; Container spec]
                 else targetPath) in *.
    destruct (createV3IOFUSEContainer_runs m spec path w') as (tail & -> & Hrun).
    destruct (BindRun_containers _ _ _ _ _ _ _ Hrun) as (Hcreate & _ & Hcount).
    assert (Hf : filter isCreateContainer front = [])
      by (apply filter_nil_In; intros ev Hin;
          specialize (Hquiet ev (or_introl Hin)); now destruct ev).
    assert (Hb : filter isCreateContainer back = [])
      by (apply filter_nil_In; intros ev Hin;
          specialize (Hquiet ev (or_intror Hin)); now destruct ev).
    split.
    + rewrite !filter_app, Hf, Hb, (filter_createCRI isCreateContainer w')
        by (now intros []).
      cbn [app]. rewrite app_nil_r. exact Hcount.
    + intros image n target a e Hin.
      apply in_app_or in Hin. destruct Hin as [Hin|Hin].
      { specialize (Hquiet _ (or_introl Hin)). discriminate. }
      apply in_app_or in Hin. destruct Hin as [Hin|Hin].
      2:{ specialize (Hquiet _ (or_intror Hin)). discriminate. }
      apply in_app_or in Hin. destruct Hin as [Hin|Hin].
      { apply traceOf_createCRI_calls in Hin. discriminate. }
      destruct (Hcreate _ _ _ _ _ Hin)
        as (_ & _ & _ & _ & removed & before & after & ->).
      exists removed, (front ++ traceOf createCRI w' ++ before)%list,
        (after ++ back)%list.
      rewrite <- !app_assoc. cbn [app]. reflexivity.
Qed.

(** X6: the container that [Mount] creates runs the configured image,
    [iguazio/v3io-fuse] and [local] standing in for a repository and a
    tag that are not set; it is bound to the path that is mounted and
    named after it.  Outside link mode this is the name of the container
    that [Unmount] asks the runtime to remove for the same target
    path. *)
Theorem Mount_container_identity (m : Mounter) (targetPath specString : string)
    (w : W) (image n target : string) (a : list string) (e : error) :
  In (EvCreateContainer image n target a e)
     (traceOf (Mount m targetPath specString) w) ->
  image
  = (if String.eqb (ImageRepository (Config_ m)) "" then "iguazio/v3io-fuse"
     else ImageRepository (Config_ m))
    ++ ":" ++
    (if String.eqb (ImageTag (Config_ m)) "" then "local" else ImageTag (Config_ m))
  /\ getContainerNameFromTargetPath target = Ok n
  /\ (exists spec,
        json_Unmarshal_Spec specString = Ok spec
        /\ target = if String.eqb (Type_ (Config_ m)) "link"
                    then path.Join ["/mnt/v3io"; Namespace spec; Container spec]
                    else targetPath)
  /\ (Type_ (Config_ m) <> "link" ->
      forall w' n' e',
        In (EvRemoveContainer n' e') (traceOf (Unmount m targetPath) w') ->
        n' = n).
Proof.
  intros Hin.
  destruct (Mount_shape m targetPath specString w)
    as (front & back & Hquiet & [Htr|(spec & w1 & Hparse & _ & Htr)]);
    rewrite Htr in Hin.
  { apply in_app_or in Hin. apply Hquiet in Hin. discriminate. }
  set (path := if String.eqb (Type_ (Config_ m)) "link"
               then path.Join ["/mnt/v3io"; Namespace spec; Container spec]
               else targetPath) in *.
  destruct (createV3IOFUSEContainer_runs m spec path w1) as (tail & Hbound & Hrun).
  rewrite Hbound in Hin.
  apply in_app_or in Hin. destruct Hin as [Hin|Hin].
  { specialize (Hquiet _ (or_introl Hin)). discriminate. }
  apply in_app_or in Hin. destruct Hin as [Hin|Hin].
  2:{ specialize (Hquiet _ (or_intror Hin)). discriminate. }
  apply in_app_or in Hin. destruct Hin as [Hin|Hin].
  { apply traceOf_createCRI_calls in Hin. discriminate. }
  destruct (BindRun_containers _ _ _ _ _ _ _ Hrun) as (Hcreate & _ & _).
  destruct (Hcreate _ _ _ _ _ Hin) as (-> & -> & Hname & _).
  split; [reflexivity|]. split; [exact Hname|]. split; [now exists spec|].
  intros Hmode w' n' e' Hrem.
  unfold path in Hname. rewrite (not_link m Hmode) in Hname.
  destruct (mountedIn (probe w') targetPath) eqn:Hmounted.
  2:{ destruct (Unmount_free_run m targetPath w' Hmode Hmounted) as [Hfree _].
      rewrite Hfree in Hrem. destruct Hrem as [Hrem|[]]. discriminate. }
  destruct (Unmount_direct_runs m targetPath w' Hmode Hmounted)
    as (tail' & Htr' & Hrun').
  rewrite Htr' in Hrem. destruct Hrem as [Hrem|Hrem]; [discriminate|].
  apply in_app_or in Hrem. destruct Hrem as [Hrem|Hrem].
  { apply traceOf_createCRI_calls in Hrem. discriminate. }
  pose proof (ReleaseRun_names _ _ _ _ _ Hrun' _ _ Hrem) as Hn'. congruence.
Qed.

End Containers.

Section Closing.

Context {W : Type} {host : Host W} {imports : Imports}.

Lemma opened_createCRI (w : W) :
  List.length (filter isOpened (traceOf createCRI w))
  = match resultOf createCRI w with Ok _ => 1%nat | Err _ => 0%nat end.
Proof.
  rewrite createCRI_run.
  destruct (os_IsNotExist (fst (os_Stat "/usr/bin/docker" w)));
    now destruct (resultOf createCRI w).
Qed.

(** A trace made of calls that do not reach the runtime, the calls of
    [createCRI], and a tail that ends with [Close] exactly when a client
    was handed out: the client is closed once, and no call of the
    runtime follows. *)
Lemma closed_once (front back tail : list Event) (w : W) :
  (forall ev, In ev front \/ In ev back -> isRuntimeCall ev = false) ->
  (forall ev, In ev tail -> isCreateCRICall ev = false) ->
  match resultOf createCRI w with
  | Ok _ => exists body closed,
              tail = (body ++ [EvClose closed])%list /\ filter isClose body = []
  | Err _ => tail = []
  end ->
  let tr := (front ++ (traceOf createCRI w ++ tail) ++ back)%list in
  List.length (filter isClose tr) = List.length (filter isOpened tr)
  /\ (List.length (filter isOpened tr) <= 1)%nat
  /\ forall pre closed post,
       tr = (pre ++ EvClose closed :: post)%list ->
       forall ev, In ev post -> isRuntimeCall ev = false.
Proof.
  intros Hquiet Htail Hclose tr.
  assert (Hfc : filter isClose front = [])
    by (apply filter_nil_In; intros ev Hin;
        specialize (Hquiet ev (or_introl Hin)); now destruct ev).
  assert (Hbc : filter isClose back = [])
    by (apply filter_nil_In; intros ev Hin;
        specialize (Hquiet ev (or_intror Hin)); now destruct ev).
  assert (Hfo : filter isOpened front = []).
  { apply filter_nil_In; intros ev Hin.
    specialize (Hquiet ev (or_introl Hin)).
    destruct ev; try reflexivity; discriminate. }
  assert (Hbo : filter isOpened back = []).
  { apply filter_nil_In; intros ev Hin.
    specialize (Hquiet ev (or_intror Hin)).
    destruct ev; try reflexivity; discriminate. }
  assert (Hto : filter isOpened tail = []).
  { apply filter_nil_In; intros ev Hin. specialize (Htail ev Hin).
    destruct ev; try reflexivity; discriminate. }
  assert (Hcc : filter isClose (traceOf createCRI w) = [])
    by (apply filter_createCRI; now intros []).
  unfold tr. rewrite !filter_app, Hfc, Hbc, Hfo, Hbo, Hto, Hcc, !length_app.
  rewrite opened_createCRI. cbn [app List.length].
  destruct (resultOf createCRI w) as [c|e].
  - destruct Hclose as (body & closed & -> & Hbody).
    rewrite filter_app, Hbody. cbn [filter isClose app List.length].
    split; [reflexivity|]. split; [lia|].
    intros pre closed' post Heq ev Hin.
    assert (Heq' : ((front ++ traceOf createCRI w ++ body)
                    ++ EvClose closed :: back)%list
                   = (pre ++ EvClose closed' :: post)%list).
    { rewrite <- Heq, <- !app_assoc. cbn [app]. reflexivity. }
    apply (one_occurrence isClose) in Heq'; try assumption; try reflexivity.
    + destruct Heq' as (_ & _ & ->). apply Hquiet. now right.
    + now rewrite !filter_app, Hfc, Hcc, Hbody.
  - rewrite Hclose. cbn [filter List.length]. split; [reflexivity|]. split; [lia|].
    intros pre closed post Heq. exfalso.
    eapply (no_occurrence isClose); [|exact Heq|reflexivity].
    now rewrite !filter_app, Hfc, Hbc, Hcc.
Qed.

Lemma BindRun_no_open (targetPath image : string) (containerName : result string)
    (args : result (list string)) (opened : result CRI) (tail : list Event)
    (r : error) :
  BindRun targetPath image containerName args opened tail r ->
  forall ev, In ev tail -> isCreateCRICall ev = false.
Proof.
  intros Hrun ev Hin.
  destruct Hrun; cbn [app] in Hin;
    repeat (destruct Hin as [<-|Hin]; [reflexivity|]);
    try (now destruct Hin);
    apply in_app_or in Hin; destruct Hin as [Hin|Hin];
    try (apply pollTrace_calls in Hin; now destruct ev);
    repeat (destruct Hin as [<-|Hin]; [reflexivity|]); now destruct Hin.
Qed.

Lemma ReleaseRun_no_open (targetPath : string) (containerName : result string)
    (opened : result CRI) (tail : list Event) (r : Response) :
  ReleaseRun targetPath containerName opened tail r ->
  forall ev, In ev tail -> isCreateCRICall ev = false.
Proof.
  intros Hrun ev Hin.
  destruct Hrun; cbn [app] in Hin;
    repeat (destruct Hin as [<-|Hin]; [reflexivity|]);
    try (now destruct Hin);
    apply in_app_or in Hin; destruct Hin as [Hin|Hin];
    try (apply pollTrace_calls in Hin; now destruct ev);
    repeat (destruct Hin as [<-|Hin]; [reflexivity|]); now destruct Hin.
Qed.

(** X7: in every run of [Mount] and of [Unmount] the runtime client is
    closed exactly when one was handed out, at most once, and no call of
    the runtime follows [Close]. *)
Theorem runtime_client_is_closed (m : Mounter) (targetPath specString : string)
    (w : W) :
  (let tr := traceOf (Mount m targetPath specString) w in
   List.length (filter isClose tr) = List.length (filter isOpened tr)
   /\ (List.length (filter isOpened tr) <= 1)%nat
   /\ forall pre closed post,
        tr = (pre ++ EvClose closed :: post)%list ->
        forall ev, In ev post -> isRuntimeCall ev = false)
  /\ (let tr := traceOf (Unmount m targetPath) w in
      List.length (filter isClose tr) = List.length (filter isOpened tr)
      /\ (List.length (filter isOpened tr) <= 1)%nat
      /\ forall pre closed post,
           tr = (pre ++ EvClose closed :: post)%list ->
           forall ev, In ev post -> isRuntimeCall ev = false).
Proof.
  assert (Hquiet : forall l : list Event,
             (forall ev, In ev l -> isRuntimeCall ev = false) ->
             List.length (filter isClose l) = List.length (filter isOpened l)
             /\ (List.length (filter isOpened l) <= 1)%nat
             /\ forall pre closed post,
                  l = (pre ++ EvClose closed :: post)%list ->
                  forall ev, In ev post -> isRuntimeCall ev = false).
  { intros l Hl.
    assert (Hc : filter isClose l = [])
      by (apply filter_nil_In; intros ev Hin; specialize (Hl ev Hin);
          now destruct ev).
    assert (Ho : filter isOpened l = []).
    { apply filter_nil_In; intros ev Hin; specialize (Hl ev Hin).
      destruct ev; try reflexivity; discriminate. }
    rewrite Hc, Ho. split; [reflexivity|]. split; [simpl; lia|].
    intros pre closed post Heq. exfalso.
    eapply (no_occurrence isClose); [exact Hc|exact Heq|reflexivity]. }
  split.
  - destruct (Mount_shape m targetPath specString w)
      as (front & back & Hfb & [Htr|(spec & w' & _ & _ & Htr)]); cbv zeta;
      rewrite Htr.
    + apply Hquiet. intros ev Hin. apply in_app_or in Hin. now apply Hfb.
    + set (path := if String.eqb (Type_ (Config_ m)) "link"
                   then path.Join ["/mnt/v3io"; Namespace spec; Container spec]
                   else targetPath) in *.
      destruct (createV3IOFUSEContainer_runs m spec path w') as (tail & -> & Hrun).
      apply (closed_once front back tail w' Hfb).
      * exact (BindRun_no_open _ _ _ _ _ _ _ Hrun).
      * exact (BindRun_closes _ _ _ _ _ _ _ Hrun).
  - cbv zeta.
    destruct (string_dec (Type_ (Config_ m)) "link") as [Hmode|Hmode].
    { rewrite (Unmount_link_run m targetPath w Hmode). apply Hquiet.
      intros ev [<-|[]]. reflexivity. }
    destruct (mountedIn (probe w) targetPath) eqn:Hmounted.
    2:{ destruct (Unmount_free_run m targetPath w Hmode Hmounted) as [-> _].
        apply Hquiet. intros ev [<-|[]]. reflexivity. }
    destruct (Unmount_direct_runs m targetPath w Hmode Hmounted)
      as (tail & -> & Hrun).
    set (w1 := snd (exec_mount_CombinedOutput w)) in *.
    replace (EvMount (probe w) :: traceOf createCRI w1 ++ tail)%list
      with ([EvMount (probe w)] ++ (traceOf createCRI w1 ++ tail) ++ [])%list
      by (cbn [app]; now rewrite app_nil_r).
    apply (closed_once [EvMount (probe w)] [] tail w1).
    + intros ev [[<-|[]]|[]]. reflexivity.
    + exact (ReleaseRun_no_open _ _ _ _ _ Hrun).
    + exact (ReleaseRun_closes _ _ _ _ _ Hrun).
Qed.

(** X8: in link mode [Mount] makes no directory but the shared one, with
    mode 0755, and looks at no file but the docker binary: the
    directories that the spec declares are not created. *)
Theorem Mount_link_leaves_directories (m : Mounter)
    (targetPath specString : string) (w : W) :
  Type_ (Config_ m) = "link" ->
  forall ev, In ev (traceOf (Mount m targetPath specString) w) ->
    (forall dir perm e,
        ev = EvMkdirAll dir perm e ->
        perm = 493%N
        /\ exists spec,
             json_Unmarshal_Spec specString = Ok spec
             /\ dir = path.Join ["/mnt/v3io"; Namespace spec; Container spec])
    /\ (forall name e, ev = EvStat name e -> name = "/usr/bin/docker").
Proof.
  intros Hmode ev Hin.
  destruct (json_Unmarshal_Spec specString) as [spec|e] eqn:Hparse.
  2:{ unfold traceOf in Hin. rewrite (Mount_unparsed m _ _ w e Hparse) in Hin.
      destruct Hin. }
  destruct (Spec_validate spec) as [e|] eqn:Hvalid.
  { unfold traceOf in Hin.
    rewrite (Mount_invalid m _ _ w spec e Hparse Hvalid) in Hin. destruct Hin. }
  destruct (Mount_link_run m targetPath specString spec w Hparse Hvalid Hmode)
    as [Htr _].
  rewrite Htr in Hin. clear Htr.
  set (linkPath := path.Join ["/mnt/v3io"; Namespace spec; Container spec]) in *.
  set (w1 := snd (exec_mount_CombinedOutput w)) in *.
  assert (Hlink : forall w',
             In ev (EvRemove targetPath (fst (os_Remove targetPath w'))
                    :: match fst (os_Remove targetPath w') with
                       | Some _ => []
                       | None =>
                           [EvSymlink linkPath targetPath
                              (fst (os_Symlink linkPath targetPath
                                      (snd (os_Remove targetPath w'))))]
                       end) ->
             (forall dir perm e, ev <> EvMkdirAll dir perm e)
             /\ (forall name e, ev <> EvStat name e)).
  { intros w'. destruct (fst (os_Remove targetPath w'));
      intros [<-|Hev]; try (split; discriminate);
      [destruct Hev|destruct Hev as [<-|[]]; split; discriminate]. }
  assert (Hno : (forall dir perm e, ev <> EvMkdirAll dir perm e)
                /\ (forall name e, ev <> EvStat name e) ->
                (forall dir perm e,
                    ev = EvMkdirAll dir perm e ->
                    perm = 493%N
                    /\ exists spec0,
                         Ok spec = Ok spec0
                         /\ dir = path.Join ["/mnt/v3io"; Namespace spec0;
                                             Container spec0])
                /\ (forall name e, ev = EvStat name e -> name = "/usr/bin/docker")).
  { intros [H1 H2]. split; intros; exfalso; [eapply H1|eapply H2]; eauto. }
  destruct Hin as [<-|Hin]; [apply Hno; split; discriminate|].
  destruct (mountedIn (probe w) linkPath); [apply Hno; now apply Hlink in Hin|].
  destruct Hin as [<-|Hin].
  { split; [|discriminate]. intros dir perm e Heq. injection Heq as <- <- _.
    split; [reflexivity|]. now exists spec. }
  destruct (fst (os_MkdirAll linkPath 493 w1)); [destruct Hin|].
  apply in_app_or in Hin. destruct Hin as [Hin|Hin].
  - destruct (createV3IOFUSEContainer_runs m spec linkPath
                (snd (os_MkdirAll linkPath 493 w1))) as (tail & Hb & Hrun).
    rewrite Hb in Hin. apply in_app_or in Hin. destruct Hin as [Hin|Hin].
    + rewrite createCRI_run in Hin. destruct Hin as [<-|[Hin|[]]].
      * split; [discriminate|]. intros name e Heq. now injection Heq as <- _.
      * apply Hno. destruct (os_IsNotExist _); subst ev; split; discriminate.
    + apply Hno.
      destruct (BindRun_calls _ _ _ _ _ _ _ Hrun ev Hin);
        split; intros; intros ->; discriminate.
  - destruct (resultOf (createV3IOFUSEContainer m spec linkPath) _);
      [destruct Hin|]. apply Hno. now apply Hlink in Hin.
Qed.

End Closing.

Section DirectoriesInSequence.

Context {W : Type} {host : Host W}.

Lemma createDirsLoop_cons (targetPath : string) (dir : DirToCreate)
    (rest : list DirToCreate) (w : W) :
  let one := createDirsLoop targetPath [dir] in
  resultOf (createDirsLoop targetPath (dir :: rest)) w
  = match resultOf one w with
    | Some e => Some e
    | None => resultOf (createDirsLoop targetPath rest) (worldOf one w)
    end
  /\ traceOf (createDirsLoop targetPath (dir :: rest)) w
     = (traceOf one w
        ++ match resultOf one w with
           | Some _ => []
           | None => traceOf (createDirsLoop targetPath rest) (worldOf one w)
           end)%list
  /\ worldOf (createDirsLoop targetPath (dir :: rest)) w
     = match resultOf one w with
       | Some _ => worldOf one w
       | None => worldOf (createDirsLoop targetPath rest) (worldOf one w)
       end.
Proof.
  cbn [createDirsLoop]. cbv zeta.
  destruct (strings.HasPrefix (Name dir) "/");
    [run_simpl; rewrite ?app_nil_r; repeat split; reflexivity|].
  unfold Stat, MkdirAll. run_simpl.
  set (p := targetPath ++ "/" ++ Name dir).
  destruct (fst (os_Stat p w)) as [e|].
  - cbn [os_IsNotExist]. destruct (notExist e); cbn [negb]; run_simpl;
      [|rewrite ?app_nil_r; repeat split; reflexivity].
    destruct (fst (os_MkdirAll p (Permissions dir) (snd (os_Stat p w))));
      run_simpl; cbn [app]; rewrite ?app_nil_r; repeat split; reflexivity.
  - run_simpl. cbn [app]. rewrite ?app_nil_r. repeat split; reflexivity.
Qed.

(** X9: the directories are handled in the order of the list, and the
    first failure ends the call: what was created before stays, what
    comes after is not looked at.  In particular a descriptor with an
    absolute name, after descriptors that went well, leaves their
    directories in place and makes the call fail. *)
Theorem createDirsLoop_in_sequence (targetPath : string)
    (before after : list DirToCreate) (w : W) :
  let first := createDirsLoop targetPath before in
  (resultOf (createDirsLoop targetPath (before ++ after)) w
   = match resultOf first w with
     | Some e => Some e
     | None => resultOf (createDirsLoop targetPath after) (worldOf first w)
     end
   /\ traceOf (createDirsLoop targetPath (before ++ after)) w
      = (traceOf first w
         ++ match resultOf first w with
            | Some _ => []
            | None => traceOf (createDirsLoop targetPath after) (worldOf first w)
            end)%list
   /\ worldOf (createDirsLoop targetPath (before ++ after)) w
      = match resultOf first w with
        | Some _ => worldOf first w
        | None => worldOf (createDirsLoop targetPath after) (worldOf first w)
        end)
  /\ forall dir,
       strings.HasPrefix (Name dir) "/" = true ->
       resultOf first w = None ->
       resultOf (createDirsLoop targetPath (before ++ dir :: after)) w
       = Some (fmt_Errorf ("Only creation of relative path is supported ("
                           ++ Name dir ++ ")"))
       /\ traceOf (createDirsLoop targetPath (before ++ dir :: after)) w
          = traceOf first w.
Proof.
  cbv zeta.
  assert (Happ : forall after' w',
             resultOf (createDirsLoop targetPath (before ++ after')) w'
             = match resultOf (createDirsLoop targetPath before) w' with
               | Some e => Some e
               | None => resultOf (createDirsLoop targetPath after')
                                  (worldOf (createDirsLoop targetPath before) w')
               end
             /\ traceOf (createDirsLoop targetPath (before ++ after')) w'
                = (traceOf (createDirsLoop targetPath before) w'
                   ++ match resultOf (createDirsLoop targetPath before) w' with
                      | Some _ => []
                      | None => traceOf (createDirsLoop targetPath after')
                                  (worldOf (createDirsLoop targetPath before) w')
                      end)%list
             /\ worldOf (createDirsLoop targetPath (before ++ after')) w'
                = match resultOf (createDirsLoop targetPath before) w' with
                  | Some _ => worldOf (createDirsLoop targetPath before) w'
                  | None => worldOf (createDirsLoop targetPath after')
                              (worldOf (createDirsLoop targetPath before) w')
                  end).
  { intros after'. induction before as [|dir rest IH]; intros w'.
    - repeat split; reflexivity.
    - cbn [app].
      destruct (createDirsLoop_cons targetPath dir (rest ++ after') w')
        as (-> & -> & ->).
      destruct (createDirsLoop_cons targetPath dir rest w') as (-> & -> & ->).
      destruct (resultOf (createDirsLoop targetPath [dir]) w') as [e|].
      + rewrite !app_nil_r. repeat split; reflexivity.
      + destruct (IH (worldOf (createDirsLoop targetPath [dir]) w'))
          as (-> & -> & ->).
        destruct (resultOf (createDirsLoop targetPath rest)
                           (worldOf (createDirsLoop targetPath [dir]) w'));
          rewrite ?app_nil_r, <- ?app_assoc; repeat split; reflexivity. }
  split; [apply Happ|].
  intros dir Habs Hok.
  destruct (Happ (dir :: after) w) as (-> & -> & _). rewrite Hok.
  cbn [createDirsLoop]. rewrite Habs. run_simpl. rewrite ?app_nil_r.
  split; reflexivity.
Qed.

End DirectoriesInSequence.

Section Collisions.

Lemma last_app_one (l : list string) (x : string) : last (l ++ [x]) "" = x.
Proof.
  induction l as [|a l IH]; [reflexivity|].
  cbn [app]. destruct (l ++ [x])%list eqn:E; [now destruct l|].
  cbn [last]. exact IH.
Qed.

(** X10: the identity keeps the pod directory and the last segment only,
    joined by a dash: the segments in between do not count, and a dash
    inside the pod directory or the last segment is not told from the
    joining dash.  Two target paths can so get the same identity. *)
Theorem identity_collides (targetPath1 targetPath2 : string)
    (pre1 pre2 mid1 mid2 : list string) (p q v : string) :
  strings.Split targetPath1 filepath_Separator
  = (pre1 ++ "pods" :: (p ++ "-" ++ q)%string :: mid1 ++ [v])%list ->
  ~ In "pods" pre1 ->
  strings.Split targetPath2 filepath_Separator
  = (pre2 ++ "pods" :: p :: mid2 ++ [(q ++ "-" ++ v)%string])%list ->
  ~ In "pods" pre2 ->
  getContainerNameFromTargetPath targetPath1
  = Ok ("v3io-fuse-" ++ p ++ "-" ++ q ++ "-" ++ v)
  /\ getContainerNameFromTargetPath targetPath2
     = getContainerNameFromTargetPath targetPath1.
Proof.
  intros H1 Hp1 H2 Hp2.
  rewrite (resolve_found _ _ _ _ H1 Hp1), (resolve_found _ _ _ _ H2 Hp2).
  rewrite H1, H2.
  replace (pre1 ++ "pods" :: (p ++ "-" ++ q)%string :: mid1 ++ [v])%list
    with ((pre1 ++ "pods" :: (p ++ "-" ++ q)%string :: mid1) ++ [v])%list
    by (rewrite <- app_assoc; reflexivity).
  replace (pre2 ++ "pods" :: p :: mid2 ++ [(q ++ "-" ++ v)%string])%list
    with ((pre2 ++ "pods" :: p :: mid2) ++ [(q ++ "-" ++ v)%string])%list
    by (rewrite <- app_assoc; reflexivity).
  rewrite !last_app_one.
  assert (Heq : (p ++ "-" ++ q) ++ "-" ++ v = p ++ "-" ++ q ++ "-" ++ v)
    by (rewrite !append_assoc; reflexivity).
  rewrite Heq. split; reflexivity.
Qed.

End Collisions.

Section Escaping.

Context {imports : Imports}.

Lemma Join_singletons (c : ascii) (l : list ascii) :
  list_ascii_of_string
    (strings.Join (map (fun c => String c "") (c :: l)) "\")
  = c :: flat_map (fun c => ["\"%char; c]) l.
Proof.
  revert c. induction l as [|d l IH]; intros c; [reflexivity|].
  change (strings.Join (map (fun c => String c "") (c :: d :: l)) "\")
    with (String c ("\" ++ strings.Join (map (fun c => String c "") (d :: l)) "\")).
  cbn [list_ascii_of_string append flat_map app]. now rewrite IH.
Qed.

(** X11: when [strings.Split] with the empty separator cuts a name into
    its bytes, as it does on ASCII text, the escaped form of a name that
    is not empty is every byte of the name with a backslash before
    it. *)
Theorem backslashEncoded_bytes (s : string) :
  strings_Split_chars s = map (fun c => String c "") (list_ascii_of_string s) ->
  s <> "" ->
  list_ascii_of_string (backslashEncoded s)
  = flat_map (fun c => ["\"%char; c]) (list_ascii_of_string s).
Proof.
  intros Hsplit Hs. unfold backslashEncoded. rewrite Hsplit.
  destruct s as [|c s]; [congruence|].
  cbn [list_ascii_of_string append flat_map app].
  now rewrite Join_singletons.
Qed.

End Escaping.

Section NoRollback.

Context {W : Type} {host : Host W} {imports : Imports}.

Lemma occurrence_in_list (p : Event -> bool) (a b pre post : list Event)
    (x y : Event) :
  filter p a = [] -> filter p b = [] -> p y = true ->
  (a ++ x :: b)%list = (pre ++ y :: post)%list -> post = b.
Proof.
  intros Ha Hb Hy Heq.
  now destruct (one_occurrence p a b pre post x y Ha Hb Hy Heq) as (_ & _ & ->).
Qed.

Lemma BindRun_after_create (targetPath image : string)
    (containerName : result string) (args : result (list string))
    (opened : result CRI) (tail : list Event) (r : error) :
  BindRun targetPath image containerName args opened tail r ->
  forall image' n target a e,
    In (EvCreateContainer image' n target a e) tail ->
    exists removed after,
      tail = (EvRemoveContainer n removed
              :: EvCreateContainer image' n target a e :: after)%list
      /\ forall ev, In ev after -> isPollCall ev = true \/ isClose ev = true.
Proof.
  destruct 1; intros image' n' target a' e' Hin; cbn [app] in Hin.
  - destruct Hin.
  - destruct Hin as [Hin|[]]. discriminate.
  - destruct Hin as [Hin|[]]. discriminate.
  - destruct Hin as [Hin|[Hin|[Hin|[]]]]; try discriminate.
    injection Hin as <- <- <- <- <-.
    exists removed, [EvClose closed]. split; [reflexivity|].
    intros ev [<-|[]]. now right.
  - destruct Hin as [Hin|[Hin|Hin]]; [discriminate| |].
    + injection Hin as <- <- <- <- <-.
      exists removed, (pollTrace outs [1; 2; 4; 2; 1]%Z
                       ++ [EvMount out; EvClose closed])%list.
      split; [reflexivity|]. intros ev Hev.
      apply in_app_or in Hev. destruct Hev as [Hev|[<-|[<-|[]]]];
        [left; now apply pollTrace_calls in Hev|now left|now right].
    + apply in_app_or in Hin. destruct Hin as [Hin|[Hin|[Hin|[]]]];
        try discriminate.
      apply pollTrace_calls in Hin. discriminate.
  - destruct Hin as [Hin|[Hin|Hin]]; [discriminate| |].
    + injection Hin as <- <- <- <- <-.
      exists removed, (pollTrace outs [1; 2; 4; 2; 1]%Z ++ [EvClose closed])%list.
      split; [reflexivity|]. intros ev Hev.
      apply in_app_or in Hev. destruct Hev as [Hev|[<-|[]]];
        [left; now apply pollTrace_calls in Hev|now right].
    + apply in_app_or in Hin. destruct Hin as [Hin|[Hin|[]]];
        try discriminate.
      apply pollTrace_calls in Hin. discriminate.
Qed.

(** X12: [Mount] never takes back what it did.  Once it asked the
    runtime to create the container, it asks for no removal and no
    second creation of a container and starts no [umount], whatever
    comes next: a failed creation, a timeout of the polling or a
    directory that cannot be made leave the container to the caller. *)
Theorem Mount_keeps_container (m : Mounter) (targetPath specString : string)
    (w : W) (pre post : list Event) (image n target : string)
    (a : list string) (e : error) :
  traceOf (Mount m targetPath specString) w
  = (pre ++ EvCreateContainer image n target a e :: post)%list ->
  forall ev, In ev post ->
    isRemoveContainer ev = false /\ isCreateContainer ev = false
    /\ isUmount ev = false.
Proof.
  intros Hsplit.
  assert (Hin : In (EvCreateContainer image n target a e)
                   (traceOf (Mount m targetPath specString) w))
    by (rewrite Hsplit; apply in_or_app; right; now left).
  destruct (Mount_around_bind m targetPath specString w)
    as (front & back & Hquiet & [Htr|(spec & w1 & _ & _ & Htr)]);
    rewrite Htr in Hin, Hsplit.
  { apply in_app_or in Hin. apply Hquiet in Hin. destruct Hin. discriminate. }
  set (path := if String.eqb (Type_ (Config_ m)) "link"
               then path.Join ["/mnt/v3io"; Namespace spec; Container spec]
               else targetPath) in *.
  destruct (createV3IOFUSEContainer_runs m spec path w1) as (tail & Hbound & Hrun).
  rewrite Hbound in Hin, Hsplit.
  apply in_app_or in Hin. destruct Hin as [Hin|Hin].
  { destruct (Hquiet _ (or_introl Hin)). discriminate. }
  apply in_app_or in Hin. destruct Hin as [Hin|Hin].
  2:{ destruct (Hquiet _ (or_intror Hin)). discriminate. }
  apply in_app_or in Hin. destruct Hin as [Hin|Hin].
  { apply traceOf_createCRI_calls in Hin. discriminate. }
  destruct (BindRun_after_create _ _ _ _ _ _ _ Hrun _ _ _ _ _ Hin)
    as (removed & after & -> & Hafter).
  assert (Hf : filter isCreateContainer
                 (front ++ traceOf createCRI w1 ++ [EvRemoveContainer n removed])
               = []).
  { apply filter_nil_In. intros ev Hev.
    apply in_app_or in Hev. destruct Hev as [Hev|Hev].
    { destruct (Hquiet _ (or_introl Hev)). now destruct ev. }
    apply in_app_or in Hev. destruct Hev as [Hev|[<-|[]]]; [|reflexivity].
    apply traceOf_createCRI_calls in Hev. now destruct ev. }
  assert (Hb : filter isCreateContainer (after ++ back) = []).
  { apply filter_nil_In. intros ev Hev.
    apply in_app_or in Hev. destruct Hev as [Hev|Hev].
    - destruct (Hafter _ Hev); now destruct ev.
    - destruct (Hquiet _ (or_intror Hev)). now destruct ev. }
  assert (Hpost : post = (after ++ back)%list).
  { apply (occurrence_in_list isCreateContainer _ _ pre post
             (EvCreateContainer image n target a e)
             (EvCreateContainer image n target a e) Hf Hb eq_refl).
    rewrite <- Hsplit, <- !app_assoc. cbn [app]. reflexivity. }
  subst post. intros ev Hev.
  apply in_app_or in Hev. destruct Hev as [Hev|Hev].
  - destruct (Hafter _ Hev); now destruct ev.
  - destruct (Hquiet _ (or_intror Hev)). now destruct ev.
Qed.

End NoRollback.

(** ** The properties above on the scripted host *)


Lemma Unmount_order_witness :
  let w := Sim.mountedBetween Sim.podPath 0 (2 * time_Second) in
  let tr := traceOf (Unmount Sim.direct Sim.podPath) w in
  exists pre post pre' out,
    tr = (pre ++ EvRemove Sim.podPath None :: post)%list
    /\ pre = (pre' ++ [EvMount out])%list
    /\ mountedIn out Sim.podPath = false.
Proof.
  intros w tr.
  assert (Hsplit : tr = (firstn 10 tr ++ EvRemove Sim.podPath None
                         :: skipn 11 tr)%list)
    by (vm_compute; reflexivity).
  destruct (proj1 (Unmount_order (host := Sim.host) Sim.direct Sim.podPath w
                     ltac:(discriminate))
              (firstn 10 tr) Sim.podPath None (skipn 11 tr) Hsplit)
    as (_ & pre' & out & Hpre & Hfree).
  exists (firstn 10 tr), (skipn 11 tr), pre', out.
  split; [exact Hsplit|]. split; [exact Hpre | exact Hfree].
Defined.

Lemma Unmount_removal_failure_witness :
  let w := Sim.withRemoveContainer (fun n => Some (Sim.EIO n))
             (Sim.mountedBetween Sim.podPath 0 (100 * time_Second)) in
  resultOf (Unmount Sim.direct Sim.podPath) w
  = NewFailResponse "Failed to remove v3io FUSE container"
      (Some (fmt_Errorf ("Could not remove container for " ++ Sim.podPath ++ ": "
                         ++ Error (Sim.EIO "v3io-fuse-0c08-vol1")))).
Proof.
  intros w.
  assert (Hin : In (EvRemoveContainer "v3io-fuse-0c08-vol1"
                      (Some (Sim.EIO "v3io-fuse-0c08-vol1")))
                   (traceOf (Unmount Sim.direct Sim.podPath) w))
    by (vm_compute; tauto).
  exact (proj1 (Unmount_removal_failure (host := Sim.host)
                  Sim.direct Sim.podPath w _ _ Hin)).
Defined.

Lemma Mount_creates_after_removal_witness :
  let w := Sim.mountedBetween Sim.podPath time_Second (100 * time_Second) in
  let imports := Sim.imports (fun _ => Ok Sim.bigdata) Sim.noDirs in
  exists removed before after,
    traceOf (Mount Sim.direct Sim.podPath "{}") w
    = (before ++ EvRemoveContainer "v3io-fuse-0c08-vol1" removed
       :: EvCreateContainer "iguazio/v3io-fuse:local" "v3io-fuse-0c08-vol1"
            Sim.podPath
            ["/fuse/mounter.sh"; "-o"; "allow_other";
             "--connection_strings"; "tcp://default:1234";
             "--mountpoint"; "/fuse_mount"; "--session_key"; "key";
             "-a"; "\b\i\g\d\a\t\a"] None
       :: after)%list.
Proof.
  intros w imports.
  assert (Hin : In (EvCreateContainer "iguazio/v3io-fuse:local"
                      "v3io-fuse-0c08-vol1" Sim.podPath
                      ["/fuse/mounter.sh"; "-o"; "allow_other";
                       "--connection_strings"; "tcp://default:1234";
                       "--mountpoint"; "/fuse_mount"; "--session_key"; "key";
                       "-a"; "\b\i\g\d\a\t\a"] None)
                   (traceOf (Mount Sim.direct Sim.podPath "{}") w))
    by (vm_compute; tauto).
  exact (proj2 (Mount_creates_after_removal (host := Sim.host) (imports := imports)
                  Sim.direct Sim.podPath "{}" w) _ _ _ _ _ Hin).
Defined.

Lemma Mount_container_identity_witness :
  let w := Sim.mountedBetween Sim.podPath time_Second (100 * time_Second) in
  getContainerNameFromTargetPath Sim.podPath = Ok "v3io-fuse-0c08-vol1"
  /\ exists spec,
       Sim.noSpec "{}" <> Ok spec
       /\ Sim.podPath
          = if String.eqb (Type_ (Config_ Sim.direct)) "link"
            then path.Join ["/mnt/v3io"; Namespace spec; Container spec]
            else Sim.podPath.
Proof.
  intros w.
  pose (imports := Sim.imports (fun _ => Ok Sim.bigdata) Sim.noDirs).
  assert (Hin : In (EvCreateContainer "iguazio/v3io-fuse:local"
                      "v3io-fuse-0c08-vol1" Sim.podPath
                      ["/fuse/mounter.sh"; "-o"; "allow_other";
                       "--connection_strings"; "tcp://default:1234";
                       "--mountpoint"; "/fuse_mount"; "--session_key"; "key";
                       "-a"; "\b\i\g\d\a\t\a"] None)
                   (traceOf (Mount (imports := imports)
                                   Sim.direct Sim.podPath "{}") w))
    by (vm_compute; tauto).
  destruct (Mount_container_identity (host := Sim.host) (imports := imports)
              Sim.direct Sim.podPath "{}" w _ _ _ _ _ Hin)
    as (_ & Hname & (spec & _ & Htarget) & _).
  split; [exact Hname|]. exists spec. split; [discriminate | exact Htarget].
Defined.

Lemma runtime_client_is_closed_witness :
  let w := Sim.mountedBetween Sim.podPath time_Second (100 * time_Second) in
  let spec := mkSpec "" "bigdata" "" "key" "ns" "[{name:a/b}]" in
  let imports := Sim.imports (fun _ => Ok spec)
                   (fun _ => Ok [mkDirToCreate "a/b" 493]) in
  let tr := traceOf (Mount Sim.direct Sim.podPath "{}") w in
  exists pre post,
    tr = (pre ++ EvClose None :: post)%list
    /\ post <> []
    /\ Forall (fun ev => isRuntimeCall ev = false) post.
Proof.
  intros w spec imports tr.
  assert (Hsplit : tr = (firstn 8 tr ++ EvClose None :: skipn 9 tr)%list)
    by (vm_compute; reflexivity).
  exists (firstn 8 tr), (skipn 9 tr).
  split; [exact Hsplit|]. split; [vm_compute; discriminate|].
  apply Forall_forall.
  exact (proj2 (proj2 (proj1 (runtime_client_is_closed
                                (host := Sim.host) (imports := imports)
                                Sim.direct Sim.podPath "{}" w)))
           (firstn 8 tr) None (skipn 9 tr) Hsplit).
Defined.

Lemma Mount_link_leaves_directories_witness :
  let imports := Sim.imports (fun _ => Ok Sim.bigdata) Sim.noDirs in
  exists spec,
    json_Unmarshal_Spec "{}" = Ok spec
    /\ "/mnt/v3io/ns/bigdata"
       = path.Join ["/mnt/v3io"; Namespace spec; Container spec].
Proof.
  intros imports.
  assert (Hin : In (EvMkdirAll "/mnt/v3io/ns/bigdata" 493 None)
                   (traceOf (Mount Sim.link Sim.podPath "{}") Sim.quiet))
    by (vm_compute; tauto).
  exact (proj2 (proj1 (Mount_link_leaves_directories
                         (host := Sim.host) (imports := imports)
                         Sim.link Sim.podPath "{}" Sim.quiet eq_refl _ Hin)
                  "/mnt/v3io/ns/bigdata" 493%N None eq_refl)).
Defined.

Lemma createDirsLoop_in_sequence_witness :
  let a := mkDirToCreate "a" 493 in
  let abs := mkDirToCreate "/etc" 493 in
  let b := mkDirToCreate "b" 493 in
  resultOf (createDirsLoop "/t" ([a] ++ abs :: [b])) Sim.quiet
  = Some (fmt_Errorf "Only creation of relative path is supported (/etc)")
  /\ traceOf (createDirsLoop "/t" ([a] ++ abs :: [b])) Sim.quiet
     = [EvStat "/t/a" (Some (Sim.ENOENT "/t/a")); EvMkdirAll "/t/a" 493 None].
Proof.
  intros a abs b.
  exact (proj2 (createDirsLoop_in_sequence (host := Sim.host) "/t" [a] [b] Sim.quiet)
           abs eq_refl eq_refl).
Defined.

Lemma identity_collides_witness :
  getContainerNameFromTargetPath "/var/lib/kubelet/pods/a/volumes/v3io~fuse/b-c"
  = getContainerNameFromTargetPath "/var/lib/kubelet/pods/a-b/volumes/v3io~fuse/c".
Proof.
  refine (proj2 (identity_collides
                   "/var/lib/kubelet/pods/a-b/volumes/v3io~fuse/c"
                   "/var/lib/kubelet/pods/a/volumes/v3io~fuse/b-c"
                   [""; "var"; "lib"; "kubelet"] [""; "var"; "lib"; "kubelet"]
                   ["volumes"; "v3io~fuse"] ["volumes"; "v3io~fuse"]
                   "a" "b" "c" _ _ _ _));
    try reflexivity;
    simpl; intros H; repeat (destruct H as [H|H]; [discriminate|]); exact H.
Defined.

Lemma backslashEncoded_bytes_witness :
  list_ascii_of_string
    (backslashEncoded (imports := Sim.imports Sim.noSpec Sim.noDirs) "bigdata")
  = list_ascii_of_string "\b\i\g\d\a\t\a".
Proof.
  refine (backslashEncoded_bytes (imports := Sim.imports Sim.noSpec Sim.noDirs)
            "bigdata" _ _); [reflexivity | discriminate].
Defined.

Lemma Mount_keeps_container_witness :
  let w := Sim.quiet in
  let imports := Sim.imports (fun _ => Ok Sim.bigdata) Sim.noDirs in
  let tr := traceOf (Mount Sim.direct Sim.podPath "{}") w in
  isSuccess (resultOf (Mount Sim.direct Sim.podPath "{}") w) = false
  /\ exists pre post,
       tr = (pre ++ EvCreateContainer "iguazio/v3io-fuse:local"
                      "v3io-fuse-0c08-vol1" Sim.podPath
                      ["/fuse/mounter.sh"; "-o"; "allow_other";
                       "--connection_strings"; "tcp://default:1234";
                       "--mountpoint"; "/fuse_mount"; "--session_key"; "key";
                       "-a"; "\b\i\g\d\a\t\a"] None
             :: post)%list
       /\ Forall (fun ev => isRemoveContainer ev = false) post.
Proof.
  intros w imports tr.
  split; [vm_compute; reflexivity|].
  assert (Hsplit :
            tr = (firstn 4 tr
                  ++ EvCreateContainer "iguazio/v3io-fuse:local"
                       "v3io-fuse-0c08-vol1" Sim.podPath
                       ["/fuse/mounter.sh"; "-o"; "allow_other";
                        "--connection_strings"; "tcp://default:1234";
                        "--mountpoint"; "/fuse_mount"; "--session_key"; "key";
                        "-a"; "\b\i\g\d\a\t\a"] None
                  :: skipn 5 tr)%list)
    by (vm_compute; reflexivity).
  exists (firstn 4 tr), (skipn 5 tr). split; [exact Hsplit|].
  apply Forall_forall. intros ev Hev.
  exact (proj1 (Mount_keeps_container (host := Sim.host) (imports := imports)
                  Sim.direct Sim.podPath "{}" w _ _ _ _ _ _ _ Hsplit ev Hev)).
Defined.
